(** * pqt_generator: decode stage and template-packaging stage

    A shallow embedding of [batch_decode_dataflows.py], of
    [create_pqt_from_workspace.py] and of [process_dataflows.py], with
    the properties of both stages.

    Embedded from [batch_decode_dataflows.py]:
    [decode_dataflow_definition], [extract_metadata_from_filename],
    [batch_decode_directory], [main].  Embedded from
    [create_pqt_from_workspace.py]: [find_dataflow_items],
    [read_item_mapping], [create_mashup_metadata], [create_metadata],
    [create_content_types_xml], [create_pqtzip_structure],
    [create_pqt_archive], [create_output_mapping],
    [copy_dataflow_items], [process_workspace], [main].  Embedded from
    [process_dataflows.py]: [main], from the parsed arguments on.  A
    loop body or the body of a [try] that the source writes inline has
    a definition of its own here, named after what it does and marked
    with the lines it stands for.

    Conventions of the embedding.
    - A Python [str] is a Rocq [string] holding its UTF-8 encoding; a
      Python [bytes] object is a Rocq [string] holding the bytes.
    - A value obtained from [json.load] is a [value]; a Python [dict]
      is an association list in insertion order.
    - Effectful code runs in the monad [M]: it threads a [world] (the
      file system and the console) and either returns or raises.  The
      steps of the conversion that print lines of their own run in
      [Script.P], on a [session]: the world and those lines.
    - The modules [base64], [utf8] and [json] model the functions of
      the Python library the code calls; [Fs] and the operations on
      [world] model a POSIX file system whose paths are taken
      literally (no symbolic links, no resolution of [.] and [..]);
      a path is given in the form [pathlib] prints it in, and what
      [Path.resolve] makes of it is left open; text files are written
      without newline translation.

    The file has three parts: the embedding, the vocabulary of the
    statements, the properties. *)

From Stdlib Require Import String Ascii List ZArith NArith Bool Arith Lia.
From Stdlib Require Import DecimalString DecimalNat Sorted.
Import ListNotations.
Open Scope string_scope.

Set Implicit Arguments.
Set Warnings "-register-all".

(** ** Python string methods *)

Module Str.

(** [s.startswith(p)] *)
Fixpoint startswith (p s : string) : bool :=
  match p with
  | EmptyString => true
  | String a p' =>
      match s with
      | EmptyString => false
      | String b s' => Ascii.eqb a b && startswith p' s'
      end
  end.

Fixpoint drop (n : nat) (s : string) : string :=
  match n, s with
  | O, _ => s
  | S n', EmptyString => EmptyString
  | S n', String _ s' => drop n' s'
  end.

Fixpoint take (n : nat) (s : string) : string :=
  match n, s with
  | O, _ => EmptyString
  | S n', EmptyString => EmptyString
  | S n', String c s' => String c (take n' s')
  end.

(** [s.endswith(p)] *)
Definition endswith (s p : string) : bool :=
  (String.length p <=? String.length s)%nat
  && String.eqb (drop (String.length s - String.length p) s) p.

(** [s.replace(old, new)] for a non-empty [old]: occurrences are found
    scanning left to right and do not overlap.  [skip] counts the
    characters of a match that are still to be passed over. *)
Fixpoint replace_from (old new : string) (skip : nat) (s : string) : string :=
  match s with
  | EmptyString => EmptyString
  | String c s' =>
      match skip with
      | S k => replace_from old new k s'
      | O =>
          if startswith old s
          then new ++ replace_from old new (String.length old - 1) s'
          else String c (replace_from old new 0 s')
      end
  end.

Definition replace (old new s : string) : string := replace_from old new 0 s.

(** [s.split(sep)] for a non-empty [sep]; [cur] is the token being read. *)
Fixpoint split_from (sep : string) (skip : nat) (cur : string) (s : string)
  : list string :=
  match s with
  | EmptyString => [cur]
  | String c s' =>
      match skip with
      | S k => split_from sep k cur s'
      | O =>
          if startswith sep s
          then cur :: split_from sep (String.length sep - 1) "" s'
          else split_from sep 0 (cur ++ String c "") s'
      end
  end.

Definition split (sep s : string) : list string := split_from sep 0 "" s.

(** [sub in s] *)
Fixpoint contains (sub s : string) : bool :=
  startswith sub s ||
  match s with
  | EmptyString => false
  | String _ s' => contains sub s'
  end.

End Str.

(** ** Filename metadata ([batch_decode_dataflows.py], lines 101-130) *)

Record file_metadata := {
  workspace_id : string;
  item_id : string;
  name : string;
  type : string
}.

(** [parts[i]]; every use below is guarded by [len(parts) >= 5]. *)
Definition item (parts : list string) (i : nat) : string := nth i parts "".

(** The body of the [try] cannot raise on a [str] argument, so the
    function is total: [None] is Python's [None]. *)
Definition extract_metadata_from_filename (filename : string) : option file_metadata :=
  let name_parts := Str.replace ".json" "" filename in
  let parts := Str.split "__" name_parts in
  if (5 <=? List.length parts)%nat && String.eqb (item parts 0) "WS" then
    Some {| workspace_id := item parts 1;
            item_id := item parts 2;
            name := item parts 3;
            type := item parts 4 |}
  else None.

(** The parser as the specification words it: the [.json] extension is
    removed (once, at the end), then the stem is split. *)
Definition remove_json_extension (filename : string) : string :=
  if Str.endswith filename ".json"
  then Str.take (String.length filename - 5) filename
  else filename.

Definition spec_tokens (filename : string) : list string :=
  Str.split "__" (remove_json_extension filename).

Definition spec_parse_filename (filename : string) : option file_metadata :=
  let parts := spec_tokens filename in
  if (5 <=? List.length parts)%nat && String.eqb (item parts 0) "WS" then
    Some {| workspace_id := item parts 1;
            item_id := item parts 2;
            name := item parts 3;
            type := item parts 4 |}
  else None.

(** ** Python values and exceptions *)

(** The values [json.load] produces.  A [float] is kept as the literal
    that denotes it; a [dict] lists its items in insertion order. *)
Inductive value :=
| VNone
| VBool (b : bool)
| VInt (z : Z)
| VFloat (literal : string)
| VStr (s : string)
| VList (l : list value)
| VDict (items : list (string * value)).

(** The exception classes the modelled code can meet; every one of them
    derives from [Exception]. *)
Inductive exn :=
| AttributeError | TypeError | KeyError | ValueError
| binascii_Error | UnicodeDecodeError | JSONDecodeError
| FileNotFoundError | FileExistsError | IsADirectoryError
| NotADirectoryError | PermissionError | SameFileError | shutil_Error
| IndexError.

Definition is_PermissionError (e : exn) : bool :=
  match e with PermissionError => true | _ => false end.

(** The outcome of evaluating an expression that may raise. *)
Inductive result (A : Type) :=
| Ok (a : A)
| Raise (e : exn).
Arguments Ok {A} a.
Arguments Raise {A} e.

(** A float literal denotes zero when its mantissa has no digit but 0
    (underflow of a non-zero literal is left aside). *)
Fixpoint zero_mantissa (literal : string) : bool :=
  match literal with
  | EmptyString => true
  | String c rest =>
      if Ascii.eqb c "e" || Ascii.eqb c "E" then true
      else (Ascii.eqb c "0" || Ascii.eqb c "." || Ascii.eqb c "-")
           && zero_mantissa rest
  end.

(** [bool(v)] *)
Definition truthy (v : value) : bool :=
  match v with
  | VNone => false
  | VBool b => b
  | VInt z => negb (Z.eqb z 0)
  | VFloat literal => negb (zero_mantissa literal)
  | VStr s => negb (String.eqb s "")
  | VList l => match l with [] => false | _ => true end
  | VDict d => match d with [] => false | _ => true end
  end.

(** [v == s] for a [str] literal [s] *)
Definition eq_str (v : value) (s : string) : bool :=
  match v with VStr s' => String.eqb s' s | _ => false end.

(** Dictionary lookup on the item list. *)
Fixpoint lookup (k : string) (d : list (string * value)) : option value :=
  match d with
  | [] => None
  | (k', v) :: d' => if String.eqb k' k then Some v else lookup k d'
  end.

(** [d.get(k, default)]; raises [AttributeError] when [d] is not a dict. *)
Definition get (d : value) (k : string) (default : value) : result value :=
  match d with
  | VDict items =>
      match lookup k items with Some v => Ok v | None => Ok default end
  | _ => Raise AttributeError
  end.

(** ** [base64.b64decode] *)

Module base64.

Definition is_ascii (s : string) : bool :=
  forallb (fun c => N.ltb (N_of_ascii c) 128) (list_ascii_of_string s).

(** Position of a character in the standard alphabet. *)
Definition index (c : ascii) : option N :=
  let n := N_of_ascii c in
  (if (65 <=? n) && (n <=? 90) then Some (n - 65)
   else if (97 <=? n) && (n <=? 122) then Some (n - 71)
   else if (48 <=? n) && (n <=? 57) then Some (n + 4)
   else if n =? 43 then Some 62
   else if n =? 47 then Some 63
   else None)%N.

Definition emit (b : N) (r : option string) : option string :=
  option_map (String (ascii_of_N b)) r.

(** [binascii.a2b_base64] without strict mode: characters outside the
    alphabet are skipped, a complete pad sequence ends the input, and
    an incomplete final quad is an error. *)
Fixpoint a2b (s : string) (quad_pos : nat) (leftchar : N) (pads : nat)
  : option string :=
  match s with
  | EmptyString => if (quad_pos =? 0)%nat then Some "" else None
  | String c s' =>
      if Ascii.eqb c "=" then
        if (2 <=? quad_pos)%nat then
          if (4 <=? quad_pos + S pads)%nat then Some ""
          else a2b s' quad_pos leftchar (S pads)
        else a2b s' quad_pos leftchar pads
      else
        match index c with
        | None => a2b s' quad_pos leftchar pads
        | Some this_ch =>
            match quad_pos with
            | 0%nat => a2b s' 1%nat this_ch 0%nat
            | 1%nat =>
                emit (N.lor (N.shiftl leftchar 2) (N.shiftr this_ch 4))
                     (a2b s' 2%nat (N.land this_ch 15) 0%nat)
            | 2%nat =>
                emit (N.lor (N.shiftl leftchar 4) (N.shiftr this_ch 2))
                     (a2b s' 3%nat (N.land this_ch 3) 0%nat)
            | _ =>
                emit (N.lor (N.shiftl leftchar 6) this_ch)
                     (a2b s' 0%nat 0 0%nat)
            end
        end
  end%N.

(** [base64.b64decode(payload)] on a value read from JSON. *)
Definition b64decode (payload : value) : result string :=
  match payload with
  | VStr s =>
      if is_ascii s then
        match a2b s 0 0 0 with
        | Some bytes => Ok bytes
        | None => Raise binascii_Error
        end
      else Raise ValueError
  | _ => Raise TypeError
  end.

End base64.

(** ** [bytes.decode('utf-8')] *)

Module utf8.

Definition within (lo hi n : N) : bool := ((lo <=? n) && (n <=? hi))%N.
Definition cont (n : N) : bool := within 128 191 n.

(** Well-formed byte sequences (Unicode, table 3-7): no overlong form,
    no surrogate, nothing above U+10FFFF. *)
Fixpoint valid (s : string) : bool :=
  match s with
  | EmptyString => true
  | String b0 s1 =>
      let n0 := N_of_ascii b0 in
      if (n0 <=? 127)%N then valid s1 else
      match s1 with
      | EmptyString => false
      | String b1 s2 =>
          let n1 := N_of_ascii b1 in
          if within 194 223 n0 then cont n1 && valid s2 else
          match s2 with
          | EmptyString => false
          | String b2 s3 =>
              let n2 := N_of_ascii b2 in
              if (n0 =? 224)%N then within 160 191 n1 && cont n2 && valid s3
              else if within 225 236 n0 then cont n1 && cont n2 && valid s3
              else if (n0 =? 237)%N then within 128 159 n1 && cont n2 && valid s3
              else if within 238 239 n0 then cont n1 && cont n2 && valid s3
              else
              match s3 with
              | EmptyString => false
              | String b3 s4 =>
                  let n3 := N_of_ascii b3 in
                  if (n0 =? 240)%N
                  then within 144 191 n1 && cont n2 && cont n3 && valid s4
                  else if within 241 243 n0
                  then cont n1 && cont n2 && cont n3 && valid s4
                  else if (n0 =? 244)%N
                  then within 128 143 n1 && cont n2 && cont n3 && valid s4
                  else false
              end
          end
      end
  end.

(** [bytes.decode('utf-8')]: the text is the byte string itself. *)
Definition decode (bytes : string) : result string :=
  if valid bytes then Ok bytes else Raise UnicodeDecodeError.

(** The code points of a text. *)
Fixpoint codepoints (s : string) : list N :=
  match s with
  | EmptyString => []
  | String b0 s1 =>
      let n0 := N_of_ascii b0 in
      if (n0 <? 192)%N then n0 :: codepoints s1 else
      match s1 with
      | EmptyString => [n0]
      | String b1 s2 =>
          let n1 := (N_of_ascii b1 mod 64)%N in
          if (n0 <? 224)%N then ((n0 mod 32) * 64 + n1)%N :: codepoints s2 else
          match s2 with
          | EmptyString => [n0]
          | String b2 s3 =>
              let n2 := (N_of_ascii b2 mod 64)%N in
              if (n0 <? 240)%N
              then ((n0 mod 16) * 4096 + n1 * 64 + n2)%N :: codepoints s3 else
              match s3 with
              | EmptyString => [n0]
              | String b3 s4 =>
                  let n3 := (N_of_ascii b3 mod 64)%N in
                  ((n0 mod 8) * 262144 + n1 * 4096 + n2 * 64 + n3)%N
                    :: codepoints s4
              end
          end
      end
  end.

(** [chr(n).encode('utf-8')] *)
Definition encode (n : N) : string :=
  let b (x : N) := ascii_of_N x in
  (if n <? 128 then String (b n) ""
   else if n <? 2048 then
     String (b (192 + n / 64)) (String (b (128 + n mod 64)) "")
   else if n <? 65536 then
     String (b (224 + n / 4096))
       (String (b (128 + (n / 64) mod 64)) (String (b (128 + n mod 64)) ""))
   else
     String (b (240 + n / 262144))
       (String (b (128 + (n / 4096) mod 64))
          (String (b (128 + (n / 64) mod 64))
             (String (b (128 + n mod 64)) ""))))%N.

End utf8.

(** [for x in v]: the elements the loop visits (the items of a list, the
    keys of a dict, the characters of a str). *)
Definition iterate (v : value) : result (list value) :=
  match v with
  | VList l => Ok l
  | VDict items => Ok (map (fun kv => VStr (fst kv)) items)
  | VStr s => Ok (map (fun n => VStr (utf8.encode n)) (utf8.codepoints s))
  | _ => Raise TypeError
  end.

(** ** The [json] module *)

Module json.

Definition is_ws (c : ascii) : bool :=
  let n := N_of_ascii c in
  ((n =? 32) || (n =? 9) || (n =? 10) || (n =? 13))%N.

Fixpoint skip_ws (s : string) : string :=
  match s with
  | String c s' => if is_ws c then skip_ws s' else s
  | EmptyString => s
  end.

Definition is_digit (c : ascii) : bool := utf8.within 48 57 (N_of_ascii c).

(** The longest prefix of digits, and what follows it. *)
Fixpoint digits (s : string) : string * string :=
  match s with
  | String c s' =>
      if is_digit c then let (d, r) := digits s' in (String c d, r)
      else ("", s)
  | EmptyString => ("", s)
  end.

Definition int_of_digits (neg : bool) (d : string) : Z :=
  match NilZero.uint_of_string d with
  | Some u => if neg then (- Z.of_N (N.of_uint u))%Z else Z.of_N (N.of_uint u)
  | None => 0%Z
  end.

(** The number at the head of [s]: integer part, then an optional
    fraction and an optional exponent, each taken only when complete. *)
Definition scan_number (s : string) : option (value * string) :=
  let (neg, s1) :=
    match s with
    | String "-" r => (true, r)
    | _ => (false, s)
    end in
  let integer :=
    match s1 with
    | String "0" r => Some ("0", r)
    | String c r => if is_digit c then Some (digits s1) else None
    | EmptyString => None
    end in
  match integer with
  | None => None
  | Some (int, r1) =>
      let (frac, r2) :=
        match r1 with
        | String "." r =>
            let (d, r') := digits r in
            if String.eqb d "" then ("", r1) else ("." ++ d, r')
        | _ => ("", r1)
        end in
      let (exp, r3) :=
        match r2 with
        | String e r =>
            if Ascii.eqb e "e" || Ascii.eqb e "E" then
              let (sign, rs) :=
                match r with
                | String "+" r' => ("+", r')
                | String "-" r' => ("-", r')
                | _ => ("", r)
                end in
              let (d, r') := digits rs in
              if String.eqb d "" then ("", r2)
              else (String e (sign ++ d), r')
            else ("", r2)
        | EmptyString => ("", r2)
        end in
      if String.eqb frac "" && String.eqb exp ""
      then Some (VInt (int_of_digits neg int), r3)
      else Some (VFloat ((if neg then "-" else "") ++ int ++ frac ++ exp), r3)
  end.

Definition hex_digit (c : ascii) : option N :=
  let n := N_of_ascii c in
  (if utf8.within 48 57 n then Some (n - 48)
   else if utf8.within 97 102 n then Some (n - 87)
   else if utf8.within 65 70 n then Some (n - 55)
   else None)%N.

Definition hex4 (a b c d : ascii) : option N :=
  match hex_digit a, hex_digit b, hex_digit c, hex_digit d with
  | Some x, Some y, Some z, Some w => Some (((x * 16 + y) * 16 + z) * 16 + w)%N
  | _, _, _, _ => None
  end.

(** The character a one-letter escape stands for. *)
Definition unescape (c : ascii) : option ascii :=
  let n := N_of_ascii c in
  (if n =? 34 then Some c
   else if n =? 92 then Some c
   else if n =? 47 then Some c
   else if n =? 98 then Some (ascii_of_N 8)
   else if n =? 102 then Some (ascii_of_N 12)
   else if n =? 110 then Some (ascii_of_N 10)
   else if n =? 114 then Some (ascii_of_N 13)
   else if n =? 116 then Some (ascii_of_N 9)
   else None)%N.

Definition prepend (t : string) (r : option (string * string))
  : option (string * string) :=
  match r with
  | Some (body, rest) => Some (t ++ body, rest)
  | None => None
  end.

Definition backslash : ascii := ascii_of_N 92.
Definition quote : ascii := ascii_of_N 34.

(** [scanstring] in strict mode, entered after the opening quote.  A
    [\u] escape of a high surrogate followed by one of a low surrogate
    is one character.  An escape that denotes a lone surrogate has no
    UTF-8 form; the model rejects it. *)
Fixpoint scanstring (s : string) : option (string * string) :=
  match s with
  | EmptyString => None
  | String c r =>
      if Ascii.eqb c quote then Some ("", r)
      else if Ascii.eqb c backslash then
        match r with
        | String "u" (String h1 (String h2 (String h3 (String h4 r5)))) =>
            match hex4 h1 h2 h3 h4 with
            | None => None
            | Some uni =>
                if utf8.within 55296 56319 uni then
                  match r5 with
                  | String b (String "u" (String g1 (String g2
                      (String g3 (String g4 r11))))) =>
                      if Ascii.eqb b backslash then
                        match hex4 g1 g2 g3 g4 with
                        | Some uni2 =>
                            if utf8.within 56320 57343 uni2 then
                              prepend
                                (utf8.encode
                                   (65536 + ((uni - 55296) * 1024
                                             + (uni2 - 56320)))%N)
                                (scanstring r11)
                            else None
                        | None => None
                        end
                      else None
                  | _ => None
                  end
                else if utf8.within 56320 57343 uni then None
                else prepend (utf8.encode uni) (scanstring r5)
            end
        | String e r' =>
            match unescape e with
            | Some ch => prepend (String ch "") (scanstring r')
            | None => None
            end
        | EmptyString => None
        end
      else if (N_of_ascii c <? 32)%N then None
      else prepend (String c "") (scanstring r)
  end.

(** [dict(pairs)]: a repeated key keeps its first position and takes
    the last value. *)
Fixpoint setitem (k : string) (v : value) (d : list (string * value))
  : list (string * value) :=
  match d with
  | [] => [(k, v)]
  | (k', v') :: d' =>
      if String.eqb k' k then (k', v) :: d' else (k', v') :: setitem k v d'
  end.

Definition dict (pairs : list (string * value)) : list (string * value) :=
  fold_left (fun d kv => setitem (fst kv) (snd kv) d) pairs [].

(** [scan_once] with the object and array loops; [fuel] bounds the
    nesting and the number of items. *)
Fixpoint scan_once (fuel : nat) (s : string) : option (value * string) :=
  match fuel with
  | O => None
  | S fuel' =>
      match s with
      | String c r =>
          if Ascii.eqb c quote then
            match scanstring r with
            | Some (t, r') => Some (VStr t, r')
            | None => None
            end
          else if Ascii.eqb c "{" then
            match skip_ws r with
            | String "}" r' => Some (VDict [], r')
            | r' =>
                match members fuel' r' with
                | Some (pairs, r'') => Some (VDict (dict pairs), r'')
                | None => None
                end
            end
          else if Ascii.eqb c "[" then
            match skip_ws r with
            | String "]" r' => Some (VList [], r')
            | r' =>
                match elements fuel' r' with
                | Some (l, r'') => Some (VList l, r'')
                | None => None
                end
            end
          else if Str.startswith "null" s then Some (VNone, Str.drop 4 s)
          else if Str.startswith "true" s then Some (VBool true, Str.drop 4 s)
          else if Str.startswith "false" s then Some (VBool false, Str.drop 5 s)
          else
            match scan_number s with
            | Some r' => Some r'
            | None =>
                if Str.startswith "NaN" s
                then Some (VFloat "NaN", Str.drop 3 s)
                else if Str.startswith "Infinity" s
                then Some (VFloat "Infinity", Str.drop 8 s)
                else if Str.startswith "-Infinity" s
                then Some (VFloat "-Infinity", Str.drop 9 s)
                else None
            end
      | EmptyString => None
      end
  end
with members (fuel : nat) (s : string)
  : option (list (string * value) * string) :=
  match fuel with
  | O => None
  | S fuel' =>
      match s with
      | String c r =>
          if Ascii.eqb c quote then
            match scanstring r with
            | Some (key, r1) =>
                match skip_ws r1 with
                | String ":" r2 =>
                    match scan_once fuel' (skip_ws r2) with
                    | Some (v, r3) =>
                        match skip_ws r3 with
                        | String "}" r4 => Some ([(key, v)], r4)
                        | String "," r4 =>
                            match members fuel' (skip_ws r4) with
                            | Some (rest, r5) => Some ((key, v) :: rest, r5)
                            | None => None
                            end
                        | _ => None
                        end
                    | None => None
                    end
                | _ => None
                end
            | None => None
            end
          else None
      | EmptyString => None
      end
  end
with elements (fuel : nat) (s : string) : option (list value * string) :=
  match fuel with
  | O => None
  | S fuel' =>
      match scan_once fuel' s with
      | Some (v, r1) =>
          match skip_ws r1 with
          | String "]" r2 => Some ([v], r2)
          | String "," r2 =>
              match elements fuel' (skip_ws r2) with
              | Some (rest, r3) => Some (v :: rest, r3)
              | None => None
              end
          | _ => None
          end
      | None => None
      end
  end.

(** [json.loads(s)] *)
Definition loads (s : string) : result value :=
  match scan_once (2 * String.length s + 2) (skip_ws s) with
  | Some (v, rest) =>
      if String.eqb (skip_ws rest) "" then Ok v else Raise JSONDecodeError
  | None => Raise JSONDecodeError
  end.

(** *** Encoding *)

Definition hex_char (n : N) : ascii :=
  (if n <? 10 then ascii_of_N (48 + n) else ascii_of_N (87 + n))%N.

(** The escape [\uXXXX] of a 16-bit unit. *)
Definition u_escape (n : N) : string :=
  String backslash
    (String "u"
       (String (hex_char ((n / 4096) mod 16))
          (String (hex_char ((n / 256) mod 16))
             (String (hex_char ((n / 16) mod 16))
                (String (hex_char (n mod 16)) ""))))).

(** The replacement of one code point inside a string literal. *)
Definition escape (ensure_ascii : bool) (n : N) : string :=
  (if n =? 34 then String backslash (String quote "")
   else if n =? 92 then String backslash (String backslash "")
   else if n =? 10 then String backslash "n"
   else if n =? 13 then String backslash "r"
   else if n =? 9 then String backslash "t"
   else if n =? 12 then String backslash "f"
   else if n =? 8 then String backslash "b"
   else if n <? 32 then u_escape n
   else if negb ensure_ascii || (n <? 127) then utf8.encode n
   else if n <? 65536 then u_escape n
   else
     let v := n - 65536 in
     u_escape (55296 + (v / 1024) mod 1024) ++ u_escape (56320 + v mod 1024))%N.

Definition encode_str (ensure_ascii : bool) (s : string) : string :=
  String quote
    (String.concat "" (map (escape ensure_ascii) (utf8.codepoints s)))
  ++ String quote "".

Definition encode_int (z : Z) : string := NilZero.string_of_int (Z.to_int z).

Fixpoint spaces (n : nat) : string :=
  match n with O => "" | S n' => String " " (spaces n') end.

Definition newline_indent (indent level : nat) : string :=
  String (ascii_of_N 10) (spaces (indent * level)).

(** [json.dumps(v, indent=indent, ensure_ascii=ensure_ascii)] at a
    nesting [level]. *)
Fixpoint encode (ensure_ascii : bool) (indent level : nat) (v : value)
  : string :=
  match v with
  | VNone => "null"
  | VBool true => "true"
  | VBool false => "false"
  | VInt z => encode_int z
  | VFloat literal => literal
  | VStr s => encode_str ensure_ascii s
  | VList [] => "[]"
  | VList (x :: xs) =>
      "[" ++ newline_indent indent (S level)
      ++ encode ensure_ascii indent (S level) x
      ++ (fix rest (l : list value) : string :=
            match l with
            | [] => ""
            | y :: l' =>
                "," ++ newline_indent indent (S level)
                ++ encode ensure_ascii indent (S level) y ++ rest l'
            end) xs
      ++ newline_indent indent level ++ "]"
  | VDict [] => "{}"
  | VDict ((k, x) :: xs) =>
      "{" ++ newline_indent indent (S level)
      ++ encode_str ensure_ascii k ++ ": "
      ++ encode ensure_ascii indent (S level) x
      ++ (fix rest (l : list (string * value)) : string :=
            match l with
            | [] => ""
            | (k', y) :: l' =>
                "," ++ newline_indent indent (S level)
                ++ encode_str ensure_ascii k' ++ ": "
                ++ encode ensure_ascii indent (S level) y ++ rest l'
            end) xs
      ++ newline_indent indent level ++ "}"
  end.

(** [json.dumps(v, indent=indent, ensure_ascii=ensure_ascii)] *)
Definition dumps (ensure_ascii : bool) (indent : nat) (v : value) : string :=
  encode ensure_ascii indent 0 v.

End json.

(** Concrete JSON texts below are written with apostrophes standing for
    the double quotes. *)
Definition dq (s : string) : string :=
  string_of_list_ascii
    (map (fun c => if Ascii.eqb c "'" then json.quote else c)
       (list_ascii_of_string s)).

(** ** The file system and the console *)

(** What a file holds: text or other bytes, or a ZIP archive given by its
    members in the order they were added. *)
Inductive data :=
| Bytes (content : string)
| Zip (members : list (string * data)).

Inductive node :=
| File (d : data)
| Dir.

(** What the program prints, one constructor for each [print] (or block
    of consecutive prints) together with the values it interpolates. *)
Inductive line :=
| ErrorDecoding (path : value) (e : exn)
| DirectoryNotFound (source_dir : string)
| Header (source_dir : string) (found : nat)
| NoJsonFiles
| Processing (idx total : nat) (file_name : string)
| DecodedTo (output_dir : string)
| ItemError (e : exn)
| Summary (success_count error_count : nat)
| PqtzipError (item_name : string) (e : exn)
| PqtzipMissing (item_name : string)
| ArchiveError (item_name : string) (e : exn)
| StructuresHeader
| StructureOk (item_name : string)
| StructureFailed (item_name : string)
| StructuresDone (success_count total : nat)
| ArchivesHeader
| ArchiveOk (item_name : string)
| ArchiveFailed (item_name : string)
| ArchivesDone (pqt_success_count total : nat)
| MovingHeader
| Moved (item_name : string)
| MoveFailed (item_name : string) (e : exn)
| MoveError (item_name : string) (e : exn).

(** The file system lists every file and directory under its path, in
    directory-listing order.  [locked] holds the paths another process
    keeps open: removing or renaming them is refused.  [slept] is the
    time spent in [time.sleep], in milliseconds. *)
Record world := {
  fs : list (string * node);
  locked : list string;
  console : list line;
  slept : N
}.

Module Fs.

Definition t := list (string * node).

Fixpoint find (p : string) (l : t) : option node :=
  match l with
  | [] => None
  | (k, n) :: l' => if String.eqb k p then Some n else find p l'
  end.

(** Replace the node at [p], or list it last when [p] is new. *)
Fixpoint put (p : string) (n : node) (l : t) : t :=
  match l with
  | [] => [(p, n)]
  | (k, m) :: l' =>
      if String.eqb k p then (k, n) :: l' else (k, m) :: put p n l'
  end.

Definition remove (p : string) (l : t) : t :=
  filter (fun kn => negb (String.eqb (fst kn) p)) l.

(** [p] split at its last slash. *)
Fixpoint rsplit (p : string) : option (string * string) :=
  match p with
  | EmptyString => None
  | String c r =>
      match rsplit r with
      | Some (d, b) => Some (String c d, b)
      | None => if Ascii.eqb c "/" then Some ("", r) else None
      end
  end.

(** [os.path.dirname]; the empty path stands for the directory the
    top-level names live in, which always exists. *)
Definition dirname (p : string) : string :=
  match rsplit p with Some (d, _) => d | None => "" end.

(** [os.path.basename], [Path.name] *)
Definition basename (p : string) : string :=
  match rsplit p with Some (_, b) => b | None => p end.

(** [d / name] *)
Definition join (d name : string) : string := d ++ "/" ++ name.

Definition is_dir (l : t) (p : string) : bool :=
  match find p l with Some Dir => true | _ => false end.

Definition is_file (l : t) (p : string) : bool :=
  match find p l with Some (File _) => true | _ => false end.

Definition exists_ (l : t) (p : string) : bool :=
  match find p l with Some _ => true | None => false end.

Definition dir_ok (l : t) (d : string) : bool :=
  String.eqb d "" || is_dir l d.

(** [p] is [d] or lies below it. *)
Definition under (d p : string) : bool :=
  String.eqb p d || Str.startswith (d ++ "/") p.

(** [p] lies directly inside [d]. *)
Definition child_of (d p : string) : bool :=
  match rsplit p with
  | Some (d', _) => String.eqb d' d
  | None => false
  end.

(** The entries directly inside [d], in listing order. *)
Definition children (l : t) (d : string) : list string :=
  filter (child_of d) (map fst l).

(** A path that ends in a slash, in [.] or in [..] names a directory. *)
Definition names_directory (p : string) : bool :=
  String.eqb (basename p) "" || String.eqb (basename p) "."
  || String.eqb (basename p) "..".

(** A path with a NUL character is refused before the system sees it. *)
Definition has_nul (p : string) : bool :=
  existsb (fun c => N.eqb (N_of_ascii c) 0) (list_ascii_of_string p).

(** The error [open(p, 'w')] meets, if any (limits on the length of
    names are not modelled). *)
Definition open_error (l : t) (p : string) : option exn :=
  if has_nul p then Some ValueError
  else if names_directory p then Some IsADirectoryError
  else
    match find p l with
    | Some Dir => Some IsADirectoryError
    | Some (File _) => None
    | None =>
        if dir_ok l (dirname p) then None
        else if exists_ l (dirname p) then Some NotADirectoryError
        else Some FileNotFoundError
    end.

(** The paths [os.makedirs] visits: every ancestor, then [p]. *)
Fixpoint ancestors (acc : string) (p : string) : list string :=
  match p with
  | EmptyString => [acc]
  | String c r =>
      if Ascii.eqb c "/"
      then (if String.eqb acc "" then [] else [acc])
             ++ ancestors (acc ++ "/") r
      else ancestors (acc ++ String c "") r
  end.

(** Rename [src] and everything below it to [dst]. *)
Definition rekey (src dst : string) (k : string) : string :=
  if under src k then dst ++ Str.drop (String.length src) k else k.

Definition rename (src dst : string) (l : t) : t :=
  map (fun kn => (rekey src dst (fst kn), snd kn))
    (filter (fun kn => under src (fst kn) || negb (String.eqb (fst kn) dst)) l).

Definition remove_tree (d : string) (l : t) : t :=
  filter (fun kn => negb (under d (fst kn))) l.

(** The text of the file [p]; empty when there is no such file. *)
Definition text_at (l : t) (p : string) : string :=
  match find p l with
  | Some (File (Bytes s)) => s
  | _ => ""
  end.

Definition is_locked (locks : list string) (p : string) : bool :=
  existsb (fun k => under p k) locks.

End Fs.

(** ** The monad of effectful code *)

Definition M (A : Type) : Type := world -> result A * world.

Definition ret {A} (a : A) : M A := fun w => (Ok a, w).

Definition raise {A} (e : exn) : M A := fun w => (Raise e, w).

Definition bind {A B} (m : M A) (k : A -> M B) : M B :=
  fun w =>
    match m w with
    | (Ok a, w') => k a w'
    | (Raise e, w') => (Raise e, w')
    end.

(** [try: m  except Exception as e: handler e] *)
Definition try_except {A} (m : M A) (handler : exn -> M A) : M A :=
  fun w =>
    match m w with
    | (Ok a, w') => (Ok a, w')
    | (Raise e, w') => handler e w'
    end.

(** An expression that may raise, evaluated in place. *)
Definition lift {A} (r : result A) : M A := fun w => (r, w).

Declare Scope monad_scope.
Delimit Scope monad_scope with monad.
Notation "x <- m ;; k" := (bind m (fun x => k))
  (at level 61, m at next level, right associativity) : monad_scope.
Notation "m ;; k" := (bind m (fun _ => k))
  (at level 61, right associativity) : monad_scope.
Open Scope monad_scope.

Definition with_fs (w : world) (l : Fs.t) : world :=
  {| fs := l; locked := locked w; console := console w; slept := slept w |}.

(** [print(...)] *)
Definition print (l : line) : M unit :=
  fun w => (Ok tt, {| fs := fs w; locked := locked w;
                      console := console w ++ [l]; slept := slept w |}).

(** [time.sleep(ms / 1000)] *)
Definition sleep (ms : N) : M unit :=
  fun w => (Ok tt, {| fs := fs w; locked := locked w;
                      console := console w; slept := (slept w + ms)%N |}).

(** [p.exists()] *)
Definition exists_ (p : string) : M bool := fun w => (Ok (Fs.exists_ (fs w) p), w).

(** [p.is_file()] *)
Definition is_file (p : string) : M bool := fun w => (Ok (Fs.is_file (fs w) p), w).

(** Store [d] in the file [p], created or truncated as [open(p, 'w')]
    does. *)
Definition write_data (p : string) (d : data) : M unit :=
  fun w =>
    match Fs.open_error (fs w) p with
    | Some e => (Raise e, w)
    | None => (Ok tt, with_fs w (Fs.put p (File d) (fs w)))
    end.

(** [with open(p, 'w', encoding='utf-8') as f: f.write(text)] *)
Definition write_text (p : string) (text : string) : M unit :=
  write_data p (Bytes text).

(** [with open(p, 'a', encoding='utf-8') as f: f.write(text)].  The
    bytes of an archive are not represented; appending to one does not
    occur in the modelled code. *)
Definition append_text (p : string) (text : string) : M unit :=
  fun w =>
    match Fs.open_error (fs w) p with
    | Some e => (Raise e, w)
    | None =>
        (Ok tt, with_fs w (Fs.put p (File (Bytes (Fs.text_at (fs w) p ++ text))) (fs w)))
    end.

(** The bytes of the file [p], as [open(p, 'rb').read()]. *)
Definition read_data (p : string) : M data :=
  fun w =>
    match Fs.find p (fs w) with
    | Some (File d) => (Ok d, w)
    | Some Dir => (Raise IsADirectoryError, w)
    | None => (Raise FileNotFoundError, w)
    end.

(** [with open(p, 'r', encoding='utf-8') as f: f.read()]; the bytes of an
    archive are taken not to be text. *)
Definition read_text (p : string) : M string :=
  d <- read_data p ;;
  match d with
  | Bytes s => lift (utf8.decode s)
  | Zip _ => raise UnicodeDecodeError
  end.

(** [with open(p, 'r', encoding='utf-8') as f: json.load(f)] *)
Definition json_load (p : string) : M value :=
  text <- read_text p ;;
  lift (json.loads text).

(** [with open(p, 'w', encoding='utf-8') as f: json.dump(v, f, indent=indent,
    ensure_ascii=ensure_ascii)] *)
Definition json_dump (v : value) (p : string) (indent : nat) (ensure_ascii : bool)
  : M unit :=
  write_text p (json.dumps ensure_ascii indent v).

(** [p.mkdir(exist_ok=True)] *)
Definition mkdir (p : string) : M unit :=
  fun w =>
    match Fs.find p (fs w) with
    | Some Dir => (Ok tt, w)
    | Some (File _) => (Raise FileExistsError, w)
    | None =>
        if Fs.dir_ok (fs w) (Fs.dirname p)
        then (Ok tt, with_fs w (Fs.put p Dir (fs w)))
        else if Fs.exists_ (fs w) (Fs.dirname p) then (Raise NotADirectoryError, w)
        else (Raise FileNotFoundError, w)
    end.

Fixpoint makedirs_each (ps : list string) (l : Fs.t) : result Fs.t :=
  match ps with
  | [] => Ok l
  | p :: ps' =>
      match Fs.find p l with
      | Some Dir => makedirs_each ps' l
      | Some (File _) =>
          Raise (match ps' with [] => FileExistsError | _ => NotADirectoryError end)
      | None => makedirs_each ps' (Fs.put p Dir l)
      end
  end.

(** [os.makedirs(p, exist_ok=True)] *)
Definition makedirs (p : string) : M unit :=
  fun w =>
    match makedirs_each (Fs.ancestors "" p) (fs w) with
    | Ok l => (Ok tt, with_fs w l)
    | Raise e => (Raise e, w)
    end.

(** [os.path.join(a, b)] *)
Definition os_path_join (a b : string) : string :=
  if Str.startswith "/" b then b
  else if String.eqb a "" || Str.endswith a "/" then a ++ b
  else a ++ "/" ++ b.

(** [shutil.copy2(src, dst)] *)
Definition copy2 (src dst : string) : M unit :=
  fun w =>
    let dst := if Fs.is_dir (fs w) dst
               then os_path_join dst (Fs.basename src) else dst in
    if String.eqb src dst && Fs.exists_ (fs w) src then (Raise SameFileError, w)
    else (d <- read_data src ;; write_data dst d) w.

(** [p.unlink()] *)
Definition unlink (p : string) : M unit :=
  fun w =>
    match Fs.find p (fs w) with
    | None => (Raise FileNotFoundError, w)
    | Some Dir => (Raise IsADirectoryError, w)
    | Some (File _) =>
        if Fs.is_locked (locked w) p then (Raise PermissionError, w)
        else (Ok tt, with_fs w (Fs.remove p (fs w)))
    end.

(** The entries directly inside [d] whose name matches [*.json]. *)
Definition json_files_in (l : Fs.t) (d : string) : list string :=
  filter (fun p => Str.endswith (Fs.basename p) ".json") (Fs.children l d).

(** [list(d.glob('*.json'))] *)
Definition glob_json (d : string) : M (list string) :=
  fun w => (Ok (json_files_in (fs w) d), w).

(** [d.iterdir()] *)
Definition iterdir (d : string) : M (list string) :=
  fun w =>
    match Fs.find d (fs w) with
    | Some Dir => (Ok (Fs.children (fs w) d), w)
    | Some (File _) => (Raise NotADirectoryError, w)
    | None => (Raise FileNotFoundError, w)
    end.

(** [shutil.rmtree(d)] *)
Definition rmtree (d : string) : M unit :=
  fun w =>
    match Fs.find d (fs w) with
    | None => (Raise FileNotFoundError, w)
    | Some (File _) => (Raise NotADirectoryError, w)
    | Some Dir =>
        if Fs.is_locked (locked w) d then (Raise PermissionError, w)
        else (Ok tt, with_fs w (Fs.remove_tree d (fs w)))
    end.

(** [os.rename(src, dst)] *)
Definition os_rename (src dst : string) : M unit :=
  fun w =>
    match Fs.find src (fs w) with
    | None => (Raise FileNotFoundError, w)
    | Some n =>
        if negb (Fs.dir_ok (fs w) (Fs.dirname dst)) then (Raise FileNotFoundError, w)
        else
          match n, Fs.find dst (fs w) with
          | Dir, Some (File _) => (Raise NotADirectoryError, w)
          | File _, Some Dir => (Raise IsADirectoryError, w)
          | Dir, Some Dir =>
              match Fs.children (fs w) dst with
              | [] =>
                  if Fs.is_locked (locked w) src then (Raise PermissionError, w)
                  else (Ok tt, with_fs w (Fs.rename src dst (fs w)))
              | _ => (Raise FileExistsError, w)
              end
          | _, _ =>
              if Fs.is_locked (locked w) src then (Raise PermissionError, w)
              else (Ok tt, with_fs w (Fs.rename src dst (fs w)))
          end
    end.

(** [shutil.move(src, dst)] within one file system *)
Definition move (src dst : string) : M unit :=
  fun w =>
    if Fs.is_dir (fs w) dst then
      let real_dst := os_path_join dst (Fs.basename src) in
      if String.eqb src dst then os_rename src dst w
      else if Fs.exists_ (fs w) real_dst then (Raise shutil_Error, w)
      else os_rename src real_dst w
    else os_rename src dst w.

(** [zipf.write(file_path, arcname)] on the archive open at [archive] *)
Definition zip_write (archive file_path arcname : string) : M unit :=
  d <- read_data file_path ;;
  fun w =>
    match Fs.find archive (fs w) with
    | Some (File (Zip members)) =>
        (Ok tt, with_fs w (Fs.put archive (File (Zip (members ++ [(arcname, d)]))) (fs w)))
    | _ => (Raise FileNotFoundError, w)
    end.

(** [for x in l: body x] *)
Fixpoint for_each {A} (l : list A) (body : A -> M unit) : M unit :=
  match l with
  | [] => ret tt
  | x :: l' => body x ;; for_each l' body
  end.

(** * [batch_decode_dataflows.py] *)

Definition newline : string := String (ascii_of_N 10) "".

(** [path.endswith(suffix)] on a value; only a [str] has the method. *)
Definition endswith (path : value) (suffix : string) : result bool :=
  match path with
  | VStr s => Ok (Str.endswith s suffix)
  | _ => Raise AttributeError
  end.

(** [os.path.join(output_dir, path)] on a value. *)
Definition join_value (output_dir : string) (path : value) : result string :=
  match path with
  | VStr s => Ok (os_path_join output_dir s)
  | _ => Raise TypeError
  end.

Definition decoded_part (path payload : value) (payload_type : string) : value :=
  VDict [("path", path); ("payload", payload); ("payloadType", VStr payload_type)].

(** The body of the loop over the parts (lines 40-80); the result is the
    element appended to [decoded_parts]. *)
Definition decode_part (output_dir : string) (part : value) : M value :=
  path <- lift (get part "path" VNone) ;;
  payload <- lift (get part "payload" VNone) ;;
  payload_type <- lift (get part "payloadType" VNone) ;;
  if eq_str payload_type "InlineBase64" && truthy payload then
    try_except
      (decoded_bytes <- lift (base64.b64decode payload) ;;
       decoded_text <- lift (utf8.decode decoded_bytes) ;;
       is_json <- lift (endswith path ".json") ;;
       if is_json then
         decoded_payload <- lift (json.loads decoded_text) ;;
         output_file <- lift (join_value output_dir path) ;;
         json_dump decoded_payload output_file 2 false ;;
         ret (decoded_part path decoded_payload "DecodedJSON")
       else
         output_file <- lift (join_value output_dir path) ;;
         write_text output_file decoded_text ;;
         ret (decoded_part path (VStr decoded_text) "DecodedText"))
      (fun e => print (ErrorDecoding path e) ;; ret part)
  else ret part.

(** The loop of lines 39-80, with [decoded_parts] as accumulator. *)
Fixpoint decode_parts (output_dir : string) (parts decoded_parts : list value)
  : M (list value) :=
  match parts with
  | [] => ret decoded_parts
  | part :: rest =>
      d <- decode_part output_dir part ;;
      decode_parts output_dir rest (decoded_parts ++ [d])
  end.

Definition decode_dataflow_definition (input_file output_dir : string) : M value :=
  definition <- json_load input_file ;;
  makedirs output_dir ;;
  inner <- lift (get definition "definition" (VDict [])) ;;
  parts_value <- lift (get inner "parts" (VList [])) ;;
  parts <- lift (iterate parts_value) ;;
  decoded_parts <- decode_parts output_dir parts [] ;;
  let decoded_definition :=
    VDict [("definition", VDict [("parts", VList decoded_parts)])] in
  json_dump decoded_definition
    (os_path_join output_dir "definition_decoded.json") 2 false ;;
  copy2 input_file (os_path_join output_dir (Fs.basename input_file)) ;;
  ret decoded_definition.

(** [f"{idx:03d}"] *)
Definition pad3 (idx : nat) : string :=
  let s := NilZero.string_of_uint (Nat.to_uint idx) in
  string_of_list_ascii (repeat "0"%char (3 - String.length s)) ++ s.

Definition item_name (idx : nat) : string := "item_" ++ pad3 idx.

(** The line written to [item_mapping.txt] (lines 182-185). *)
Definition mapping_line (idx : nat) (file_name : string) : string :=
  match extract_metadata_from_filename file_name with
  | Some metadata =>
      item_name idx ++ " | WorkspaceID: " ++ workspace_id metadata
      ++ " | ItemID: " ++ item_id metadata
      ++ " | Name: " ++ name metadata
      ++ " | Type: " ++ type metadata
      ++ " | File: " ++ file_name ++ newline
  | None => item_name idx ++ " -> " ++ file_name ++ newline
  end.

(** The body of the loop over the files (lines 166-196); the result tells
    which counter the iteration incremented. *)
Definition decode_file (source_path : string) (total idx : nat) (json_file : string)
  : M bool :=
  let output_dir := Fs.join source_path (item_name idx) in
  let mapping_file := Fs.join source_path "item_mapping.txt" in
  print (Processing idx total (Fs.basename json_file)) ;;
  try_except
    (decode_dataflow_definition json_file output_dir ;;
     append_text mapping_file (mapping_line idx (Fs.basename json_file)) ;;
     unlink json_file ;;
     print (DecodedTo output_dir) ;;
     ret true)
    (fun e => print (ItemError e) ;; ret false).

(** The loop of lines 163-196 over [enumerate(json_files, 1)], with the
    two counters as accumulators. *)
Fixpoint decode_files (source_path : string) (total idx : nat)
  (json_files : list string) (success_count error_count : nat) : M (nat * nat) :=
  match json_files with
  | [] => ret (success_count, error_count)
  | json_file :: rest =>
      ok <- decode_file source_path total idx json_file ;;
      if ok
      then decode_files source_path total (S idx) rest (S success_count) error_count
      else decode_files source_path total (S idx) rest success_count (S error_count)
  end.

Definition batch_decode_directory (source_dir : string) : M bool :=
  let source_path := source_dir in
  found <- exists_ source_path ;;
  if negb found then
    print (DirectoryNotFound source_dir) ;;
    ret false
  else
    json_files <- glob_json source_path ;;
    print (Header source_dir (List.length json_files)) ;;
    match json_files with
    | [] =>
        print NoJsonFiles ;;
        ret false
    | _ =>
        counts <- decode_files source_path (List.length json_files) 1 json_files 0 0 ;;
        print (Summary (fst counts) (snd counts)) ;;
        ret (0 <? fst counts)%nat
    end.

(** ** A first run *)

Definition world0 (files : Fs.t) : world :=
  {| fs := files; locked := []; console := []; slept := 0 |}.

Definition sales_definition : string := dq
"{'definition': {'parts': [
   {'path': 'queryMetadata.json', 'payload': 'eyJhIjogMX0=', 'payloadType': 'InlineBase64'},
   {'path': 'mashup.pq', 'payload': 'aGk=', 'payloadType': 'InlineBase64'},
   {'path': '.platform', 'payload': 'xyz', 'payloadType': 'Other'}]}}".

Definition fs_one : Fs.t :=
  [("ws", Dir); ("ws/WS__abc__123__MyFlow__Dataflow.json", File (Bytes sales_definition))].

(** * [create_pqt_from_workspace.py] *)

(** [key in container] for a [str] key *)
Definition contains (key : string) (container : value) : result bool :=
  match container with
  | VDict items =>
      Ok (match lookup key items with Some _ => true | None => false end)
  | VList l => Ok (existsb (fun v => eq_str v key) l)
  | VStr s => Ok (Str.contains key s)
  | _ => Raise TypeError
  end.

(** [container[key]] for a [str] key *)
Definition getitem (container : value) (key : string) : result value :=
  match container with
  | VDict items =>
      match lookup key items with Some v => Ok v | None => Raise KeyError end
  | _ => Raise TypeError
  end.

(** [d.items()] *)
Definition items_of (d : value) : result (list (string * value)) :=
  match d with
  | VDict items => Ok items
  | _ => Raise AttributeError
  end.

(** The body of the loop of lines 76-80; the result is the entry
    appended to [queries_metadata]. *)
Definition query_entry (query_name : string) (query_info : value) : result value :=
  match contains "isHidden" query_info with
  | Raise e => Raise e
  | Ok true =>
      match getitem query_info "isHidden" with
      | Ok is_hidden =>
          Ok (VDict [("Name", VStr query_name); ("IsHidden", is_hidden)])
      | Raise e => Raise e
      end
  | Ok false => Ok (VDict [("Name", VStr query_name)])
  end.

Fixpoint query_entries (items : list (string * value)) (queries_metadata : list value)
  : result (list value) :=
  match items with
  | [] => Ok queries_metadata
  | (query_name, query_info) :: rest =>
      match query_entry query_name query_info with
      | Ok entry => query_entries rest (queries_metadata ++ [entry])
      | Raise e => Raise e
      end
  end.

Definition create_mashup_metadata (query_metadata_path : string) : M value :=
  query_metadata <- json_load query_metadata_path ;;
  present <- lift (contains "queriesMetadata" query_metadata) ;;
  queries_metadata <-
    (if present : bool then
       mapping <- lift (getitem query_metadata "queriesMetadata") ;;
       items <- lift (items_of mapping) ;;
       lift (query_entries items [])
     else ret []) ;;
  ret (VDict [("Version", VStr "1.0.0.0");
              ("QueriesMetadata", VList queries_metadata)]).

Definition create_metadata (platform_path : string) : M value :=
  platform_data <- json_load platform_path ;;
  config <- lift (get platform_data "config" (VDict [])) ;;
  display_name <- lift (get config "displayName" (VStr "Dataflow")) ;;
  ret (VDict [("Name", display_name);
              ("Description", VStr "");
              ("Version", VStr "1.0.0.0")]).

Definition create_content_types_xml : string := dq
"<?xml version='1.0' encoding='utf-8'?>
<Types xmlns='http://schemas.openxmlformats.org/package/2006/content-types'>
  <Default Extension='json' ContentType='application/json' />
  <Default Extension='pq' ContentType='application/x-ms-m' />
</Types>".

(** Step 2 of the [try] (lines 126-131). *)
Definition write_mashup_metadata (item_dir pqtzip_dir : string) : M unit :=
  let query_metadata_path := Fs.join item_dir "queryMetadata.json" in
  has_queries <- exists_ query_metadata_path ;;
  if has_queries : bool then
    mashup_metadata <- create_mashup_metadata query_metadata_path ;;
    json_dump mashup_metadata (Fs.join pqtzip_dir "MashupMetadata.json") 2 true
  else ret tt.

(** Step 3 of the [try] (lines 133-138). *)
Definition write_metadata (item_dir pqtzip_dir : string) : M unit :=
  let platform_path := Fs.join item_dir ".platform" in
  has_platform <- exists_ platform_path ;;
  if has_platform : bool then
    metadata <- create_metadata platform_path ;;
    json_dump metadata (Fs.join pqtzip_dir "Metadata.json") 2 true
  else ret tt.

(** The body of the [try] of lines 120-145. *)
Definition fill_pqtzip (item_dir pqtzip_dir : string) : M bool :=
  let mashup_src := Fs.join item_dir "mashup.pq" in
  let mashup_dest := Fs.join pqtzip_dir "MashupDocument.pq" in
  copy2 mashup_src mashup_dest ;;
  write_mashup_metadata item_dir pqtzip_dir ;;
  write_metadata item_dir pqtzip_dir ;;
  write_text (Fs.join pqtzip_dir "[Content_Types].xml") create_content_types_xml ;;
  ret true.

Definition create_pqtzip_structure (item_dir : string) : M bool :=
  let pqtzip_dir := Fs.join item_dir "pqtzip" in
  mkdir pqtzip_dir ;;
  try_except
    (fill_pqtzip item_dir pqtzip_dir)
    (fun e => print (PqtzipError (Fs.basename item_dir) e) ;; ret false).

(** The body of the [try] of lines 161-167: the archive is created when
    it is opened and grows with every [zipf.write]. *)
Definition fill_archive (pqt_file pqtzip_dir : string) : M bool :=
  write_data pqt_file (Zip []) ;;
  files <- iterdir pqtzip_dir ;;
  for_each files (fun file_path =>
    regular <- is_file file_path ;;
    if regular : bool then zip_write pqt_file file_path (Fs.basename file_path)
    else ret tt) ;;
  ret true.

Definition create_pqt_archive (item_dir : string) : M bool :=
  let pqtzip_dir := Fs.join item_dir "pqtzip" in
  let pqt_file := Fs.join item_dir (Fs.basename item_dir ++ ".pqt") in
  found <- exists_ pqtzip_dir ;;
  if negb found then
    print (PqtzipMissing (Fs.basename item_dir)) ;;
    ret false
  else
    try_except
      (fill_archive pqt_file pqtzip_dir)
      (fun e => print (ArchiveError (Fs.basename item_dir) e) ;; ret false).

(** ** Copying the items (lines 216-237) *)

(** [shutil.copytree(src, dst)]: [dst] must not exist; it is made with
    its parents and receives a copy of everything below [src]. *)
Definition copytree (src dst : string) : M unit :=
  fun w =>
    match Fs.find src (fs w) with
    | None => (Raise FileNotFoundError, w)
    | Some (File _) => (Raise NotADirectoryError, w)
    | Some Dir =>
        if Fs.exists_ (fs w) dst then (Raise FileExistsError, w)
        else
          match makedirs_each (Fs.ancestors "" dst) (fs w) with
          | Raise e => (Raise e, w)
          | Ok l =>
              (Ok tt,
               with_fs w
                 (l ++ map (fun kn => (Fs.rekey src dst (fst kn), snd kn))
                        (filter (fun kn => Str.startswith (src ++ "/") (fst kn))
                           (fs w)))%list)
          end
    end.

(** The loop of lines 227-235. *)
Fixpoint copy_items (dataflow_items : list string) (output_path : string)
  (copied_items : list string) : M (list string) :=
  match dataflow_items with
  | [] => ret copied_items
  | item_dir :: rest =>
      let dest_dir := Fs.join output_path (Fs.basename item_dir) in
      found <- exists_ dest_dir ;;
      (if found : bool then ret tt else copytree item_dir dest_dir) ;;
      copy_items rest output_path (copied_items ++ [dest_dir])%list
  end.

Definition copy_dataflow_items (dataflow_items : list string) (output_path : string)
  : M (list string) :=
  match dataflow_items with
  | [] => raise IndexError
  | first :: _ =>
      if String.eqb output_path (Fs.dirname first) then ret dataflow_items
      else
        makedirs output_path ;;
        copy_items dataflow_items output_path []
  end.

(** ** The loops of [process_workspace] over the item directories

    Steps 4 to 6 (lines 283-349); [copied_items] is the list the
    earlier steps hand over. *)

(** Step 4, lines 286-291. *)
Fixpoint create_structures (copied_items : list string) (success_count : nat)
  : M nat :=
  match copied_items with
  | [] => ret success_count
  | item_dir :: rest =>
      ok <- create_pqtzip_structure item_dir ;;
      if ok : bool then
        print (StructureOk (Fs.basename item_dir)) ;;
        create_structures rest (S success_count)
      else
        print (StructureFailed (Fs.basename item_dir)) ;;
        create_structures rest success_count
  end.

(** Step 5, lines 298-303. *)
Fixpoint create_archives (copied_items : list string) (pqt_success_count : nat)
  : M nat :=
  match copied_items with
  | [] => ret pqt_success_count
  | item_dir :: rest =>
      ok <- create_pqt_archive item_dir ;;
      if ok : bool then
        print (ArchiveOk (Fs.basename item_dir)) ;;
        create_archives rest (S pqt_success_count)
      else
        print (ArchiveFailed (Fs.basename item_dir)) ;;
        create_archives rest pqt_success_count
  end.

Definition max_retries : nat := 3.

(** The retry loop of lines 324-349 over the remaining values of
    [attempt]; [retry_delay] is in milliseconds.  Every path through the
    body ends the loop except a [PermissionError] before the last
    attempt. *)
Fixpoint move_item (attempts : list nat) (retry_delay : N)
  (item_dir dest_dir : string) (moved_items failed_moves : list string)
  : M (list string * list string) :=
  match attempts with
  | [] => ret (moved_items, failed_moves)
  | attempt :: rest =>
      try_except
        (found <- exists_ dest_dir ;;
         (if found : bool then rmtree dest_dir else ret tt) ;;
         move item_dir dest_dir ;;
         print (Moved (Fs.basename item_dir)) ;;
         ret ((moved_items ++ [dest_dir])%list, failed_moves))
        (fun e =>
           if is_PermissionError e then
             if (attempt <? max_retries - 1)%nat then
               sleep retry_delay ;;
               move_item rest (retry_delay * 2) item_dir dest_dir
                 moved_items failed_moves
             else
               print (MoveFailed (Fs.basename item_dir) e) ;;
               ret (moved_items, (failed_moves ++ [Fs.basename item_dir])%list)
           else
             print (MoveError (Fs.basename item_dir) e) ;;
             ret (moved_items, (failed_moves ++ [Fs.basename item_dir])%list))
  end.

(** The loop of lines 315-349. *)
Fixpoint move_items (with_dataflows_path : string) (copied_items : list string)
  (moved_items failed_moves : list string) : M (list string * list string) :=
  match copied_items with
  | [] => ret (moved_items, failed_moves)
  | item_dir :: rest =>
      let pqt_file := Fs.join item_dir (Fs.basename item_dir ++ ".pqt") in
      has_archive <- exists_ pqt_file ;;
      if has_archive : bool then
        let dest_dir := Fs.join with_dataflows_path (Fs.basename item_dir) in
        lists <- move_item (seq 0 max_retries) 500 item_dir dest_dir
                   moved_items failed_moves ;;
        move_items with_dataflows_path rest (fst lists) (snd lists)
      else move_items with_dataflows_path rest moved_items failed_moves
  end.

(** Step 6, lines 308-349. *)
Definition partition_items (output_path : string) (copied_items : list string)
  : M (list string * list string) :=
  let with_dataflows_path := Fs.join output_path "with_dataflows" in
  mkdir with_dataflows_path ;;
  print MovingHeader ;;
  move_items with_dataflows_path copied_items [] [].

(** Steps 4 to 6 in sequence. *)
Definition assemble_and_partition (output_path : string) (copied_items : list string)
  : M (nat * nat * (list string * list string)) :=
  print StructuresHeader ;;
  success_count <- create_structures copied_items 0 ;;
  print (StructuresDone success_count (List.length copied_items)) ;;
  print ArchivesHeader ;;
  pqt_success_count <- create_archives copied_items 0 ;;
  print (ArchivesDone pqt_success_count (List.length copied_items)) ;;
  lists <- partition_items output_path copied_items ;;
  ret (success_count, pqt_success_count, lists).

Definition fs_item : Fs.t :=
  [("ws", Dir); ("ws/item_001", Dir);
   ("ws/item_001/mashup.pq", File (Bytes "let x = 1 in x"));
   ("ws/item_001/queryMetadata.json",
    File (Bytes (dq "{'queriesMetadata': {'Sales Query': {'isHidden': true}}}")));
   ("ws/item_001/.platform",
    File (Bytes (dq "{'config': {'displayName': 'Sales'}}")))].

(** * [create_pqt_from_workspace.py]: the steps around the loops

    [find_dataflow_items], [read_item_mapping], [create_output_mapping],
    [copy_dataflow_items] with its message, [process_workspace] and the
    entry points of the three scripts. *)

(** ** Python string and path methods these steps use *)

Module Text.

Fixpoint rev (s : string) : string :=
  match s with
  | EmptyString => EmptyString
  | String c s' => rev s' ++ String c ""
  end.

Definition byte (c : ascii) : N := N_of_ascii c.

(** The characters [str.isspace] accepts, by the bytes of their UTF-8
    encoding: U+0009..U+000D, U+001C..U+0020; U+0085, U+00A0; U+1680,
    U+2000..U+200A, U+2028, U+2029, U+202F, U+205F, U+3000. *)
Definition space1 (a : ascii) : bool :=
  utf8.within 9 13 (byte a) || utf8.within 28 32 (byte a).

Definition space2 (a b : ascii) : bool :=
  ((byte a =? 194) && ((byte b =? 133) || (byte b =? 160)))%N.

Definition space3 (a b c : ascii) : bool :=
  (((byte a =? 225) && (byte b =? 154) && (byte c =? 128))
   || ((byte a =? 226) && (byte b =? 128)
       && (utf8.within 128 138 (byte c) || (byte c =? 168) || (byte c =? 169)
           || (byte c =? 175)))
   || ((byte a =? 226) && (byte b =? 129) && (byte c =? 159))
   || ((byte a =? 227) && (byte b =? 128) && (byte c =? 128)))%N.

(** The text without its leading white space.  With [backwards] the
    text is read from its end, so the bytes of a character come last
    byte first. *)
Fixpoint lstrip_from (backwards : bool) (s : string) : string :=
  match s with
  | EmptyString => s
  | String a s1 =>
      if space1 a then lstrip_from backwards s1 else
      match s1 with
      | EmptyString => s
      | String b s2 =>
          if (if backwards then space2 b a else space2 a b)
          then lstrip_from backwards s2 else
          match s2 with
          | EmptyString => s
          | String c s3 =>
              if (if backwards then space3 c b a else space3 a b c)
              then lstrip_from backwards s3 else s
          end
      end
  end.

Definition lstrip (s : string) : string := lstrip_from false s.

Definition rstrip (s : string) : string := rev (lstrip_from true (rev s)).

(** [s.strip()] *)
Definition strip (s : string) : string := rstrip (lstrip s).

(** [s.split(sep, 1)] for a non-empty [sep]; [cur] is what was read
    before the separator. *)
Fixpoint split_once (sep : string) (cur : string) (s : string) : list string :=
  match s with
  | EmptyString => [cur]
  | String c s' =>
      if Str.startswith sep s then [cur; Str.drop (String.length sep) s]
      else split_once sep (cur ++ String c "") s'
  end.

Definition line_feed : ascii := ascii_of_N 10.
Definition carriage_return : ascii := ascii_of_N 13.

(** [for line in f] on a text file opened with universal newlines: a
    line ends at a line feed, at a carriage return or at the two in a
    row, and is handed over with a line feed at its end; the last line
    may lack it.  [cur] is the line being read. *)
Fixpoint lines_from (cur : string) (s : string) : list string :=
  match s with
  | EmptyString => if String.eqb cur "" then [] else [cur]
  | String c s' =>
      if Ascii.eqb c line_feed
      then (cur ++ String line_feed "") :: lines_from "" s'
      else if Ascii.eqb c carriage_return then
        match s' with
        | String d s'' =>
            if Ascii.eqb d line_feed
            then (cur ++ String line_feed "") :: lines_from "" s''
            else (cur ++ String line_feed "") :: lines_from "" s'
        | EmptyString => [cur ++ String line_feed ""]
        end
      else lines_from (cur ++ String c "") s'
  end.

Definition lines (s : string) : list string := lines_from "" s.

(** [name] split at its last full stop. *)
Fixpoint rsplit_dot (name : string) : option (string * string) :=
  match name with
  | EmptyString => None
  | String c r =>
      match rsplit_dot r with
      | Some (before, after) => Some (String c before, after)
      | None => if Ascii.eqb c "." then Some ("", r) else None
      end
  end.

(** [Path.stem] of a file name: the name without its last suffix; a
    leading or a trailing full stop starts no suffix. *)
Definition stem (name : string) : string :=
  match rsplit_dot name with
  | Some (before, after) =>
      if negb (String.eqb before "") && negb (String.eqb after "")
      then before else name
  | None => name
  end.

(** [sorted(l, key=key)] on string keys: a stable sort. *)
Fixpoint insert (key : string -> string) (x : string) (l : list string)
  : list string :=
  match l with
  | [] => [x]
  | y :: l' =>
      if String.leb (key x) (key y) then x :: y :: l'
      else y :: insert key x l'
  end.

Definition sorted (key : string -> string) (l : list string) : list string :=
  fold_right (insert key) [] l.

End Text.

(** [d[k] = v] and [d.get(k, default)] on a dictionary of strings. *)
Fixpoint dict_set (k v : string) (d : list (string * string))
  : list (string * string) :=
  match d with
  | [] => [(k, v)]
  | (k', v') :: d' =>
      if String.eqb k' k then (k', v) :: d' else (k', v') :: dict_set k v d'
  end.

Fixpoint dict_get (d : list (string * string)) (k default : string) : string :=
  match d with
  | [] => default
  | (k', v) :: d' => if String.eqb k' k then v else dict_get d' k default
  end.

(** [p.is_dir()] *)
Definition is_dir (p : string) : M bool := fun w => (Ok (Fs.is_dir (fs w) p), w).

(** The entries directly inside [d] whose name matches [WS__*.json];
    none when [d] is no directory. *)
Definition ws_files_in (l : Fs.t) (d : string) : list string :=
  if Fs.is_dir l d then
    filter (fun p => Str.startswith "WS__" (Fs.basename p)
                     && Str.endswith (Str.drop 4 (Fs.basename p)) ".json")
      (Fs.children l d)
  else [].

(** [list(d.glob("WS__*.json"))] *)
Definition glob_ws (d : string) : M (list string) :=
  fun w => (Ok (ws_files_in (fs w) d), w).

(** [f.write(text)] on the file open for writing at [p] *)
Definition f_write (p : string) (text : string) : M unit :=
  fun w =>
    (Ok tt, with_fs w (Fs.put p (File (Bytes (Fs.text_at (fs w) p ++ text))) (fs w))).

(** ** The lines of [create_output_mapping] (lines 180-206) *)

Definition fallback_line (item_id : string)
  (original_mappings : list (string * string)) : string :=
  item_id ++ " -> " ++ dict_get original_mappings item_id "Unknown" ++ newline.

(** The body of the loop of lines 181-206: the line written for one
    item. *)
Definition output_line (original_mappings : list (string * string))
  (item_dir : string) : M string :=
  let item_id := Fs.basename item_dir in
  ws_files <- glob_ws item_dir ;;
  match ws_files with
  | ws_file :: _ =>
      let ws_filename := Fs.basename ws_file in
      let ws_stem := Text.stem ws_filename in
      let parts := Str.split "__" ws_stem in
      if (5 <=? List.length parts)%nat then
        ret (item_id ++ " | WorkspaceID: " ++ item parts 1
             ++ " | ItemID: " ++ item parts 2
             ++ " | Name: " ++ item parts 3
             ++ " | Type: " ++ item parts 4
             ++ " | File: " ++ ws_filename ++ newline)
      else ret (fallback_line item_id original_mappings)
  | [] => ret (fallback_line item_id original_mappings)
  end.

(** The [with] block of lines 179-206: the file is opened for writing,
    which empties it, and receives one line for each item. *)
Definition write_mapping (dataflow_items : list string)
  (original_mappings : list (string * string)) (mapping_file : string) : M unit :=
  write_text mapping_file "" ;;
  for_each (Text.sorted Fs.basename dataflow_items) (fun item_dir =>
    text <- output_line original_mappings item_dir ;;
    f_write mapping_file text).

(** Lines 224-237 of [copy_dataflow_items]: the copy into another
    directory. *)
Definition copy_to (dataflow_items : list string) (output_path : string)
  : M (list string) :=
  makedirs output_path ;;
  copy_items dataflow_items output_path [].

(** ** The console of these steps

    The steps print lines of their own.  A [session] pairs the world
    with those lines; each carries the number of lines the console of
    the world showed when it was printed, which places it among them. *)

Inductive operation := Decode | Convert | All.

Inductive message :=
| WorkspaceMissing (workspace_path : string)
| FoundItems (n : nat) (workspace_path : string)
| MappingNotFound (mapping_file : string)
| MappingCreated (n : nat) (mapping_file : string)
| MappingError (e : exn)
| WorkingInPlace
| ProcessingWorkspace (workspace_path output_path : string)
| NoItemsFound
| Copying (n : nat) (output_path : string)
| MovedSummary (moved pqt_success_count : nat)
| FailedMoves (failed_moves : list string)
| CreatingMainMapping (n : nat)
| ProcessingComplete (copied dataflows success_count pqt_success_count
                      moved remaining : nat)
    (output_path : string) (dataflows_location : option string)
| MissingArgument (usage : string)
| SourceMissing (source_directory : string)
| DecodingStep
| DecodeFailed
| WorkflowStopped
| ConvertingStep
| ConvertFailed
| WorkflowSummary (mode : operation) (source_path : string)
    (output : option string) (overall_success : bool).

Record session := {
  base : world;
  messages : list (nat * message)
}.

Module Script.

Definition P (A : Type) : Type := session -> result A * session.

Definition ret {A} (a : A) : P A := fun s => (Ok a, s).

Definition raise {A} (e : exn) : P A := fun s => (Raise e, s).

Definition bind {A B} (m : P A) (k : A -> P B) : P B :=
  fun s =>
    match m s with
    | (Ok a, s') => k a s'
    | (Raise e, s') => (Raise e, s')
    end.

(** [try: m  except Exception as e: handler e] *)
Definition try_except {A} (m : P A) (handler : exn -> P A) : P A :=
  fun s =>
    match m s with
    | (Ok a, s') => (Ok a, s')
    | (Raise e, s') => handler e s'
    end.

(** Code of the earlier parts, run on the world of the session. *)
Definition run {A} (m : M A) : P A :=
  fun s =>
    match m (base s) with
    | (r, w') => (r, {| base := w'; messages := messages s |})
    end.

(** [print(...)] *)
Definition print (m : message) : P unit :=
  fun s =>
    (Ok tt, {| base := base s;
               messages := messages s
                           ++ [(List.length (console (base s)), m)] |}).

Declare Scope script_scope.
Delimit Scope script_scope with script.
Notation "x <- m ;; k" := (bind m (fun x => k))
  (at level 61, m at next level, right associativity) : script_scope.
Notation "m ;; k" := (bind m (fun _ => k))
  (at level 61, right associativity) : script_scope.
Local Open Scope script_scope.

(** *** [find_dataflow_items] (lines 28-43) *)

(** The loop of lines 36-40 over the sorted entries. *)
Fixpoint collect_items (entries dataflow_items : list string) : P (list string) :=
  match entries with
  | [] => ret dataflow_items
  | item_dir :: rest =>
      directory <- run (is_dir item_dir) ;;
      if directory && Str.startswith "item_" (Fs.basename item_dir) then
        let mashup_file := Fs.join item_dir "mashup.pq" in
        found <- run (exists_ mashup_file) ;;
        if found : bool
        then collect_items rest (dataflow_items ++ [item_dir])
        else collect_items rest dataflow_items
      else collect_items rest dataflow_items
  end.

(** Paths compare part by part; the entries of one directory differ in
    their last part only. *)
Definition find_dataflow_items (workspace_path : string) : P (list string) :=
  found <- run (exists_ workspace_path) ;;
  if negb found then
    print (WorkspaceMissing workspace_path) ;;
    ret []
  else
    entries <- run (iterdir workspace_path) ;;
    dataflow_items <- collect_items (Text.sorted Fs.basename entries) [] ;;
    print (FoundItems (List.length dataflow_items) workspace_path) ;;
    ret dataflow_items.

(** *** [read_item_mapping] (lines 46-65) *)

(** The body of the loop of lines 56-63. *)
Definition read_mapping_line (line : string) (mappings : list (string * string))
  : list (string * string) :=
  let line := Text.strip line in
  if negb (String.eqb line "") && Str.contains "->" line then
    match Text.split_once " -> " "" line with
    | [before; after] => dict_set (Text.strip before) (Text.strip after) mappings
    | _ => mappings
    end
  else mappings.

Definition read_item_mapping (workspace_path : string)
  : P (list (string * string)) :=
  let mapping_file := Fs.join workspace_path "item_mapping.txt" in
  found <- run (exists_ mapping_file) ;;
  if negb found then
    print (MappingNotFound mapping_file) ;;
    ret []
  else
    text <- run (read_text mapping_file) ;;
    ret (fold_left (fun mappings line => read_mapping_line line mappings)
           (Text.lines text) []).

(** *** [create_output_mapping] (lines 174-213) *)

Definition create_output_mapping (dataflow_items : list string)
  (original_mappings : list (string * string)) (output_path : string) : P bool :=
  let mapping_file := Fs.join output_path "item_mapping.txt" in
  try_except
    (run (write_mapping dataflow_items original_mappings mapping_file) ;;
     print (MappingCreated (List.length dataflow_items) mapping_file) ;;
     ret true)
    (fun e => print (MappingError e) ;; ret false).

(** *** [copy_dataflow_items] (lines 216-237), with its message *)

Definition copy_dataflow_items (dataflow_items : list string) (output_path : string)
  : P (list string) :=
  match dataflow_items with
  | [] => raise IndexError
  | first :: _ =>
      if String.eqb output_path (Fs.dirname first) then
        print WorkingInPlace ;;
        ret dataflow_items
      else
        run (copy_to dataflow_items output_path)
  end.

(** *** [process_workspace] (lines 240-381) *)

Section Resolve.

(** [str(Path(p).resolve())]: the absolute form of a path, left open. *)
Variable resolve : string -> string.

(** The comprehension of line 361. *)
Definition remaining_of (l : Fs.t) (output_path : string) (copied_items : list string)
  : list string :=
  filter (fun item => Fs.exists_ l (Fs.join output_path (Fs.basename item)))
    copied_items.

Definition process_workspace (source_workspace : string)
  (output_directory : option string) : P bool :=
  let workspace_path := resolve source_workspace in
  found <- run (exists_ workspace_path) ;;
  if negb found then
    print (WorkspaceMissing workspace_path) ;;
    ret false
  else
    let output_path :=
      match output_directory with
      | Some d => if String.eqb d "" then workspace_path else resolve d
      | None => workspace_path
      end in
    print (ProcessingWorkspace workspace_path output_path) ;;
    dataflow_items <- find_dataflow_items workspace_path ;;
    match dataflow_items with
    | [] =>
        print NoItemsFound ;;
        ret false
    | _ =>
        original_mappings <- read_item_mapping workspace_path ;;
        (if negb (String.eqb output_path workspace_path)
         then print (Copying (List.length dataflow_items) output_path)
         else ret tt) ;;
        copied_items <- copy_dataflow_items dataflow_items output_path ;;
        outcome <- run (assemble_and_partition output_path copied_items) ;;
        let success_count := fst (fst outcome) in
        let pqt_success_count := snd (fst outcome) in
        let moved_items := fst (snd outcome) in
        let failed_moves := snd (snd outcome) in
        let with_dataflows_path := Fs.join output_path "with_dataflows" in
        print (MovedSummary (List.length moved_items) pqt_success_count) ;;
        (match failed_moves with
         | [] => ret tt
         | _ => print (FailedMoves failed_moves)
         end) ;;
        (match moved_items with
         | [] => ret tt
         | _ =>
             create_output_mapping moved_items original_mappings
               with_dataflows_path ;;
             ret tt
         end) ;;
        remaining_items <-
          (fun s => (Ok (remaining_of (fs (base s)) output_path copied_items), s)) ;;
        (match remaining_items with
         | [] => ret tt
         | _ =>
             print (CreatingMainMapping (List.length remaining_items)) ;;
             create_output_mapping remaining_items original_mappings output_path ;;
             ret tt
         end) ;;
        print (ProcessingComplete (List.length copied_items)
                 (List.length dataflow_items) success_count pqt_success_count
                 (List.length moved_items) (List.length remaining_items)
                 output_path
                 (match moved_items with
                  | [] => None
                  | _ => Some with_dataflows_path
                  end)) ;;
        ret ((0 <? success_count)%nat && (0 <? pqt_success_count)%nat)
    end.

(** *** The entry points

    [sys.exit(n)] ends the script with status [n]; the result of an
    entry point is that status.  An exception that nothing catches
    leaves the script through [Raise]. *)

(** [main] of [batch_decode_dataflows.py] (lines 209-219) on [sys.argv] *)
Definition batch_main (argv : list string) : P nat :=
  match argv with
  | _ :: source_dir :: _ =>
      success <- run (batch_decode_directory source_dir) ;;
      ret (if success : bool then 0 else 1)
  | _ =>
      print (MissingArgument
               "Usage: python batch_decode_dataflows.py <source_directory>") ;;
      ret 1
  end.

(** [main] of [create_pqt_from_workspace.py] (lines 384-396) *)
Definition convert_main (argv : list string) : P nat :=
  match argv with
  | _ :: source_workspace :: rest =>
      let output_directory :=
        match rest with
        | output_directory :: _ => Some output_directory
        | [] => None
        end in
      success <- process_workspace source_workspace output_directory ;;
      ret (if success : bool then 0 else 1)
  | _ =>
      print (MissingArgument
               "Usage: python create_pqt_from_workspace.py <source_workspace_path> [output_directory]") ;;
      ret 1
  end.

(** What [parser.parse_args()] returns in [process_dataflows.py]: one
    operation (the three flags exclude one another and one is
    required), the source directory, the output directory if given. *)
Record arguments := {
  mode : operation;
  source_directory : string;
  output : option string
}.

Definition decodes (m : operation) : bool :=
  match m with Decode | All => true | Convert => false end.

Definition converts (m : operation) : bool :=
  match m with Convert | All => true | Decode => false end.

(** The decode step of lines 105-119: [inl] carries [overall_success]
    on, [inr] is the status of [sys.exit]. *)
Definition decode_step (args : arguments) : P (bool + nat) :=
  if decodes (mode args) then
    print DecodingStep ;;
    decode_success <- run (batch_decode_directory (source_directory args)) ;;
    if negb decode_success then
      print DecodeFailed ;;
      match mode args with
      | All =>
          print WorkflowStopped ;;
          ret (inr 1)
      | _ => ret (inl false)
      end
    else ret (inl true)
  else ret (inl true).

(** The convert step of lines 121-134. *)
Definition convert_step (args : arguments) (overall_success : bool) : P bool :=
  if converts (mode args) then
    print ConvertingStep ;;
    let convert_source := source_directory args in
    let convert_output :=
      match output args with
      | Some o => if String.eqb o "" then None else Some o
      | None => None
      end in
    convert_success <- process_workspace convert_source convert_output ;;
    if negb convert_success then
      print ConvertFailed ;;
      ret false
    else ret overall_success
  else ret overall_success.

(** [main] of [process_dataflows.py] (lines 93-157), from the parsed
    arguments on. *)
Definition main (args : arguments) : P nat :=
  found <- run (exists_ (source_directory args)) ;;
  if negb found then
    print (SourceMissing (source_directory args)) ;;
    ret 1
  else
    decoded <- decode_step args ;;
    match decoded with
    | inr status => ret status
    | inl overall_success =>
        overall_success <- convert_step args overall_success ;;
        print (WorkflowSummary (mode args) (source_directory args)
                 (match output args with
                  | Some o => if String.eqb o "" then None else Some o
                  | None => None
                  end)
                 overall_success) ;;
        ret (if overall_success : bool then 0 else 1)
    end.

End Resolve.

End Script.

(** * The vocabulary of the statements

    Predicates and concrete worlds the theorems below are stated with. *)

(** [w] with [ls] printed after what the console already shows. *)
Definition printed (w : world) (ls : list line) : world :=
  {| fs := fs w; locked := locked w; console := (console w ++ ls)%list;
     slept := slept w |}.

(** The field [k] of a part, as [part.get(k)] reads it. *)
Definition field (items : list (string * value)) (k : string) : value :=
  match lookup k items with Some v => v | None => VNone end.

(** An item directory in which [pqtzip] is a regular file, followed by a
    sound item. *)
Definition fs_blocked : Fs.t :=
  [("ws", Dir);
   ("ws/item_001", Dir);
   ("ws/item_001/mashup.pq", File (Bytes "let x = 1 in x"));
   ("ws/item_001/pqtzip", File (Bytes ""));
   ("ws/item_002", Dir);
   ("ws/item_002/mashup.pq", File (Bytes "let y = 2 in y"))].

(** What the modelled steps never undo: printed lines stay, directories
    stay directories and nothing else becomes one, files stay files. *)
Record world_le (w w' : world) : Prop := {
  le_console : exists ls, console w' = (console w ++ ls)%list;
  le_dirs : forall p, Fs.is_dir (fs w') p = Fs.is_dir (fs w) p;
  le_files : forall p, Fs.is_file (fs w) p = true -> Fs.is_file (fs w') p = true
}.

(** Effectful code that only moves the world forward. *)
Definition forward {A} (m : M A) : Prop :=
  forall w r w', m w = (r, w') -> world_le w w'.

(** The ways the decoding of a candidate part fails before anything is
    written: the payload is not base64, the bytes are not UTF-8, or the
    path ends with [.json] and the text is not JSON. *)
Inductive decode_failure (path payload : value) : exn -> Prop :=
| invalid_base64 e :
    base64.b64decode payload = Raise e ->
    decode_failure path payload e
| invalid_utf8 bytes e :
    base64.b64decode payload = Ok bytes ->
    utf8.decode bytes = Raise e ->
    decode_failure path payload e
| invalid_json bytes text e :
    base64.b64decode payload = Ok bytes ->
    utf8.decode bytes = Ok text ->
    endswith path ".json" = Ok true ->
    json.loads text = Raise e ->
    decode_failure path payload e.

(** A part the decoder works on: payloadType InlineBase64 and a truthy
    payload. *)
Definition candidate (items : list (string * value)) : Prop :=
  field items "payloadType" = VStr "InlineBase64"
  /\ truthy (field items "payload") = true.

(** The outcome of the loop body on any part that is a JSON object: it
    returns, and the element is the part itself or a rewritten part with
    the same path and a Decoded payloadType. *)
Definition decoded_from (part d : value) : Prop :=
  exists items payload payload_type,
    part = VDict items
    /\ d = decoded_part (field items "path") payload payload_type
    /\ (payload_type = "DecodedJSON" \/ payload_type = "DecodedText").

Definition is_dict (v : value) : Prop := exists items, v = VDict items.

Definition part_bad_json : list (string * value) :=
  [("path", VStr "q.json"); ("payload", VStr "bm90IGpzb24=");
   ("payloadType", VStr "InlineBase64")].

Definition part_script : list (string * value) :=
  [("path", VStr "mashup.pq"); ("payload", VStr "aGk=");
   ("payloadType", VStr "InlineBase64")].

Definition part_query_metadata : list (string * value) :=
  [("path", VStr "queryMetadata.json"); ("payload", VStr "eyJhIjogMX0=");
   ("payloadType", VStr "InlineBase64")].

Definition part_nested : list (string * value) :=
  [("path", VStr "queries/mashup.pq"); ("payload", VStr "aGk=");
   ("payloadType", VStr "InlineBase64")].

(** The [parts] of a definition, as line 39 reads them. *)
Definition definition_parts (definition : value) : result value :=
  match get definition "definition" (VDict []) with
  | Ok inner => get inner "parts" (VList [])
  | Raise e => Raise e
  end.

Definition sales_parts : list value :=
  [VDict part_query_metadata; VDict part_script;
   VDict [("path", VStr ".platform"); ("payload", VStr "xyz");
          ("payloadType", VStr "Other")]].

(** The record derived from one entry of [queriesMetadata]. *)
Definition query_record (entry : string * value) : value :=
  VDict (("Name", VStr (fst entry))
         :: match snd entry with
            | VDict info =>
                match lookup "isHidden" info with
                | Some is_hidden => [("IsHidden", is_hidden)]
                | None => []
                end
            | _ => []
            end).

Definition mashup_metadata_of (mapping : list (string * value)) : value :=
  VDict [("Version", VStr "1.0.0.0");
         ("QueriesMetadata", VList (map query_record mapping))].

(** [config.displayName], or the placeholder when [config] or
    [displayName] is absent. *)
Definition display_name_of (platform : list (string * value)) : value :=
  match lookup "config" platform with
  | Some (VDict config) =>
      match lookup "displayName" config with
      | Some display_name => display_name
      | None => VStr "Dataflow"
      end
  | _ => VStr "Dataflow"
  end.

Definition metadata_of (platform : list (string * value)) : value :=
  VDict [("Name", display_name_of platform);
         ("Description", VStr "");
         ("Version", VStr "1.0.0.0")].

Definition entry_is_dict (entry : string * value) : Prop := is_dict (snd entry).

(** A relative rest of a path: nothing, or a slash and more. *)
Definition is_rest (r : string) : Prop := r = "" \/ exists r', r = "/" ++ r'.

(** A second conversion into an output directory that still holds the
    item moved by the first one. *)
Definition fs_rerun : Fs.t :=
  [("out", Dir);
   ("out/item_001", Dir);
   ("out/item_001/mashup.pq", File (Bytes "let x = 2 in x"));
   ("out/item_001/item_001.pqt", File (Zip [("MashupDocument.pq", Bytes "let x = 2 in x")]));
   ("out/with_dataflows", Dir);
   ("out/with_dataflows/item_001", Dir);
   ("out/with_dataflows/item_001/mashup.pq", File (Bytes "let x = 1 in x"));
   ("out/with_dataflows/item_001/notes.txt", File (Bytes "kept by hand"))].

Definition mapping_one : string :=
  "item_001 | WorkspaceID: abc | ItemID: 123 | Name: MyFlow | Type: Dataflow | File: WS__abc__123__MyFlow__Dataflow.json"
  ++ newline.

(** The world the first run leaves behind. *)
Definition after_first_run : world := snd (batch_decode_directory "ws" (world0 fs_one)).

(** The same world with the source file put back. *)
Definition source_restored : world :=
  with_fs after_first_run
    (Fs.put "ws/WS__abc__123__MyFlow__Dataflow.json" (File (Bytes sales_definition))
       (fs after_first_run)).

(** The decode of the restored file inside the second run. *)
Definition second_decode : result value * world :=
  decode_dataflow_definition "ws/WS__abc__123__MyFlow__Dataflow.json" "ws/item_001"
    (printed source_restored
       [Processing 1 1 "WS__abc__123__MyFlow__Dataflow.json"]).

(** Two source files: one with a [.json] part, one with a script part and
    a part of another payload type. *)
Definition fs_two : Fs.t :=
  [("ws", Dir);
   ("ws/WS__w1__i1__Orders__Dataflow.json",
    File (Bytes (dq
"{'definition': {'parts': [
   {'path': 'queryMetadata.json', 'payload': 'eyJhIjogMX0=', 'payloadType': 'InlineBase64'}]}}")));
   ("ws/plain.json",
    File (Bytes (dq
"{'definition': {'parts': [
   {'path': 'mashup.pq', 'payload': 'aGk=', 'payloadType': 'InlineBase64'},
   {'path': 'notes.bin', 'payload': 'AAAA', 'payloadType': 'Binary'}]}}")))].

Definition after_decode_two : world := snd (batch_decode_directory "ws" (world0 fs_two)).

Definition after_assembly : world :=
  snd (assemble_and_partition "ws" ["ws/item_001"] (world0 fs_item)).

(** The bytes of a member of an archive. *)
Fixpoint lookup_member (name : string) (members : list (string * data)) : option data :=
  match members with
  | [] => None
  | (k, d) :: rest => if String.eqb k name then Some d else lookup_member name rest
  end.

(** The first world with the source file held open by another process. *)
Definition world_locked : world :=
  {| fs := fs_one; locked := ["ws/WS__abc__123__MyFlow__Dataflow.json"];
     console := []; slept := 0 |}.

(** No full stop occurs in [s]. *)
Fixpoint dot_free (s : string) : bool :=
  match s with
  | EmptyString => true
  | String c s' => negb (Ascii.eqb c ".") && dot_free s'
  end.

(** No separator can be read in or across the end of [s]: every
    underscore of [s] is followed by another character, which is not an
    underscore. *)
Fixpoint no_separator (s : string) : bool :=
  match s with
  | EmptyString => true
  | String c s' =>
      if Ascii.eqb c "_"
      then match s' with
           | EmptyString => false
           | String d _ => negb (Ascii.eqb d "_") && no_separator s'
           end
      else no_separator s'
  end.

(** A component of a file name that the parser reads back: no
    separator and no full stop. *)
Definition component (s : string) : bool := no_separator s && dot_free s.

(** The name the export gives to the definition of an item. *)
Definition export_name (workspace_id item_id name type : string) : string :=
  "WS__" ++ workspace_id ++ "__" ++ item_id ++ "__" ++ name ++ "__" ++ type ++ ".json".

(** The files the loop over [parts] may write: for every part that is
    an object with a string under [path], that path joined to the
    output directory. *)
Definition part_target (output_dir : string) (part : value) : list string :=
  match part with
  | VDict items =>
      match field items "path" with
      | VStr s => [os_path_join output_dir s]
      | _ => []
      end
  | _ => []
  end.

Definition part_targets (output_dir : string) (parts : list value) : list string :=
  flat_map (part_target output_dir) parts.

(** [w'] differs from [w] at most in the files listed in [ps] and in
    what the console shows. *)
Definition same_outside (ps : list string) (w w' : world) : Prop :=
  (forall q, ~ In q ps -> Fs.find q (fs w') = Fs.find q (fs w))
  /\ locked w' = locked w
  /\ slept w' = slept w.

(** The number a string of decimal digits stands for, as [int(s)]
    reads it; leading zeros are allowed. *)
Definition index_of (s : string) : option nat :=
  option_map Nat.of_uint (NilEmpty.uint_of_string s).

(** The bytes of the file [p]; empty when there is no such file. *)
Definition data_at (l : Fs.t) (p : string) : data :=
  match Fs.find p l with
  | Some (File d) => d
  | _ => Bytes ""
  end.

(** The regular files directly inside [d], in listing order, each under
    its own name and with its bytes. *)
Definition members_of (l : Fs.t) (d : string) : list (string * data) :=
  map (fun p => (Fs.basename p, data_at l p))
    (filter (Fs.is_file l) (Fs.children l d)).

(** An entry [find_dataflow_items] keeps: a directory named [item_...]
    that holds a [mashup.pq]. *)
Definition dataflow_item (l : Fs.t) (p : string) : bool :=
  Fs.is_dir l p && Str.startswith "item_" (Fs.basename p)
  && Fs.exists_ l (Fs.join p "mashup.pq").

(** [a] comes no later than [b] when sorted by name. *)
Definition name_le (a b : string) : Prop :=
  String.leb (Fs.basename a) (Fs.basename b) = true.

(** The session after one more message. *)
Definition told (s : session) (m : message) : session :=
  {| base := base s;
     messages := (messages s ++ [(List.length (console (base s)), m)])%list |}.

(** The line [create_output_mapping] writes for an item, as a function
    of the file system it looks at. *)
Definition line_for (l : Fs.t) (original_mappings : list (string * string))
  (item_dir : string) : string :=
  match output_line original_mappings item_dir (world0 l) with
  | (Ok text, _) => text
  | (Raise _, _) => ""
  end.

(** The text of a file written line by line. *)
Definition text_of_lines (ls : list string) : string := fold_right append "" ls.

(** The text [create_output_mapping] writes for [dataflow_items]. *)
Definition mapping_text (l : Fs.t) (original_mappings : list (string * string))
  (dataflow_items : list string) : string :=
  text_of_lines (map (line_for l original_mappings)
                   (Text.sorted Fs.basename dataflow_items)).

(** The session whose world holds the file [p] with the text [t]. *)
Definition with_text (s : session) (p t : string) : session :=
  {| base := with_fs (base s) (Fs.put p (File (Bytes t)) (fs (base s)));
     messages := messages s |}.

(** No line feed and no carriage return occurs in [s]. *)
Fixpoint no_break (s : string) : bool :=
  match s with
  | EmptyString => true
  | String c s' =>
      negb (Ascii.eqb c Text.line_feed) && negb (Ascii.eqb c Text.carriage_return)
      && no_break s'
  end.

(** A file name that a line of the mapping file carries unchanged: not
    empty, no white space at either end, no line break. *)
Definition clean_name (s : string) : bool :=
  negb (String.eqb s "") && String.eqb (Text.strip s) s && no_break s.

(** The dictionary with the item of every entry set to its file, in
    the order of the entries. *)
Definition mappings_of (entries : list (nat * string)) : list (string * string) :=
  fold_left (fun d e => dict_set (item_name (fst e)) (snd e) d) entries [].

(** Every byte of [s] is a printable ASCII character other than the
    space. *)
Fixpoint graphic (s : string) : bool :=
  match s with
  | EmptyString => true
  | String c s' => utf8.within 33 126 (Text.byte c) && graphic s'
  end.

(** What a line the decode stage writes for a file whose name does not
    parse carries. *)
Definition written_back (e : nat * string) : Prop :=
  clean_name (snd e) = true /\ extract_metadata_from_filename (snd e) = None.

(** A JSON value that is neither a string nor a container. *)
Definition is_scalar (v : value) : bool :=
  match v with
  | VNone | VBool _ | VInt _ | VFloat _ => true
  | _ => false
  end.

(** * Properties *)

(** ** Runs of the library models *)

Example ex_parse_ok :
  extract_metadata_from_filename "WS__abc__123__MyFlow__Dataflow.json"
  = Some {| workspace_id := "abc"; item_id := "123";
            name := "MyFlow"; type := "Dataflow" |}.
Proof. reflexivity. Qed.

Example ex_parse_random : extract_metadata_from_filename "random.json" = None.
Proof. reflexivity. Qed.

Example ex_parse_short : extract_metadata_from_filename "WS__a__b.json" = None.
Proof. reflexivity. Qed.

Example ex_split_odd : Str.split "__" "a___b" = ["a"; "_b"].
Proof. reflexivity. Qed.

Example ex_b64_hi : base64.b64decode (VStr "aGk=") = Ok "hi".
Proof. reflexivity. Qed.

Example ex_b64_skips : base64.b64decode (VStr "aG k=
") = Ok "hi".
Proof. reflexivity. Qed.

Example ex_b64_padding : base64.b64decode (VStr "aGk") = Raise binascii_Error.
Proof. reflexivity. Qed.

Example ex_utf8_ok : utf8.decode "é" = Ok "é".
Proof. reflexivity. Qed.

Example ex_utf8_bad : utf8.decode (String (ascii_of_N 255) "") = Raise UnicodeDecodeError.
Proof. reflexivity. Qed.

Example ex_utf8_cp : utf8.codepoints "é€" = [233%N; 8364%N]
  /\ utf8.encode 8364 = "€".
Proof. split; reflexivity. Qed.

Example ex_loads_obj :
  json.loads (dq "{'a': [1, -2, true, null], 'b': 'x\ny', 'a': 1.5e3}")
  = Ok (VDict [("a", VFloat "1.5e3");
               ("b", VStr (String "x" (String (ascii_of_N 10) "y")))]).
Proof. reflexivity. Qed.

Example ex_loads_bad :
  json.loads "not json" = Raise JSONDecodeError
  /\ json.loads (dq "{'a': 1,}") = Raise JSONDecodeError
  /\ json.loads "[1] x" = Raise JSONDecodeError
  /\ json.loads "01" = Raise JSONDecodeError.
Proof. repeat split; reflexivity. Qed.

Example ex_dumps :
  json.dumps false 2 (VDict [("a", VList [VInt 1; VStr "é"]); ("b", VDict [])])
  = dq "{
  'a': [
    1,
    'é'
  ],
  'b': {}
}"
  /\ json.dumps true 2 (VStr "é€") = dq "'\u00e9\u20ac'".
Proof. split; reflexivity. Qed.

Example ex_paths :
  Fs.dirname "a/b/c.json" = "a/b" /\ Fs.basename "a/b/c.json" = "c.json"
  /\ Fs.dirname "c.json" = "" /\ Fs.ancestors "" "a/b/c" = ["a"; "a/b"; "a/b/c"].
Proof. repeat split; reflexivity. Qed.

(** ** Helper facts on the monad and on values *)

Lemma get_field items k : get (VDict items) k VNone = Ok (field items k).
Proof. unfold get, field. destruct (lookup k items); reflexivity. Qed.

Lemma eq_str_true v s : eq_str v s = true <-> v = VStr s.
Proof.
  destruct v; simpl; split; intros H; try discriminate.
  - apply String.eqb_eq in H. now subst.
  - inversion H. apply String.eqb_refl.
Qed.

Lemma eq_str_false v s : eq_str v s = false <-> v <> VStr s.
Proof.
  split; intros H.
  - intros E. apply eq_str_true in E. congruence.
  - destruct (eq_str v s) eqn:E; [apply eq_str_true in E; contradiction | reflexivity].
Qed.

Lemma printed_nil w : printed w [] = w.
Proof. destruct w; unfold printed; simpl. now rewrite app_nil_r. Qed.

Lemma printed_printed w l1 l2 : printed (printed w l1) l2 = printed w (l1 ++ l2).
Proof. unfold printed; simpl. now rewrite app_assoc. Qed.

Lemma print_run l w : print l w = (Ok tt, printed w [l]).
Proof. reflexivity. Qed.

(** A [try] whose handler returns cannot raise. *)
Lemma try_except_returns A (m : M A) (handler : exn -> M A) :
  (forall e w, exists a w', handler e w = (Ok a, w')) ->
  forall w, exists a w', try_except m handler w = (Ok a, w').
Proof.
  intros H w. unfold try_except. destruct (m w) as [[a | e] w1].
  - now exists a, w1.
  - apply H.
Qed.

(** ** C6: the filename parser *)

(** C6 (code defect). The claim: the parser removes the [.json]
    extension, splits on the double underscore, and returns the tokens
    1..4 exactly when there are at least five tokens led by [WS].  The
    code removes every occurrence of [.json], so for a display name
    that contains [.json] it returns a different name than the tokens
    of the stem, and the parser worded by the specification disagrees
    with it on this file name. *)
Theorem extract_metadata_removes_inner_json :
  let filename := "WS__a__b__my.jsonfile__Dataflow.json" in
  spec_tokens filename = ["WS"; "a"; "b"; "my.jsonfile"; "Dataflow"]
  /\ extract_metadata_from_filename filename
     = Some {| workspace_id := "a"; item_id := "b";
               name := "myfile"; type := "Dataflow" |}
  /\ spec_parse_filename filename
     = Some {| workspace_id := "a"; item_id := "b";
               name := "my.jsonfile"; type := "Dataflow" |}
  /\ extract_metadata_from_filename filename <> spec_parse_filename filename.
Proof.
  cbv zeta. repeat split; try reflexivity.
  vm_compute. discriminate.
Qed.

(** The same defect changes which names parse at all: the stem below has
    four tokens, yet the code finds five. *)
Example extract_metadata_accepts_four_tokens :
  let filename := "WS_.json_a__b__c__d.json" in
  spec_tokens filename = ["WS_.json_a"; "b"; "c"; "d"]
  /\ spec_parse_filename filename = None
  /\ extract_metadata_from_filename filename
     = Some {| workspace_id := "a"; item_id := "b"; name := "c"; type := "d" |}.
Proof. cbv zeta. repeat split; reflexivity. Qed.

(** On the ordinary names, where no full stop occurs before the
    extension, the code and the wording of the specification agree. *)
Lemma replace_extension stem :
  dot_free stem = true -> Str.replace ".json" "" (stem ++ ".json") = stem.
Proof.
  unfold Str.replace. induction stem as [| c stem IH]; intros H.
  - reflexivity.
  - simpl in H. apply andb_true_iff in H. destruct H as [C D].
    apply negb_true_iff in C.
    change ((String c stem) ++ ".json") with (String c (stem ++ ".json")).
    cbn [Str.replace_from Str.startswith]. rewrite Ascii.eqb_sym, C.
    cbn [andb]. now rewrite IH.
Qed.

Lemma take_append a r : Str.take (String.length a) (a ++ r) = a.
Proof. induction a; simpl; congruence. Qed.

Lemma drop_length_append a r : Str.drop (String.length a) (a ++ r) = r.
Proof. induction a; simpl; auto. Qed.

Lemma remove_extension stem : remove_json_extension (stem ++ ".json") = stem.
Proof.
  unfold remove_json_extension, Str.endswith.
  assert (A : String.length (stem ++ ".json") = String.length stem + 5)
    by (induction stem; simpl; congruence).
  rewrite A. change (String.length ".json") with 5.
  replace (String.length stem + 5 - 5) with (String.length stem) by lia.
  rewrite drop_length_append, String.eqb_refl, andb_true_r, take_append.
  destruct (5 <=? String.length stem + 5)%nat eqn:E; [reflexivity |].
  apply Nat.leb_gt in E. lia.
Qed.

Lemma extract_metadata_agrees_without_dots stem :
  dot_free stem = true ->
  extract_metadata_from_filename (stem ++ ".json")
  = spec_parse_filename (stem ++ ".json").
Proof.
  intros H. unfold extract_metadata_from_filename, spec_parse_filename, spec_tokens.
  now rewrite (replace_extension stem H), remove_extension.
Qed.

(** ** C3: pass-through parts *)

(** C3. A part whose payloadType is not InlineBase64, or whose payload is
    null or empty, is the element appended to the output, unchanged; the
    step writes no file and prints nothing, so the world is unchanged
    too, which is all that tells the part was not decoded. *)
Theorem passthrough_part_unchanged :
  forall (output_dir : string) (items : list (string * value)) (w : world),
    field items "payloadType" <> VStr "InlineBase64"
    \/ field items "payload" = VNone
    \/ field items "payload" = VStr "" ->
    decode_part output_dir (VDict items) w = (Ok (VDict items), w).
Proof.
  intros output_dir items w H.
  unfold decode_part, bind, lift. rewrite !get_field.
  assert (E : eq_str (field items "payloadType") "InlineBase64"
              && truthy (field items "payload") = false).
  { destruct H as [H | [H | H]].
    - apply eq_str_false in H. now rewrite H.
    - rewrite H. apply andb_false_r.
    - rewrite H. apply andb_false_r. }
  now rewrite E.
Qed.

Lemma passthrough_part_unchanged_witness :
  let part := [("path", VStr ".platform"); ("payload", VStr "xyz");
               ("payloadType", VStr "Other")] in
  decode_part "out" (VDict part) (world0 [("out", Dir)])
  = (Ok (VDict part), world0 [("out", Dir)]).
Proof.
  cbv zeta. apply passthrough_part_unchanged.
  left. vm_compute. discriminate.
Defined.

(** The other falsy payloads of Python pass through as well. *)
Lemma passthrough_falsy_payload :
  forall output_dir items w,
    truthy (field items "payload") = false ->
    decode_part output_dir (VDict items) w = (Ok (VDict items), w).
Proof.
  intros output_dir items w H.
  unfold decode_part, bind, lift. rewrite !get_field, H, andb_false_r.
  reflexivity.
Qed.

(** ** C8: a missing or empty source directory *)

Lemma batch_missing_directory source_dir w :
  Fs.exists_ (fs w) source_dir = false ->
  batch_decode_directory source_dir w
  = (Ok false, printed w [DirectoryNotFound source_dir]).
Proof.
  intros H. unfold batch_decode_directory, bind, exists_. rewrite H. reflexivity.
Qed.

Lemma batch_no_json_files source_dir w :
  Fs.exists_ (fs w) source_dir = true ->
  json_files_in (fs w) source_dir = [] ->
  batch_decode_directory source_dir w
  = (Ok false, printed w [Header source_dir 0; NoJsonFiles]).
Proof.
  intros H G. unfold batch_decode_directory, bind, exists_, glob_json.
  rewrite H. cbn [negb]. cbv beta iota. rewrite G.
  rewrite !print_run. unfold ret. now rewrite printed_printed.
Qed.

(** C8, as the code has it. A missing source directory and a directory
    without a [*.json] entry end the same way: the function prints a
    message and returns [False]; neither raises, and the file system is
    left as it was. *)
Theorem batch_missing_or_empty_returns_false :
  forall (source_dir : string) (w : world),
    (Fs.exists_ (fs w) source_dir = false ->
     batch_decode_directory source_dir w
     = (Ok false, printed w [DirectoryNotFound source_dir]))
    /\ (Fs.exists_ (fs w) source_dir = true ->
        json_files_in (fs w) source_dir = [] ->
        batch_decode_directory source_dir w
        = (Ok false, printed w [Header source_dir 0; NoJsonFiles])).
Proof.
  intros source_dir w. split.
  - apply batch_missing_directory.
  - apply batch_no_json_files.
Qed.

Lemma batch_missing_or_empty_returns_false_witness :
  batch_decode_directory "gone" (world0 [("ws", Dir)])
  = (Ok false, printed (world0 [("ws", Dir)]) [DirectoryNotFound "gone"])
  /\ batch_decode_directory "ws" (world0 [("ws", Dir); ("ws/notes.txt", File (Bytes "x"))])
     = (Ok false,
        printed (world0 [("ws", Dir); ("ws/notes.txt", File (Bytes "x"))])
          [Header "ws" 0; NoJsonFiles]).
Proof.
  split.
  - apply (proj1 (batch_missing_or_empty_returns_false "gone" (world0 [("ws", Dir)]))).
    reflexivity.
  - apply (proj2 (batch_missing_or_empty_returns_false "ws"
                    (world0 [("ws", Dir); ("ws/notes.txt", File (Bytes "x"))])));
      reflexivity.
Defined.

(** The claim has the missing directory fail with NotFound, apart from
    the other failures.  On a missing directory the code raises nothing:
    the outcome is the value [False], the very outcome of a directory
    without source files. *)
Lemma batch_missing_directory_not_raised :
  fst (batch_decode_directory "gone" (world0 [("ws", Dir)])) = Ok false
  /\ fst (batch_decode_directory "gone" (world0 [("ws", Dir)]))
     <> Raise FileNotFoundError
  /\ fst (batch_decode_directory "gone" (world0 [("ws", Dir)]))
     = fst (batch_decode_directory "ws" (world0 [("ws", Dir)])).
Proof. repeat split; try reflexivity. vm_compute. discriminate. Qed.

(** ** C7: failures inside the template assembler *)

(** C7 (code defect). The claim: a failure of the staging-structure
    creation marks the item failed and never raises past the item.
    [pqtzip_dir.mkdir] stands before the [try]: when [pqtzip] exists as
    a regular file the call raises [FileExistsError] out of
    [create_pqtzip_structure], nothing is printed, and the loop of the
    driver stops before the next item, which alone would succeed. *)
Theorem pqtzip_mkdir_raises_past_item :
  create_pqtzip_structure "ws/item_001" (world0 fs_blocked)
  = (Raise FileExistsError, world0 fs_blocked)
  /\ create_structures ["ws/item_001"; "ws/item_002"] 0 (world0 fs_blocked)
     = (Raise FileExistsError, world0 fs_blocked)
  /\ create_structures ["ws/item_002"] 0 (world0 fs_blocked)
     = (Ok 1%nat,
        printed
          (with_fs (world0 fs_blocked)
             (fs_blocked ++
              [("ws/item_002/pqtzip", Dir);
               ("ws/item_002/pqtzip/MashupDocument.pq", File (Bytes "let y = 2 in y"));
               ("ws/item_002/pqtzip/[Content_Types].xml",
                File (Bytes create_content_types_xml))])%list)
          [StructureOk "item_002"]).
Proof. repeat split; reflexivity. Qed.

(** What the code does guarantee: everything inside the [try] is caught. *)
Lemma create_pqtzip_structure_after_mkdir :
  forall (item_dir : string) (w w1 : world),
    mkdir (Fs.join item_dir "pqtzip") w = (Ok tt, w1) ->
    exists b w', create_pqtzip_structure item_dir w = (Ok b, w').
Proof.
  intros item_dir w w1 H. unfold create_pqtzip_structure, bind. rewrite H.
  apply try_except_returns. intros e w0. eexists _, _. reflexivity.
Qed.

Lemma create_pqtzip_structure_failure_logged :
  forall (item_dir : string) (w w1 w2 : world) (e : exn),
    mkdir (Fs.join item_dir "pqtzip") w = (Ok tt, w1) ->
    fill_pqtzip item_dir (Fs.join item_dir "pqtzip") w1 = (Raise e, w2) ->
    create_pqtzip_structure item_dir w
    = (Ok false, printed w2 [PqtzipError (Fs.basename item_dir) e]).
Proof.
  intros item_dir w w1 w2 e H G.
  unfold create_pqtzip_structure, bind. rewrite H. unfold try_except.
  rewrite G. reflexivity.
Qed.

Lemma create_pqt_archive_returns :
  forall (item_dir : string) (w : world),
    exists b w', create_pqt_archive item_dir w = (Ok b, w').
Proof.
  intros item_dir w. unfold create_pqt_archive, bind, exists_.
  destruct (Fs.exists_ (fs w) (Fs.join item_dir "pqtzip")); cbn [negb]; cbv beta iota.
  - apply try_except_returns. intros e w0. eexists _, _. reflexivity.
  - eexists _, _. reflexivity.
Qed.

Lemma create_archives_returns :
  forall (copied_items : list string) (n : nat) (w : world),
    exists m w', create_archives copied_items n w = (Ok m, w').
Proof.
  induction copied_items as [| item_dir rest IH]; intros n w.
  - eexists _, _. reflexivity.
  - simpl. unfold bind at 1.
    destruct (create_pqt_archive_returns item_dir w) as (b & w1 & E). rewrite E.
    destruct b; unfold bind; rewrite print_run; apply IH.
Qed.

(** ** Facts on the file system *)

Lemma find_put_eq p n l : Fs.find p (Fs.put p n l) = Some n.
Proof.
  induction l as [| [k m] l IH]; simpl.
  - now rewrite String.eqb_refl.
  - destruct (String.eqb k p) eqn:E; simpl; rewrite E; [reflexivity | exact IH].
Qed.

Lemma find_put_ne p q n l : p <> q -> Fs.find q (Fs.put p n l) = Fs.find q l.
Proof.
  intros H. induction l as [| [k m] l IH]; simpl.
  - destruct (String.eqb p q) eqn:E; [apply String.eqb_eq in E; contradiction | reflexivity].
  - destruct (String.eqb k p) eqn:E; simpl.
    + apply String.eqb_eq in E. subst k.
      destruct (String.eqb p q) eqn:F; [apply String.eqb_eq in F; contradiction | reflexivity].
    + destruct (String.eqb k q); [reflexivity | exact IH].
Qed.

Lemma world_le_refl w : world_le w w.
Proof.
  split; auto. exists []. now rewrite app_nil_r.
Qed.

Lemma world_le_trans w1 w2 w3 : world_le w1 w2 -> world_le w2 w3 -> world_le w1 w3.
Proof.
  intros [[l1 C1] D1 F1] [[l2 C2] D2 F2]. split.
  - exists (l1 ++ l2)%list. now rewrite C2, C1, app_assoc.
  - intros p. now rewrite D2.
  - auto.
Qed.

Lemma world_le_printed w ls : world_le w (printed w ls).
Proof. split; auto. now exists ls. Qed.

Lemma open_error_le w w' p :
  world_le w w' -> Fs.open_error (fs w) p = None -> Fs.open_error (fs w') p = None.
Proof.
  intros [_ D F] H. unfold Fs.open_error in *.
  destruct (Fs.has_nul p); [discriminate |].
  destruct (Fs.names_directory p); [discriminate |].
  pose proof (D p) as Dp. pose proof (F p) as Fp.
  unfold Fs.is_dir, Fs.is_file in Dp, Fp.
  destruct (Fs.find p (fs w')) as [[d' |] |] eqn:E'.
  - reflexivity.
  - destruct (Fs.find p (fs w)) as [[d |] |]; discriminate.
  - destruct (Fs.find p (fs w)) as [[d |] |]; try discriminate.
    + specialize (Fp eq_refl). discriminate.
    + unfold Fs.dir_ok in *. rewrite D.
      destruct (String.eqb (Fs.dirname p) "" || Fs.is_dir (fs w) (Fs.dirname p));
        [reflexivity |].
      destruct (Fs.exists_ (fs w) (Fs.dirname p)); discriminate.
Qed.

Lemma forward_ret A (a : A) : forward (ret a).
Proof. intros w r w' H. inversion H. apply world_le_refl. Qed.

Lemma forward_raise A e : forward (@raise A e).
Proof. intros w r w' H. inversion H. apply world_le_refl. Qed.

Lemma forward_lift A (x : result A) : forward (lift x).
Proof. intros w r w' H. inversion H. apply world_le_refl. Qed.

Lemma forward_bind A B (m : M A) (k : A -> M B) :
  forward m -> (forall a, forward (k a)) -> forward (bind m k).
Proof.
  intros Hm Hk w r w' H. unfold bind in H.
  destruct (m w) as [[a | e] w1] eqn:E.
  - eapply world_le_trans; [eapply Hm; eauto | eapply Hk; eauto].
  - inversion H; subst. eapply Hm; eauto.
Qed.

Lemma forward_try_except A (m : M A) (h : exn -> M A) :
  forward m -> (forall e, forward (h e)) -> forward (try_except m h).
Proof.
  intros Hm Hh w r w' H. unfold try_except in H.
  destruct (m w) as [[a | e] w1] eqn:E.
  - inversion H; subst. eapply Hm; eauto.
  - eapply world_le_trans; [eapply Hm; eauto | eapply Hh; eauto].
Qed.

Lemma forward_print l : forward (print l).
Proof. intros w r w' H. inversion H. apply (world_le_printed w [l]). Qed.

Lemma forward_write_data p d : forward (write_data p d).
Proof.
  intros w r w' H. unfold write_data in H.
  destruct (Fs.open_error (fs w) p) eqn:E; inversion H; subst.
  - apply world_le_refl.
  - unfold Fs.open_error in E.
    destruct (Fs.has_nul p); [discriminate |].
    destruct (Fs.names_directory p); [discriminate |]. split; simpl.
    + exists []. now rewrite app_nil_r.
    + intros q. unfold Fs.is_dir. destruct (String.eqb p q) eqn:Q.
      * apply String.eqb_eq in Q. subst q. rewrite find_put_eq.
        destruct (Fs.find p (fs w)) as [[? |] |]; try reflexivity. discriminate.
      * apply String.eqb_neq in Q. now rewrite find_put_ne.
    + intros q. unfold Fs.is_file. destruct (String.eqb p q) eqn:Q.
      * apply String.eqb_eq in Q. subst q. now rewrite find_put_eq.
      * apply String.eqb_neq in Q. now rewrite find_put_ne.
Qed.

Lemma forward_write_text p s : forward (write_text p s).
Proof. apply forward_write_data. Qed.

Lemma forward_json_dump v p n b : forward (json_dump v p n b).
Proof. apply forward_write_data. Qed.

Lemma forward_read_data p : forward (read_data p).
Proof.
  intros w r w' H. unfold read_data in H.
  destruct (Fs.find p (fs w)) as [[? |] |]; inversion H; apply world_le_refl.
Qed.

Create HintDb forward.

#[local] Hint Resolve forward_ret forward_raise forward_lift forward_print
  forward_write_data forward_write_text forward_json_dump forward_read_data
  : forward.

Ltac forward_steps :=
  repeat first
    [ apply forward_bind; [| intros ?]
    | apply forward_try_except; [| intros ?]
    | match goal with |- forward (if ?b then _ else _) => destruct b end
    | solve [auto with forward] ].

(** ** C1, C2: decoding one part *)

Lemma forward_decode_part output_dir part : forward (decode_part output_dir part).
Proof. unfold decode_part. forward_steps. Qed.

Lemma candidate_test items :
  candidate items ->
  eq_str (field items "payloadType") "InlineBase64"
  && truthy (field items "payload") = true.
Proof.
  intros [H G]. rewrite G, andb_true_r. now apply eq_str_true.
Qed.

Lemma decode_part_failure :
  forall output_dir items w e,
    candidate items ->
    decode_failure (field items "path") (field items "payload") e ->
    decode_part output_dir (VDict items) w
    = (Ok (VDict items), printed w [ErrorDecoding (field items "path") e]).
Proof.
  intros output_dir items w e C F.
  unfold decode_part, bind, lift. rewrite !get_field, (candidate_test C).
  unfold try_except.
  destruct F as [e H | bytes e H G | bytes text e H G J K].
  - now rewrite H.
  - now rewrite H, G.
  - now rewrite H, G, J, K.
Qed.

Lemma decode_part_outcome :
  forall output_dir items w,
    exists d w',
      decode_part output_dir (VDict items) w = (Ok d, w')
      /\ (d = VDict items \/ decoded_from (VDict items) d).
Proof.
  intros output_dir items w.
  unfold decode_part, bind, lift. rewrite !get_field.
  destruct (eq_str (field items "payloadType") "InlineBase64"
            && truthy (field items "payload")).
  2: { eexists _, _. split; [reflexivity | now left]. }
  unfold try_except, json_dump, write_text, write_data, ret.
  destruct (base64.b64decode (field items "payload")) as [bytes | e];
    [| eexists _, _; split; [reflexivity | now left]].
  destruct (utf8.decode bytes) as [text | e];
    [| eexists _, _; split; [reflexivity | now left]].
  destruct (endswith (field items "path") ".json") as [[|] | e];
    [| | eexists _, _; split; [reflexivity | now left]].
  - destruct (json.loads text) as [v | e];
      [| eexists _, _; split; [reflexivity | now left]].
    destruct (join_value output_dir (field items "path")) as [output_file | e];
      [| eexists _, _; split; [reflexivity | now left]].
    destruct (Fs.open_error (fs w) output_file);
      eexists _, _; (split; [reflexivity |]); [now left | right].
    exists items, v, "DecodedJSON". auto.
  - destruct (join_value output_dir (field items "path")) as [output_file | e];
      [| eexists _, _; split; [reflexivity | now left]].
    destruct (Fs.open_error (fs w) output_file);
      eexists _, _; (split; [reflexivity |]); [now left | right].
    exists items, (VStr text), "DecodedText". auto.
Qed.

Lemma decode_parts_app output_dir l1 l2 :
  forall acc w,
    decode_parts output_dir (l1 ++ l2) acc w
    = match decode_parts output_dir l1 acc w with
      | (Ok acc', w1) => decode_parts output_dir l2 acc' w1
      | (Raise e, w1) => (Raise e, w1)
      end.
Proof.
  induction l1 as [| part l1 IH]; intros acc w; simpl.
  - reflexivity.
  - unfold bind. destruct (decode_part output_dir part w) as [[d | e] w1].
    + apply IH.
    + reflexivity.
Qed.

(** The loop over parts that are JSON objects runs to its end; entry
    [i] of the output comes from part [i]. *)
Lemma decode_parts_outcome output_dir parts :
  Forall is_dict parts ->
  forall acc w,
    exists ds w',
      decode_parts output_dir parts acc w = (Ok (acc ++ ds)%list, w')
      /\ Forall2 (fun part d => d = part \/ decoded_from part d) parts ds
      /\ world_le w w'.
Proof.
  induction 1 as [| part parts [items ->] _ IH]; intros acc w; simpl.
  - exists [], w. rewrite app_nil_r.
    split; [reflexivity | split; [constructor | apply world_le_refl]].
  - unfold bind.
    destruct (decode_part_outcome output_dir items w) as (d & w1 & E & Hd).
    rewrite E.
    destruct (IH (acc ++ [d])%list w1) as (ds & w' & E' & F & L).
    exists (d :: ds), w'. rewrite E', <- app_assoc.
    split; [reflexivity | split; [now constructor |]].
    eapply world_le_trans; [| exact L].
    eapply forward_decode_part; eauto.
Qed.

(** A part that is not a JSON object is read outside the [try]: the
    loop stops with the error of [part.get]. *)
Example non_object_part_raises :
  decode_parts "out" [VDict part_script; VStr "mashup.pq"; VDict part_script] []
    (world0 [("out", Dir)])
  = (Raise AttributeError,
     world0 [("out", Dir); ("out/mashup.pq", File (Bytes "hi"))]).
Proof. reflexivity. Qed.

(** C2. A candidate part whose decoding fails (invalid base64, invalid
    UTF-8, or a JSON parse failure under a [.json] path) does not stop
    the loop: the step prints the failure with the part's path and
    yields the original part; in the output of the whole loop the
    original part stands at the same index, all parts are processed,
    and the line is on the console. *)
Theorem failed_part_kept_in_place :
  forall (output_dir : string) (parts : list value) (i : nat)
         (items : list (string * value)) (e : exn) (w : world),
    Forall is_dict parts ->
    nth_error parts i = Some (VDict items) ->
    candidate items ->
    decode_failure (field items "path") (field items "payload") e ->
    (forall w0,
        decode_part output_dir (VDict items) w0
        = (Ok (VDict items), printed w0 [ErrorDecoding (field items "path") e]))
    /\ exists ds w',
        decode_parts output_dir parts [] w = (Ok ds, w')
        /\ List.length ds = List.length parts
        /\ nth_error ds i = Some (VDict items)
        /\ In (ErrorDecoding (field items "path") e) (console w').
Proof.
  intros output_dir parts i items e w HF Hi C F. split.
  { intros w0. now apply decode_part_failure. }
  destruct (nth_error_split parts i Hi) as (l1 & l2 & -> & Hlen).
  apply Forall_app in HF. destruct HF as [H1 H2]. inversion H2 as [| ? ? _ H3]; subst.
  rewrite decode_parts_app.
  destruct (decode_parts_outcome output_dir H1 [] w) as (ds1 & w1 & E1 & F1 & _).
  rewrite E1. simpl. unfold bind. rewrite (decode_part_failure output_dir w1 C F).
  destruct (decode_parts_outcome output_dir H3 (ds1 ++ [VDict items])%list
              (printed w1 [ErrorDecoding (field items "path") e]))
    as (ds2 & w' & E2 & F2 & [[ls L] _ _]).
  rewrite E2. eexists _, _. split; [reflexivity |].
  apply Forall2_length in F1, F2. repeat split.
  - rewrite !length_app. simpl. lia.
  - rewrite <- app_assoc. rewrite nth_error_app2 by lia.
    replace (List.length l1 - List.length ds1) with 0 by lia. reflexivity.
  - rewrite L. simpl. apply in_or_app. left. apply in_or_app. right. now left.
Qed.

Lemma failed_part_kept_in_place_witness :
  exists ds w',
    decode_parts "out" [VDict part_script; VDict part_bad_json; VDict part_script] []
      (world0 [("out", Dir)]) = (Ok ds, w')
    /\ List.length ds = 3
    /\ nth_error ds 1 = Some (VDict part_bad_json)
    /\ In (ErrorDecoding (VStr "q.json") JSONDecodeError) (console w').
Proof.
  refine (proj2 (@failed_part_kept_in_place "out"
            [VDict part_script; VDict part_bad_json; VDict part_script] 1
            part_bad_json JSONDecodeError (world0 [("out", Dir)]) _ _ _ _)).
  - repeat constructor; eexists; reflexivity.
  - reflexivity.
  - split; reflexivity.
  - eapply invalid_json; reflexivity.
Defined.

(** C1, as the code has it. For a candidate part whose payload decodes
    from base64 to valid UTF-8 text, whose path is a string, and whose
    target [output_dir/<path>] can be opened for writing: under a
    [.json] path whose text parses, the result carries the parsed value
    with payloadType DecodedJSON and the file holds the value printed
    with indent 2 and non-ASCII kept; under any other path the result
    carries the text with payloadType DecodedText and the file holds the
    text. *)
Theorem decode_part_success :
  forall (output_dir : string) (items : list (string * value))
         (path_name bytes text : string) (w : world),
    candidate items ->
    field items "path" = VStr path_name ->
    base64.b64decode (field items "payload") = Ok bytes ->
    utf8.decode bytes = Ok text ->
    Fs.open_error (fs w) (os_path_join output_dir path_name) = None ->
    let output_file := os_path_join output_dir path_name in
    (Str.endswith path_name ".json" = true ->
     forall v, json.loads text = Ok v ->
       let w' := with_fs w (Fs.put output_file
                              (File (Bytes (json.dumps false 2 v))) (fs w)) in
       decode_part output_dir (VDict items) w
       = (Ok (decoded_part (VStr path_name) v "DecodedJSON"), w')
       /\ Fs.find output_file (fs w') = Some (File (Bytes (json.dumps false 2 v))))
    /\ (Str.endswith path_name ".json" = false ->
        let w' := with_fs w (Fs.put output_file (File (Bytes text)) (fs w)) in
        decode_part output_dir (VDict items) w
        = (Ok (decoded_part (VStr path_name) (VStr text) "DecodedText"), w')
        /\ Fs.find output_file (fs w') = Some (File (Bytes text))).
Proof.
  intros output_dir items path_name bytes text w C P B U O. cbv zeta.
  split.
  - intros J v L. split; [| apply find_put_eq].
    unfold decode_part, bind, lift. rewrite !get_field, (candidate_test C).
    unfold try_except. rewrite B, U, P. simpl endswith. rewrite J, L.
    simpl join_value. unfold json_dump, write_text, write_data.
    now rewrite O.
  - intros J. split; [| apply find_put_eq].
    unfold decode_part, bind, lift. rewrite !get_field, (candidate_test C).
    unfold try_except. rewrite B, U, P. simpl endswith. rewrite J.
    simpl join_value. unfold write_text, write_data.
    now rewrite O.
Qed.

Lemma decode_part_success_witness :
  decode_part "out" (VDict part_query_metadata) (world0 [("out", Dir)])
  = (Ok (decoded_part (VStr "queryMetadata.json") (VDict [("a", VInt 1)]) "DecodedJSON"),
     world0 [("out", Dir);
             ("out/queryMetadata.json", File (Bytes (dq "{
  'a': 1
}")))])
  /\ decode_part "out" (VDict part_script) (world0 [("out", Dir)])
     = (Ok (decoded_part (VStr "mashup.pq") (VStr "hi") "DecodedText"),
        world0 [("out", Dir); ("out/mashup.pq", File (Bytes "hi"))]).
Proof.
  split.
  - refine (proj1 (proj1 (@decode_part_success "out" part_query_metadata
              "queryMetadata.json" (dq "{'a': 1}") (dq "{'a': 1}")
              (world0 [("out", Dir)]) _ _ _ _ _) _ (VDict [("a", VInt 1)]) _));
      try reflexivity.
    split; reflexivity.
  - refine (proj1 (proj2 (@decode_part_success "out" part_script
              "mashup.pq" "hi" "hi" (world0 [("out", Dir)]) _ _ _ _ _) _));
      try reflexivity.
    split; reflexivity.
Defined.

(** The claim promises the decoded part, and the file, for every
    candidate whose payload decodes to UTF-8 text.  Two such parts for
    which the code yields the original part and writes nothing: a
    [.json] path over text that is not JSON, and a path into a
    sub-directory that does not exist (the code never creates one). *)
Lemma decoded_text_may_fall_back :
  let w := world0 [("out", Dir)] in
  (base64.b64decode (field part_bad_json "payload") = Ok "not json"
   /\ utf8.decode "not json" = Ok "not json"
   /\ endswith (field part_bad_json "path") ".json" = Ok true
   /\ decode_part "out" (VDict part_bad_json) w
      = (Ok (VDict part_bad_json),
         printed w [ErrorDecoding (VStr "q.json") JSONDecodeError])
   /\ field part_bad_json "payloadType" <> VStr "DecodedJSON")
  /\ (base64.b64decode (field part_nested "payload") = Ok "hi"
      /\ utf8.decode "hi" = Ok "hi"
      /\ endswith (field part_nested "path") ".json" = Ok false
      /\ decode_part "out" (VDict part_nested) w
         = (Ok (VDict part_nested),
            printed w [ErrorDecoding (VStr "queries/mashup.pq") FileNotFoundError])
      /\ field part_nested "payloadType" <> VStr "DecodedText").
Proof.
  cbv zeta. repeat split; try reflexivity; vm_compute; discriminate.
Qed.

(** ** C4: decoding a definition *)

Lemma json_load_file p text v w :
  Fs.find p (fs w) = Some (File (Bytes text)) ->
  utf8.valid text = true ->
  json.loads text = Ok v ->
  json_load p w = (Ok v, w).
Proof.
  intros F U L. unfold json_load, read_text, read_data, bind, lift, utf8.decode.
  now rewrite F, U, L.
Qed.

Lemma makedirs_each_keeps_files ps :
  forall l l' p,
    makedirs_each ps l = Ok l' ->
    Fs.is_file l p = true -> Fs.is_file l' p = true.
Proof.
  induction ps as [| q ps IH]; intros l l' p H F; simpl in H.
  - inversion H; subst. exact F.
  - destruct (Fs.find q l) as [[d |] |] eqn:E; try discriminate.
    + eapply IH; eauto.
    + eapply IH; eauto. unfold Fs.is_file in *.
      destruct (String.eqb q p) eqn:Q.
      * apply String.eqb_eq in Q. subst q. now rewrite E in F.
      * apply String.eqb_neq in Q. now rewrite find_put_ne.
Qed.

Lemma makedirs_keeps_files p q w w1 :
  makedirs p w = (Ok tt, w1) ->
  Fs.is_file (fs w) q = true -> Fs.is_file (fs w1) q = true.
Proof.
  unfold makedirs. intros H F.
  destruct (makedirs_each (Fs.ancestors "" p) (fs w)) as [l |] eqn:E; inversion H.
  simpl. eapply makedirs_each_keeps_files; eauto.
Qed.

Lemma Forall2_nth_error A B (R : A -> B -> Prop) l1 l2 :
  Forall2 R l1 l2 ->
  forall i a, nth_error l1 i = Some a ->
              exists b, nth_error l2 i = Some b /\ R a b.
Proof.
  induction 1 as [| x y l1 l2 Hxy _ IH]; intros [| i] a H; simpl in *;
    try discriminate.
  - inversion H; subst. eauto.
  - eauto.
Qed.

Lemma copy2_file src dst w :
  Fs.is_file (fs w) src = true ->
  Fs.is_dir (fs w) dst = false ->
  src <> dst ->
  Fs.open_error (fs w) dst = None ->
  exists w', copy2 src dst w = (Ok tt, w').
Proof.
  intros F D N O. unfold copy2. rewrite D.
  apply String.eqb_neq in N. rewrite N. simpl.
  unfold bind, read_data, write_data. unfold Fs.is_file in F.
  destruct (Fs.find src (fs w)) as [[d |] |]; try discriminate.
  rewrite O. eauto.
Qed.

(** C4. When the source file holds a definition whose parts are JSON
    objects and the three file operations around the loop succeed (the
    output directory can be made, [definition_decoded.json] and the copy
    of the source can be written), the function returns a definition
    whose [parts] has as many entries as the input, entry [i] being part
    [i] itself or part [i] rewritten by the decoder. *)
Theorem decoded_definition_keeps_parts :
  forall (input_file output_dir text : string) (definition : value)
         (parts : list value) (w w1 : world),
    Fs.find input_file (fs w) = Some (File (Bytes text)) ->
    utf8.valid text = true ->
    json.loads text = Ok definition ->
    definition_parts definition = Ok (VList parts) ->
    Forall is_dict parts ->
    makedirs output_dir w = (Ok tt, w1) ->
    Fs.open_error (fs w1) (os_path_join output_dir "definition_decoded.json") = None ->
    Fs.is_dir (fs w1) (os_path_join output_dir (Fs.basename input_file)) = false ->
    Fs.open_error (fs w1) (os_path_join output_dir (Fs.basename input_file)) = None ->
    input_file <> os_path_join output_dir (Fs.basename input_file) ->
    exists ds w',
      decode_dataflow_definition input_file output_dir w
      = (Ok (VDict [("definition", VDict [("parts", VList ds)])]), w')
      /\ List.length ds = List.length parts
      /\ forall i part,
          nth_error parts i = Some part ->
          exists d, nth_error ds i = Some d /\ (d = part \/ decoded_from part d).
Proof.
  intros input_file output_dir text definition parts w w1 F U L P D M O1 D2 O2 N.
  unfold decode_dataflow_definition, bind.
  rewrite (@json_load_file _ _ _ _ F U L), M. unfold lift.
  unfold definition_parts in P.
  destruct (get definition "definition" (VDict [])) as [inner |]; [| discriminate].
  rewrite P. simpl iterate. cbv beta iota.
  destruct (decode_parts_outcome output_dir D [] w1) as (ds & w2 & E & F2 & L12).
  simpl app in E. rewrite E.
  unfold json_dump, write_text. unfold write_data at 1.
  rewrite (@open_error_le _ _ _ L12 O1).
  set (w3 := with_fs w2 _).
  assert (L23 : world_le w2 w3).
  { eapply (@forward_write_data (os_path_join output_dir "definition_decoded.json")
              (Bytes (json.dumps false 2
                 (VDict [("definition", VDict [("parts", VList ds)])]))) w2 (Ok tt)).
    unfold write_data. now rewrite (@open_error_le _ _ _ L12 O1). }
  pose proof (world_le_trans L12 L23) as L13.
  destruct (@copy2_file input_file (os_path_join output_dir (Fs.basename input_file)) w3)
    as (w' & C).
  - apply (le_files L13). eapply makedirs_keeps_files; eauto.
    unfold Fs.is_file. now rewrite F.
  - now rewrite (le_dirs L13).
  - exact N.
  - exact (@open_error_le _ _ _ L13 O2).
  - rewrite C. exists ds, w'. split; [reflexivity |]. split.
    + symmetry. eapply Forall2_length; eauto.
    + intros i part Hi. eapply Forall2_nth_error in F2; eauto.
Qed.

Lemma decoded_definition_keeps_parts_witness :
  exists ds w',
    decode_dataflow_definition "ws/WS__abc__123__MyFlow__Dataflow.json"
      "ws/item_001" (world0 fs_one)
    = (Ok (VDict [("definition", VDict [("parts", VList ds)])]), w')
    /\ List.length ds = List.length sales_parts
    /\ forall i part,
        nth_error sales_parts i = Some part ->
        exists d, nth_error ds i = Some d /\ (d = part \/ decoded_from part d).
Proof.
  apply (@decoded_definition_keeps_parts
           "ws/WS__abc__123__MyFlow__Dataflow.json" "ws/item_001"
           sales_definition
           (VDict [("definition", VDict [("parts", VList sales_parts)])])
           sales_parts (world0 fs_one)
           (world0 (fs_one ++ [("ws/item_001", Dir)])%list));
    try reflexivity.
  - repeat constructor; eexists; reflexivity.
  - vm_compute. discriminate.
Defined.

(** ** C5: the derived metadata documents *)

Lemma query_entries_records mapping :
  Forall entry_is_dict mapping ->
  forall acc, query_entries mapping acc = Ok (acc ++ map query_record mapping)%list.
Proof.
  induction 1 as [| [query_name query_info] mapping [info E] _ IH]; intros acc; simpl.
  - now rewrite app_nil_r.
  - simpl in E. subst query_info.
    unfold query_entry, contains, getitem, query_record. simpl.
    destruct (lookup "isHidden" info) as [h |]; rewrite IH, <- app_assoc; reflexivity.
Qed.

Lemma create_mashup_metadata_document path text document mapping w :
  Fs.find path (fs w) = Some (File (Bytes text)) ->
  utf8.valid text = true ->
  json.loads text = Ok (VDict document) ->
  lookup "queriesMetadata" document = Some (VDict mapping) ->
  Forall entry_is_dict mapping ->
  create_mashup_metadata path w = (Ok (mashup_metadata_of mapping), w).
Proof.
  intros F U L Q D.
  unfold create_mashup_metadata, bind. rewrite (@json_load_file _ _ _ _ F U L).
  unfold lift, contains, getitem, items_of. rewrite Q.
  now rewrite (query_entries_records D).
Qed.

Lemma create_metadata_document path text platform w :
  Fs.find path (fs w) = Some (File (Bytes text)) ->
  utf8.valid text = true ->
  json.loads text = Ok (VDict platform) ->
  (lookup "config" platform = None
   \/ exists config, lookup "config" platform = Some (VDict config)) ->
  create_metadata path w = (Ok (metadata_of platform), w).
Proof.
  intros F U L C.
  unfold create_metadata, bind. rewrite (@json_load_file _ _ _ _ F U L).
  unfold lift, get, metadata_of, display_name_of.
  destruct C as [C | [config C]]; rewrite C.
  - reflexivity.
  - destruct (lookup "displayName" config); reflexivity.
Qed.

Lemma find_exists p n l : Fs.find p l = Some n -> Fs.exists_ l p = true.
Proof. unfold Fs.exists_. now intros ->. Qed.

(** C5. For a [queryMetadata.json] that holds an object whose
    [queriesMetadata] maps query names to objects, the derived document
    is the version tag with one record per query, in order: the name,
    and [IsHidden] exactly when the entry has [isHidden]; step 2 of the
    assembler writes it, printed with indent 2, to
    [MashupMetadata.json] in the staging directory.  For a [.platform]
    that holds an object whose [config], when present, is an object,
    the derived document is the display name (or the placeholder
    Dataflow when absent), an empty description and the version tag;
    step 3 writes it to [Metadata.json]. *)
Theorem derived_metadata_documents :
  forall (item_dir pqtzip_dir text : string) (w : world),
    utf8.valid text = true ->
    (forall document mapping,
        Fs.find (Fs.join item_dir "queryMetadata.json") (fs w)
        = Some (File (Bytes text)) ->
        json.loads text = Ok (VDict document) ->
        lookup "queriesMetadata" document = Some (VDict mapping) ->
        Forall entry_is_dict mapping ->
        Fs.open_error (fs w) (Fs.join pqtzip_dir "MashupMetadata.json") = None ->
        create_mashup_metadata (Fs.join item_dir "queryMetadata.json") w
        = (Ok (VDict [("Version", VStr "1.0.0.0");
                      ("QueriesMetadata", VList (map query_record mapping))]), w)
        /\ exists w',
            write_mashup_metadata item_dir pqtzip_dir w = (Ok tt, w')
            /\ Fs.find (Fs.join pqtzip_dir "MashupMetadata.json") (fs w')
               = Some (File (Bytes (json.dumps true 2 (mashup_metadata_of mapping)))))
    /\ (forall platform,
           Fs.find (Fs.join item_dir ".platform") (fs w) = Some (File (Bytes text)) ->
           json.loads text = Ok (VDict platform) ->
           (lookup "config" platform = None
            \/ exists config, lookup "config" platform = Some (VDict config)) ->
           Fs.open_error (fs w) (Fs.join pqtzip_dir "Metadata.json") = None ->
           create_metadata (Fs.join item_dir ".platform") w
           = (Ok (VDict [("Name", display_name_of platform);
                         ("Description", VStr "");
                         ("Version", VStr "1.0.0.0")]), w)
           /\ exists w',
               write_metadata item_dir pqtzip_dir w = (Ok tt, w')
               /\ Fs.find (Fs.join pqtzip_dir "Metadata.json") (fs w')
                  = Some (File (Bytes (json.dumps true 2 (metadata_of platform))))).
Proof.
  intros item_dir pqtzip_dir text w U. split.
  - intros document mapping F L Q D O.
    pose proof (@create_mashup_metadata_document _ _ _ _ _ F U L Q D) as E.
    split; [exact E |].
    unfold write_mashup_metadata, bind, exists_. rewrite (@find_exists _ _ _ F), E.
    unfold json_dump, write_text, write_data. rewrite O.
    eexists. split; [reflexivity | apply find_put_eq].
  - intros platform F L C O.
    pose proof (@create_metadata_document _ _ _ _ F U L C) as E.
    split; [exact E |].
    unfold write_metadata, bind, exists_. rewrite (@find_exists _ _ _ F), E.
    unfold json_dump, write_text, write_data. rewrite O.
    eexists. split; [reflexivity | apply find_put_eq].
Qed.

(** The item of the end-to-end example, with its staging directory. *)
Lemma derived_metadata_documents_witness :
  let w := world0 (fs_item ++ [("ws/item_001/pqtzip", Dir)])%list in
  (exists w',
      write_mashup_metadata "ws/item_001" "ws/item_001/pqtzip" w = (Ok tt, w')
      /\ Fs.find "ws/item_001/pqtzip/MashupMetadata.json" (fs w')
         = Some (File (Bytes (dq "{
  'Version': '1.0.0.0',
  'QueriesMetadata': [
    {
      'Name': 'Sales Query',
      'IsHidden': true
    }
  ]
}"))))
  /\ (exists w',
         write_metadata "ws/item_001" "ws/item_001/pqtzip" w = (Ok tt, w')
         /\ Fs.find "ws/item_001/pqtzip/Metadata.json" (fs w')
            = Some (File (Bytes (dq "{
  'Name': 'Sales',
  'Description': '',
  'Version': '1.0.0.0'
}")))).
Proof.
  cbv zeta. split.
  - refine (proj2 (proj1 (@derived_metadata_documents "ws/item_001" "ws/item_001/pqtzip"
             (dq "{'queriesMetadata': {'Sales Query': {'isHidden': true}}}")
             (world0 (fs_item ++ [("ws/item_001/pqtzip", Dir)])%list) eq_refl)
             [("queriesMetadata", VDict [("Sales Query", VDict [("isHidden", VBool true)])])]
             [("Sales Query", VDict [("isHidden", VBool true)])] _ _ _ _ _));
      try reflexivity.
    repeat constructor. eexists; reflexivity.
  - refine (proj2 (proj2 (@derived_metadata_documents "ws/item_001" "ws/item_001/pqtzip"
             (dq "{'config': {'displayName': 'Sales'}}")
             (world0 (fs_item ++ [("ws/item_001/pqtzip", Dir)])%list) eq_refl)
             [("config", VDict [("displayName", VStr "Sales")])] _ _ _ _));
      try reflexivity.
    right. eexists; reflexivity.
Defined.

(** ** Facts on paths *)

Lemma append_assoc (a b c : string) : (a ++ b) ++ c = a ++ b ++ c.
Proof. induction a; simpl; congruence. Qed.

Lemma append_nil_r (a : string) : a ++ "" = a.
Proof. induction a; simpl; congruence. Qed.

Lemma append_inv_head (a x y : string) : a ++ x = a ++ y -> x = y.
Proof. induction a; simpl; intros H; [exact H | inversion H; auto]. Qed.

Lemma length_append (a b : string) :
  String.length (a ++ b) = String.length a + String.length b.
Proof. induction a; simpl; congruence. Qed.

Lemma startswith_iff p s : Str.startswith p s = true <-> exists r, s = p ++ r.
Proof.
  revert s. induction p as [| a p IH]; intros s; simpl.
  - split; eauto.
  - destruct s as [| b s].
    + split; [discriminate | intros [r H]; discriminate].
    + rewrite andb_true_iff, Ascii.eqb_eq, IH. split.
      * intros [-> [r ->]]. now exists r.
      * intros [r H]. inversion H. eauto.
Qed.

(** Two ways to cut one string: one cut point lies before the other. *)
Lemma append_eq_append (a b x y : string) :
  a ++ x = b ++ y ->
  exists z, (a = b ++ z /\ y = z ++ x) \/ (b = a ++ z /\ x = z ++ y).
Proof.
  revert b. induction a as [| c a IH]; intros b H; simpl in H.
  - exists b. right. split; [reflexivity | exact H].
  - destruct b as [| d b]; simpl in H.
    + exists (String c a). left. split; [reflexivity | now rewrite <- H].
    + inversion H as [[E H']]. destruct (IH b H') as [z [[-> ->] | [-> ->]]];
        exists z; [left | right]; split; reflexivity.
Qed.

Lemma under_iff d p : Fs.under d p = true <-> exists r, p = d ++ r /\ is_rest r.
Proof.
  unfold Fs.under. rewrite orb_true_iff, String.eqb_eq, startswith_iff. split.
  - intros [-> | [r ->]].
    + exists "". rewrite append_nil_r. split; [reflexivity | now left].
    + exists ("/" ++ r). rewrite append_assoc. split; [reflexivity | right; eauto].
  - intros [r [-> [-> | [r' ->]]]].
    + left. apply append_nil_r.
    + right. exists r'. now rewrite append_assoc.
Qed.

Lemma under_refl d : Fs.under d d = true.
Proof. unfold Fs.under. now rewrite String.eqb_refl. Qed.

Lemma under_drop d p :
  Fs.under d p = true ->
  p = d ++ Str.drop (String.length d) p /\ is_rest (Str.drop (String.length d) p).
Proof.
  intros H. apply under_iff in H. destruct H as [r [-> R]].
  now rewrite drop_length_append.
Qed.

Lemma under_length d p : Fs.under d p = true -> String.length d <= String.length p.
Proof.
  intros H. apply under_iff in H. destruct H as [r [-> _]].
  rewrite length_append. lia.
Qed.

(** Two directories neither of which lies in the other share no path. *)
Lemma under_disjoint a b p :
  Fs.under a b = false -> Fs.under b a = false ->
  Fs.under a p = true -> Fs.under b p = false.
Proof.
  intros Hab Hba Hp. destruct (Fs.under b p) eqn:Hq; [exfalso | reflexivity].
  apply under_iff in Hp, Hq. destruct Hp as [x [-> Rx]], Hq as [y [E Ry]].
  destruct (append_eq_append _ _ _ _ E) as [z [[-> ->] | [-> ->]]].
  - assert (Fs.under b (b ++ z) = true); [| congruence].
    apply under_iff. exists z. split; [reflexivity |].
    destruct z as [| c z]; [now left | right].
    destruct Ry as [Ry | [r Ry]]; [discriminate |].
    simpl in Ry. inversion Ry; subst. now exists z.
  - assert (Fs.under a (a ++ z) = true); [| congruence].
    apply under_iff. exists z. split; [reflexivity |].
    destruct z as [| c z]; [now left | right].
    destruct Rx as [Rx | [r Rx]]; [discriminate |].
    simpl in Rx. inversion Rx; subst. now exists z.
Qed.

Lemma rsplit_length p d b :
  Fs.rsplit p = Some (d, b) -> String.length d < String.length p.
Proof.
  revert d b. induction p as [| c p IH]; intros d b H; simpl in H.
  - discriminate.
  - destruct (Fs.rsplit p) as [[d' b'] |].
    + inversion H; subst. simpl. specialize (IH _ _ eq_refl). lia.
    + destruct (Ascii.eqb c "/"); inversion H; subst. simpl. lia.
Qed.

Lemma dirname_outside p : p <> "" -> Fs.under p (Fs.dirname p) = false.
Proof.
  intros N. destruct (Fs.under p (Fs.dirname p)) eqn:E; [exfalso | reflexivity].
  apply under_length in E. unfold Fs.dirname in E.
  destruct (Fs.rsplit p) as [[d b] |] eqn:R.
  - apply rsplit_length in R. lia.
  - destruct p; [congruence | simpl in E; lia].
Qed.

Lemma find_remove_tree_out d p l :
  Fs.under d p = false -> Fs.find p (Fs.remove_tree d l) = Fs.find p l.
Proof.
  intros H. induction l as [| [k n] l IH]; simpl; [reflexivity |].
  destruct (String.eqb k p) eqn:E.
  - apply String.eqb_eq in E. subst k. rewrite H. simpl. now rewrite String.eqb_refl.
  - destruct (Fs.under d k); simpl; [| rewrite E]; exact IH.
Qed.

Lemma find_remove_tree_in d p l :
  Fs.under d p = true -> Fs.find p (Fs.remove_tree d l) = None.
Proof.
  intros H. induction l as [| [k n] l IH]; simpl; [reflexivity |].
  destruct (Fs.under d k) eqn:E; simpl; [exact IH |].
  destruct (String.eqb k p) eqn:Q; [| exact IH].
  apply String.eqb_eq in Q. congruence.
Qed.

Lemma remove_tree_keys d l :
  Forall (fun kn => Fs.under d (fst kn) = false) (Fs.remove_tree d l).
Proof.
  unfold Fs.remove_tree. apply Forall_forall. intros kn H.
  apply filter_In in H. destruct H as [_ H]. now apply negb_true_iff in H.
Qed.

(** After a rename onto a free destination, the destination holds what
    the source held. *)
Lemma find_rename src dst rest l :
  Forall (fun kn => Fs.under dst (fst kn) = false) l ->
  is_rest rest ->
  Fs.find (dst ++ rest) (Fs.rename src dst l) = Fs.find (src ++ rest) l.
Proof.
  intros H R. induction H as [| [k n] l Hk _ IH]; [reflexivity |].
  simpl in Hk. unfold Fs.rename in *. simpl.
  assert (Kd : String.eqb k dst = false).
  { apply String.eqb_neq. intros ->. now rewrite under_refl in Hk. }
  rewrite Kd. simpl. rewrite orb_true_r. simpl. unfold Fs.rekey at 1.
  assert (Ud : Fs.under dst (dst ++ rest) = true)
    by (apply under_iff; eauto).
  assert (Us : Fs.under src (src ++ rest) = true)
    by (apply under_iff; eauto).
  destruct (Fs.under src k) eqn:Uk.
  - destruct (under_drop _ _ Uk) as [Ek _].
    destruct (String.eqb k (src ++ rest)) eqn:Q.
    + apply String.eqb_eq in Q. subst k. rewrite drop_length_append.
      now rewrite String.eqb_refl.
    + destruct (String.eqb (dst ++ Str.drop (String.length src) k) (dst ++ rest)) eqn:Q';
        [| exact IH].
      apply String.eqb_eq, append_inv_head in Q'.
      apply String.eqb_neq in Q. rewrite Q' in Ek. contradiction.
  - destruct (String.eqb k (dst ++ rest)) eqn:Q.
    { apply String.eqb_eq in Q. congruence. }
    destruct (String.eqb k (src ++ rest)) eqn:Q'.
    { apply String.eqb_eq in Q'. congruence. }
    exact IH.
Qed.

(** ** C10: the move onto an existing destination *)

Lemma rsplit_basename p : Fs.rsplit (Fs.basename p) = None.
Proof.
  unfold Fs.basename. destruct (Fs.rsplit p) as [[d b] |] eqn:E; [| exact E].
  revert d b E. induction p as [| c p IH]; intros d b E; simpl in E.
  - discriminate.
  - destruct (Fs.rsplit p) as [[d' b'] |] eqn:R.
    + inversion E; subst. eapply IH; eauto.
    + destruct (Ascii.eqb c "/"); inversion E; subst. exact R.
Qed.

Lemma rsplit_join d n : Fs.rsplit n = None -> Fs.rsplit (Fs.join d n) = Some (d, n).
Proof.
  intros H. unfold Fs.join. induction d as [| c d IH]; simpl.
  - now rewrite H.
  - simpl in IH. now rewrite IH.
Qed.

Lemma dirname_join_basename d p : Fs.dirname (Fs.join d (Fs.basename p)) = d.
Proof. unfold Fs.dirname. now rewrite (@rsplit_join d _ (rsplit_basename p)). Qed.

Lemma join_not_empty d n : Fs.join d n <> "".
Proof. unfold Fs.join. destruct d; discriminate. Qed.

(** C10. In the loop of the partition step, an item that has its archive
    and whose destination under [with_dataflows] is an existing
    directory is moved at the first attempt: the destination is removed
    with everything below it, then the item directory is renamed onto
    it.  Afterwards every path below the destination holds what the
    same path below the item held, so nothing of the old destination
    is left.  The copy of step 3, in contrast, leaves an existing
    destination as it is. *)
Theorem move_replaces_existing_destination :
  forall (with_dataflows_path item_dir : string) (rest moved_items failed_moves : list string)
         (w : world),
    let dest_dir := Fs.join with_dataflows_path (Fs.basename item_dir) in
    Fs.exists_ (fs w) (Fs.join item_dir (Fs.basename item_dir ++ ".pqt")) = true ->
    Fs.is_dir (fs w) dest_dir = true ->
    Fs.is_dir (fs w) with_dataflows_path = true ->
    Fs.is_dir (fs w) item_dir = true ->
    Fs.under item_dir dest_dir = false ->
    Fs.under dest_dir item_dir = false ->
    Fs.is_locked (locked w) dest_dir = false ->
    Fs.is_locked (locked w) item_dir = false ->
    let w' := printed
                (with_fs w (Fs.rename item_dir dest_dir
                              (Fs.remove_tree dest_dir (fs w))))
                [Moved (Fs.basename item_dir)] in
    move_items with_dataflows_path (item_dir :: rest) moved_items failed_moves w
    = move_items with_dataflows_path rest (moved_items ++ [dest_dir])%list failed_moves w'
    /\ (forall r, is_rest r ->
          Fs.find (dest_dir ++ r) (fs w') = Fs.find (item_dir ++ r) (fs w))
    /\ (forall output_path copied_items w0,
          Fs.exists_ (fs w0) (Fs.join output_path (Fs.basename item_dir)) = true ->
          copy_items [item_dir] output_path copied_items w0
          = (Ok (copied_items ++ [Fs.join output_path (Fs.basename item_dir)])%list, w0)).
Proof.
  intros wdp item_dir rest moved failed w dest_dir A B P C D1 D2 L1 L2 w'.
  assert (ND : Fs.under dest_dir wdp = false).
  { rewrite <- (dirname_join_basename wdp item_dir). apply dirname_outside.
    apply join_not_empty. }
  split; [| split].
  - simpl move_items. unfold bind at 1. unfold exists_ at 1. rewrite A.
    cbv beta iota. unfold bind at 1. simpl move_item. unfold try_except.
    unfold bind at 1. unfold exists_ at 1.
    assert (X : Fs.exists_ (fs w) dest_dir = true).
    { unfold Fs.is_dir in B. unfold Fs.exists_.
      destruct (Fs.find dest_dir (fs w)) as [[? |] |]; congruence. }
    fold dest_dir. rewrite X. cbv beta iota.
    unfold bind at 1. unfold bind at 1. unfold rmtree.
    unfold Fs.is_dir in B.
    destruct (Fs.find dest_dir (fs w)) as [[? |] |] eqn:FD; try discriminate.
    rewrite L1. cbv beta iota.
    unfold bind at 1. unfold move. simpl fs.
    unfold Fs.is_dir at 1. rewrite (@find_remove_tree_in _ _ _ (under_refl dest_dir)).
    unfold os_rename. simpl fs. simpl locked.
    rewrite (@find_remove_tree_out _ _ _ D2).
    unfold Fs.is_dir in C.
    destruct (Fs.find item_dir (fs w)) as [[? |] |] eqn:FI; try discriminate.
    pose proof (dirname_join_basename wdp item_dir) as DJ. fold dest_dir in DJ.
    unfold Fs.dir_ok. rewrite DJ.
    unfold Fs.is_dir at 1. rewrite (@find_remove_tree_out _ _ _ ND).
    unfold Fs.is_dir in P.
    destruct (Fs.find wdp (fs w)) as [[? |] |] eqn:FP; try discriminate.
    rewrite orb_true_r. simpl negb. cbv iota.
    rewrite (@find_remove_tree_in _ _ _ (under_refl dest_dir)). rewrite L2.
    reflexivity.
  - intros r R. unfold w'. simpl fs.
    rewrite (@find_rename item_dir dest_dir r _ (remove_tree_keys dest_dir (fs w)) R).
    apply find_remove_tree_out.
    eapply under_disjoint; eauto. apply under_iff. eauto.
  - intros output_path copied_items w0 H. simpl. unfold bind, exists_.
    rewrite H. reflexivity.
Qed.

Lemma move_replaces_existing_destination_witness :
  let run := move_items "out/with_dataflows" ["out/item_001"] [] [] (world0 fs_rerun) in
  fst run = Ok (["out/with_dataflows/item_001"], [])
  /\ Fs.find "out/with_dataflows/item_001/mashup.pq" (fs (snd run))
     = Some (File (Bytes "let x = 2 in x"))
  /\ Fs.find "out/with_dataflows/item_001/notes.txt" (fs (snd run)) = None
  /\ Fs.find "out/item_001" (fs (snd run)) = None.
Proof.
  cbv zeta.
  destruct (@move_replaces_existing_destination "out/with_dataflows" "out/item_001"
              [] [] [] (world0 fs_rerun)
              eq_refl eq_refl eq_refl eq_refl eq_refl eq_refl eq_refl eq_refl)
    as [E _].
  rewrite E. repeat split; reflexivity.
Defined.

(** ** C9: running the decode stage twice *)

Lemma find_remove_ne p q l : p <> q -> Fs.find q (Fs.remove p l) = Fs.find q l.
Proof.
  intros H. induction l as [| [k n] l IH]; simpl; [reflexivity |].
  destruct (String.eqb k p) eqn:E; simpl.
  - apply String.eqb_eq in E. subst k.
    destruct (String.eqb p q) eqn:Q; [apply String.eqb_eq in Q; contradiction | exact IH].
  - destruct (String.eqb k q); [reflexivity | exact IH].
Qed.

Lemma find_remove_eq p l : Fs.find p (Fs.remove p l) = None.
Proof.
  induction l as [| [k n] l IH]; simpl; [reflexivity |].
  destruct (String.eqb k p) eqn:E; simpl; [exact IH | now rewrite E].
Qed.

(** C9, as the code has it. The mapping file is opened in append mode:
    when a source file is decoded, its line goes after whatever
    [item_mapping.txt] holds at that moment; nothing is replaced and
    no line is looked up first, so a file decoded again gets its line
    again.  An iteration that succeeds has deleted its source file, and
    a run that finds no source file leaves every file as it was: a
    second run over the directory as the first one left it appends
    nothing. *)
Theorem mapping_line_appended :
  forall (source_path json_file : string) (total idx : nat)
         (decoded : value) (w w1 : world),
    let mapping_file := Fs.join source_path "item_mapping.txt" in
    (decode_dataflow_definition json_file (Fs.join source_path (item_name idx))
       (printed w [Processing idx total (Fs.basename json_file)])
     = (Ok decoded, w1) ->
     Fs.open_error (fs w1) mapping_file = None ->
     json_file <> mapping_file ->
     exists b w',
       decode_file source_path total idx json_file w = (Ok b, w')
       /\ Fs.find mapping_file (fs w')
          = Some (File (Bytes (Fs.text_at (fs w1) mapping_file
                               ++ mapping_line idx (Fs.basename json_file))))
       /\ (b = true -> Fs.exists_ (fs w') json_file = false))
    /\ (Fs.exists_ (fs w) source_path = true ->
        json_files_in (fs w) source_path = [] ->
        exists w', batch_decode_directory source_path w = (Ok false, w')
                   /\ fs w' = fs w).
Proof.
  intros source_path json_file total idx decoded w w1 mapping_file. split.
  - intros D O N.
    unfold decode_file, bind. rewrite print_run. unfold try_except. rewrite D.
    unfold append_text. fold mapping_file. rewrite O.
    set (w2 := with_fs w1 _).
    assert (F : Fs.find mapping_file (fs w2)
                = Some (File (Bytes (Fs.text_at (fs w1) mapping_file
                                     ++ mapping_line idx (Fs.basename json_file))))).
    { unfold w2. simpl. apply find_put_eq. }
    unfold unlink.
    destruct (Fs.find json_file (fs w2)) as [[d |] |];
      try (eexists _, _; split; [reflexivity | split; [exact F | discriminate]]).
    destruct (Fs.is_locked (locked w2) json_file);
      eexists _, _; (split; [reflexivity |]); (split; [| try discriminate]).
    + exact F.
    + simpl. rewrite find_remove_ne by exact N. exact F.
    + intros _. simpl. unfold Fs.exists_. now rewrite find_remove_eq.
  - intros X G. rewrite (@batch_no_json_files _ _ X G). eexists. split; reflexivity.
Qed.

Lemma mapping_line_appended_witness :
  (exists b w',
      decode_file "ws" 1 1 "ws/WS__abc__123__MyFlow__Dataflow.json" source_restored
      = (Ok b, w')
      /\ Fs.find "ws/item_mapping.txt" (fs w')
         = Some (File (Bytes (mapping_one ++ mapping_one)))
      /\ (b = true ->
          Fs.exists_ (fs w') "ws/WS__abc__123__MyFlow__Dataflow.json" = false))
  /\ (exists w', batch_decode_directory "ws" after_first_run = (Ok false, w')
                 /\ fs w' = fs after_first_run).
Proof.
  assert (D : second_decode
              = (Ok (match fst second_decode with Ok v => v | Raise _ => VNone end),
                 snd second_decode)) by (vm_compute; reflexivity).
  assert (O : Fs.open_error (fs (snd second_decode)) "ws/item_mapping.txt" = None)
    by (vm_compute; reflexivity).
  assert (N : "ws/WS__abc__123__MyFlow__Dataflow.json" <> "ws/item_mapping.txt")
    by discriminate.
  split.
  - destruct (proj1 (@mapping_line_appended "ws"
                       "ws/WS__abc__123__MyFlow__Dataflow.json" 1 1
                       _ source_restored _) D O N) as (b & w' & E & F & G).
    exists b, w'. split; [exact E |]. split; [| exact G].
    refine (eq_trans F _). vm_compute. reflexivity.
  - refine (proj2 (@mapping_line_appended "ws" "" 1 1 VNone after_first_run
                     after_first_run) _ _); vm_compute; reflexivity.
Defined.

(** The claim: a second run over the directory, untouched since the
    first, duplicates the mapping lines.  The first run deleted the
    source file it decoded, so the second run finds nothing to decode:
    it returns [False] and the mapping file keeps its single line. *)
Lemma second_run_appends_nothing :
  fst (batch_decode_directory "ws" (world0 fs_one)) = Ok true
  /\ Fs.text_at (fs after_first_run) "ws/item_mapping.txt" = mapping_one
  /\ fst (batch_decode_directory "ws" after_first_run) = Ok false
  /\ fs (snd (batch_decode_directory "ws" after_first_run)) = fs after_first_run
  /\ Fs.text_at (fs (snd (batch_decode_directory "ws" after_first_run)))
       "ws/item_mapping.txt" = mapping_one.
Proof. repeat split; vm_compute; reflexivity. Qed.

(** When the source file is put back before the second run, its line is
    written a second time. *)
Example rerun_on_restored_source_duplicates :
  fst (batch_decode_directory "ws" source_restored) = Ok true
  /\ Fs.text_at (fs (snd (batch_decode_directory "ws" source_restored)))
       "ws/item_mapping.txt" = mapping_one ++ mapping_one.
Proof. split; vm_compute; reflexivity. Qed.

(** The one way a second run over an untouched directory does repeat a
    line: the source file could not be deleted, so the first run counted
    it as failed after its line was written, and the second run decodes
    it again. *)
Example rerun_on_locked_source_duplicates :
  let first := batch_decode_directory "ws" world_locked in
  let second := batch_decode_directory "ws" (snd first) in
  fst first = Ok false
  /\ In (ItemError PermissionError) (console (snd first))
  /\ Fs.text_at (fs (snd first)) "ws/item_mapping.txt" = mapping_one
  /\ fst second = Ok false
  /\ Fs.text_at (fs (snd second)) "ws/item_mapping.txt" = mapping_one ++ mapping_one.
Proof. cbv zeta. repeat split; vm_compute; auto. Qed.

(** ** Runs of the two stages *)

(** The decode stage over two source files. *)
Example decode_two_files :
  fst (batch_decode_directory "ws" (world0 fs_two)) = Ok true
  /\ Fs.children (fs after_decode_two) "ws"
     = ["ws/item_001"; "ws/item_mapping.txt"; "ws/item_002"]
  /\ Fs.children (fs after_decode_two) "ws/item_001"
     = ["ws/item_001/queryMetadata.json"; "ws/item_001/definition_decoded.json";
        "ws/item_001/WS__w1__i1__Orders__Dataflow.json"]
  /\ Fs.children (fs after_decode_two) "ws/item_002"
     = ["ws/item_002/mashup.pq"; "ws/item_002/definition_decoded.json";
        "ws/item_002/plain.json"]
  /\ Fs.text_at (fs after_decode_two) "ws/item_mapping.txt"
     = "item_001 | WorkspaceID: w1 | ItemID: i1 | Name: Orders | Type: Dataflow | File: WS__w1__i1__Orders__Dataflow.json"
       ++ newline ++ "item_002 -> plain.json" ++ newline.
Proof. repeat split; vm_compute; reflexivity. Qed.

(** The packaging stage over the item of the end-to-end example: the
    archive has four members and the item ends under [with_dataflows]. *)
Example assemble_one_item :
  fst (assemble_and_partition "ws" ["ws/item_001"] (world0 fs_item))
  = Ok (1, 1, (["ws/with_dataflows/item_001"], []))
  /\ (exists members,
        Fs.find "ws/with_dataflows/item_001/item_001.pqt" (fs after_assembly)
        = Some (File (Zip members))
        /\ map fst members
           = ["MashupDocument.pq"; "MashupMetadata.json"; "Metadata.json";
              "[Content_Types].xml"]
        /\ lookup_member "Metadata.json" members
           = Some (Bytes (json.dumps true 2
                     (VDict [("Name", VStr "Sales"); ("Description", VStr "");
                             ("Version", VStr "1.0.0.0")]))))
  /\ Fs.exists_ (fs after_assembly) "ws/item_001" = false.
Proof.
  split; [vm_compute; reflexivity |]. split; [| vm_compute; reflexivity].
  eexists. split; [vm_compute; reflexivity |]. split; vm_compute; reflexivity.
Qed.

(** * Further properties of the two stages

    What the code shows beyond the statements above: how the loops
    count, what the steps write and what they leave alone. *)

(** ** The decode stage *)

Lemma decode_file_returns source_path total idx json_file w :
  exists b w', decode_file source_path total idx json_file w = (Ok b, w').
Proof.
  unfold decode_file, bind at 1. rewrite print_run.
  apply try_except_returns. intros e w0. eexists _, _. reflexivity.
Qed.

Lemma decode_files_counts source_path total json_files :
  forall idx success_count error_count w,
    exists s e w',
      decode_files source_path total idx json_files success_count error_count w
      = (Ok (s, e), w')
      /\ success_count <= s
      /\ s + e = success_count + error_count + List.length json_files.
Proof.
  induction json_files as [| json_file rest IH]; intros idx sc ec w.
  - exists sc, ec, w. simpl. repeat split; lia.
  - simpl. unfold bind at 1.
    destruct (decode_file_returns source_path total idx json_file w) as (b & w1 & E).
    rewrite E. destruct b.
    + destruct (IH (S idx) (S sc) ec w1) as (s & e & w' & R & L & T).
      exists s, e, w'. repeat split; [exact R | lia | lia].
    + destruct (IH (S idx) sc (S ec) w1) as (s & e & w' & R & L & T).
      exists s, e, w'. repeat split; [exact R | lia | lia].
Qed.

(** X1. [batch_decode_directory] never raises, whatever the source
    directory holds.  When it returns [True] the summary it printed
    last counts at least one decoded file, and the decoded and the
    failed files together are the [*.json] entries found at the start:
    every file is counted once, as a success or as a failure. *)
Theorem batch_decode_counts_every_file :
  forall (source_dir : string) (w : world),
    exists (b : bool) (w' : world),
      batch_decode_directory source_dir w = (Ok b, w')
      /\ (b = true ->
          exists success_count error_count w1,
            w' = printed w1 [Summary success_count error_count]
            /\ 0 < success_count
            /\ success_count + error_count
               = List.length (json_files_in (fs w) source_dir)).
Proof.
  intros source_dir w. unfold batch_decode_directory, bind at 1, exists_.
  destruct (Fs.exists_ (fs w) source_dir); cbn [negb]; cbv beta iota.
  - unfold bind at 1, glob_json. unfold bind at 1. rewrite print_run.
    destruct (json_files_in (fs w) source_dir) as [| f fs'] eqn:J.
    + eexists _, _. split; [reflexivity | discriminate].
    + unfold bind at 1.
      destruct (decode_files_counts source_dir (List.length (f :: fs')) (f :: fs') 1 0 0
                  (printed w [Header source_dir (List.length (f :: fs'))]))
        as (s & e & w1 & R & L & T).
      rewrite R. unfold bind, ret. rewrite print_run. cbn [fst snd].
      eexists _, _. split; [reflexivity |]. intros B.
      exists s, e, w1. split; [reflexivity |]. split; [| exact T].
      apply Nat.ltb_lt. exact B.
  - eexists _, _. split; [reflexivity | discriminate].
Qed.

Lemma split_token a :
  no_separator a = true ->
  forall cur rest,
    Str.split_from "__" 0 cur (a ++ "__" ++ rest)
    = (cur ++ a) :: Str.split_from "__" 0 "" rest.
Proof.
  induction a as [| c a IH]; intros H cur rest.
  - simpl. now rewrite append_nil_r.
  - change (String c a ++ "__" ++ rest) with (String c (a ++ "__" ++ rest)).
    assert (S : Str.startswith "__" (String c (a ++ "__" ++ rest)) = false
                /\ no_separator a = true).
    { simpl in H. destruct (Ascii.eqb c "_") eqn:C.
      - destruct a as [| d a']; [discriminate |].
        apply andb_true_iff in H. destruct H as [D N].
        apply negb_true_iff in D. split; [| exact N].
        cbn [Str.startswith append]. rewrite (Ascii.eqb_sym "_" d), D.
        now rewrite andb_false_r.
      - split; [| exact H]. cbn [Str.startswith append].
        now rewrite (Ascii.eqb_sym "_" c), C. }
    destruct S as [S N]. cbn [Str.split_from]. rewrite S.
    rewrite (IH N). now rewrite append_assoc.
Qed.

Lemma split_last a :
  no_separator a = true ->
  forall cur, Str.split_from "__" 0 cur a = [cur ++ a].
Proof.
  induction a as [| c a IH]; intros H cur.
  - simpl. now rewrite append_nil_r.
  - assert (S : Str.startswith "__" (String c a) = false /\ no_separator a = true).
    { simpl in H. destruct (Ascii.eqb c "_") eqn:C.
      - destruct a as [| d a']; [discriminate |].
        apply andb_true_iff in H. destruct H as [D N].
        apply negb_true_iff in D. split; [| exact N].
        cbn [Str.startswith append]. rewrite (Ascii.eqb_sym "_" d), D.
        now rewrite andb_false_r.
      - split; [| exact H]. cbn [Str.startswith append].
        now rewrite (Ascii.eqb_sym "_" c), C. }
    destruct S as [S N]. cbn [Str.split_from]. rewrite S.
    rewrite (IH N). now rewrite append_assoc.
Qed.

Lemma dot_free_append a b : dot_free (a ++ b) = dot_free a && dot_free b.
Proof.
  induction a as [| c a IH]; simpl; [reflexivity |].
  now rewrite IH, andb_assoc.
Qed.

(** X2. A file named as the export names it, from components without
    separator and without full stop, is read back: the parser returns
    the four components, and the line the decode stage writes for the
    file names them with the item and the file. *)
Theorem export_name_read_back :
  forall (ws it nm ty : string) (idx : nat),
    component ws = true -> component it = true ->
    component nm = true -> component ty = true ->
    extract_metadata_from_filename (export_name ws it nm ty)
    = Some {| workspace_id := ws; item_id := it; name := nm; type := ty |}
    /\ mapping_line idx (export_name ws it nm ty)
       = item_name idx ++ " | WorkspaceID: " ++ ws ++ " | ItemID: " ++ it
         ++ " | Name: " ++ nm ++ " | Type: " ++ ty
         ++ " | File: " ++ export_name ws it nm ty ++ newline.
Proof.
  intros ws it nm ty idx Hws Hit Hnm Hty.
  apply andb_true_iff in Hws, Hit, Hnm, Hty.
  destruct Hws as [Sws Dws], Hit as [Sit Dit], Hnm as [Snm Dnm], Hty as [Sty Dty].
  assert (E : extract_metadata_from_filename (export_name ws it nm ty)
              = Some {| workspace_id := ws; item_id := it; name := nm; type := ty |}).
  { unfold extract_metadata_from_filename, export_name.
    replace ("WS__" ++ ws ++ "__" ++ it ++ "__" ++ nm ++ "__" ++ ty ++ ".json")
      with (("WS__" ++ ws ++ "__" ++ it ++ "__" ++ nm ++ "__" ++ ty) ++ ".json")
      by (rewrite !append_assoc; reflexivity).
    rewrite replace_extension.
    - unfold Str.split.
      change ("WS__" ++ ws ++ "__" ++ it ++ "__" ++ nm ++ "__" ++ ty)
        with ("WS" ++ "__" ++ ws ++ "__" ++ it ++ "__" ++ nm ++ "__" ++ ty).
      rewrite (@split_token "WS" eq_refl "" _).
      rewrite (@split_token ws Sws "" _), (@split_token it Sit "" _).
      rewrite (@split_token nm Snm "" _), (@split_last ty Sty "").
      reflexivity.
    - rewrite !dot_free_append, Dws, Dit, Dnm, Dty. reflexivity. }
  split; [exact E |]. unfold mapping_line. rewrite E. reflexivity.
Qed.

Lemma export_name_read_back_witness :
  extract_metadata_from_filename (export_name "abc-1" "42" "Sales_2024 EU" "Dataflow")
  = Some {| workspace_id := "abc-1"; item_id := "42"; name := "Sales_2024 EU";
            type := "Dataflow" |}
  /\ mapping_line 1 (export_name "abc-1" "42" "Sales_2024 EU" "Dataflow")
     = item_name 1 ++ " | WorkspaceID: " ++ "abc-1" ++ " | ItemID: " ++ "42"
       ++ " | Name: " ++ "Sales_2024 EU" ++ " | Type: " ++ "Dataflow"
       ++ " | File: " ++ export_name "abc-1" "42" "Sales_2024 EU" "Dataflow"
       ++ newline.
Proof.
  apply (@export_name_read_back "abc-1" "42" "Sales_2024 EU" "Dataflow" 1);
    reflexivity.
Defined.

Lemma same_outside_refl ps w : same_outside ps w w.
Proof. repeat split. Qed.

Lemma same_outside_printed ps w ls : same_outside ps w (printed w ls).
Proof. repeat split. Qed.

Lemma same_outside_trans ps w1 w2 w3 :
  same_outside ps w1 w2 -> same_outside ps w2 w3 -> same_outside ps w1 w3.
Proof.
  intros (F1 & L1 & S1) (F2 & L2 & S2). split; [| split; congruence].
  intros q Q. now rewrite (F2 q Q), (F1 q Q).
Qed.

Lemma same_outside_incl ps qs w w' :
  incl ps qs -> same_outside ps w w' -> same_outside qs w w'.
Proof.
  intros I (F & L & S). split; [| split; assumption].
  intros q Q. apply F. intros P. apply Q, I, P.
Qed.

Lemma same_outside_write p d w r w' :
  write_data p d w = (r, w') -> same_outside [p] w w'.
Proof.
  unfold write_data. destruct (Fs.open_error (fs w) p); intros H; inversion H; subst.
  - apply same_outside_refl.
  - split; [| split; reflexivity]. intros q Q. simpl.
    apply find_put_ne. intros E. apply Q. now left.
Qed.

Lemma decode_part_frame output_dir part w r w' :
  decode_part output_dir part w = (r, w') ->
  same_outside (part_target output_dir part) w w'.
Proof.
  destruct part as [| b | z | f | s | l | items];
    try (intros H; inversion H; apply same_outside_refl).
  unfold decode_part, bind, lift. rewrite !get_field.
  destruct (eq_str (field items "payloadType") "InlineBase64"
            && truthy (field items "payload"));
    [| intros H; inversion H; apply same_outside_refl].
  unfold try_except, json_dump, write_text, ret.
  destruct (base64.b64decode (field items "payload")) as [bytes | e];
    [| intros H; inversion H; apply same_outside_printed].
  destruct (utf8.decode bytes) as [text | e];
    [| intros H; inversion H; apply same_outside_printed].
  destruct (endswith (field items "path") ".json") as [[|] | e];
    [| | intros H; inversion H; apply same_outside_printed].
  - destruct (json.loads text) as [v | e];
      [| intros H; inversion H; apply same_outside_printed].
    unfold part_target.
    destruct (field items "path") as [| | | | s | |]; simpl;
      try (intros H; inversion H; apply same_outside_printed).
    destruct (write_data (os_path_join output_dir s)
                (Bytes (json.dumps false 2 v)) w) as [[[] | e] w1] eqn:W;
      intros H; inversion H; subst.
    + eapply same_outside_write; eauto.
    + eapply same_outside_trans; [eapply same_outside_write; eauto |].
      apply same_outside_printed.
  - unfold part_target.
    destruct (field items "path") as [| | | | s | |]; simpl;
      try (intros H; inversion H; apply same_outside_printed).
    destruct (write_data (os_path_join output_dir s) (Bytes text) w)
      as [[[] | e] w1] eqn:W; intros H; inversion H; subst.
    + eapply same_outside_write; eauto.
    + eapply same_outside_trans; [eapply same_outside_write; eauto |].
      apply same_outside_printed.
Qed.

(** X3. The loop over the parts writes nowhere but at the paths of the
    parts, joined to the output directory: whether it ends or stops on
    a part that is no object, every other file and directory is as
    before, no lock is touched and no time is spent sleeping. *)
Theorem decode_parts_writes_only_part_paths :
  forall (output_dir : string) (parts decoded_parts : list value)
         (w w' : world) (r : result (list value)),
    decode_parts output_dir parts decoded_parts w = (r, w') ->
    same_outside (part_targets output_dir parts) w w'.
Proof.
  intros output_dir parts. induction parts as [| part rest IH];
    intros acc w w' r H; simpl in H.
  - inversion H. apply same_outside_refl.
  - unfold bind in H.
    destruct (decode_part output_dir part w) as [[d | e] w1] eqn:E.
    + eapply same_outside_trans.
      * eapply same_outside_incl; [| eapply decode_part_frame; exact E].
        unfold part_targets. simpl. apply incl_appl, incl_refl.
      * eapply same_outside_incl; [| eapply IH; exact H].
        unfold part_targets. simpl. apply incl_appr, incl_refl.
    + inversion H; subst.
      eapply same_outside_incl; [| eapply decode_part_frame; exact E].
      unfold part_targets. simpl. apply incl_appl, incl_refl.
Qed.

Lemma decode_parts_writes_only_part_paths_witness :
  same_outside ["out/queryMetadata.json"; "out/mashup.pq"; "out/.platform"]
    (world0 [("out", Dir); ("notes.txt", File (Bytes "mine"))])
    (snd (decode_parts "out" sales_parts []
            (world0 [("out", Dir); ("notes.txt", File (Bytes "mine"))]))).
Proof.
  apply (@decode_parts_writes_only_part_paths "out" sales_parts []
           (world0 [("out", Dir); ("notes.txt", File (Bytes "mine"))]) _
           (fst (decode_parts "out" sales_parts []
              (world0 [("out", Dir); ("notes.txt", File (Bytes "mine"))])))).
  vm_compute. reflexivity.
Defined.

Lemma basename_not_absolute p : Str.startswith "/" (Fs.basename p) = false.
Proof.
  pose proof (rsplit_basename p) as H.
  destruct (Fs.basename p) as [| c r]; [reflexivity |].
  simpl in H. destruct (Fs.rsplit r) as [[d b] |]; [discriminate |].
  destruct (Ascii.eqb c "/") eqn:E; [discriminate |].
  cbn [Str.startswith]. now rewrite Ascii.eqb_sym, E.
Qed.

Lemma os_path_join_inj a b b' :
  Str.startswith "/" b = false -> Str.startswith "/" b' = false ->
  os_path_join a b = os_path_join a b' -> b = b'.
Proof.
  unfold os_path_join. intros -> ->.
  destruct (String.eqb a "" || Str.endswith a "/"); intros H.
  - eapply append_inv_head; eauto.
  - apply append_inv_head in H. now inversion H.
Qed.

Lemma forward_copy2 src dst : forward (copy2 src dst).
Proof.
  intros w r w' H. unfold copy2 in H. cbv zeta in H.
  destruct (String.eqb src _ && Fs.exists_ (fs w) src).
  - inversion H. apply world_le_refl.
  - revert H. generalize (if Fs.is_dir (fs w) dst
                          then os_path_join dst (Fs.basename src) else dst).
    intros p H.
    assert (F : forward (d <- read_data src ;; write_data p d)) by forward_steps.
    exact (F _ _ _ H).
Qed.

Lemma copy2_result src dst w w' :
  copy2 src dst w = (Ok tt, w') ->
  Fs.is_dir (fs w) dst = false ->
  exists d, Fs.find src (fs w) = Some (File d)
            /\ fs w' = Fs.put dst (File d) (fs w)
            /\ src <> dst.
Proof.
  unfold copy2. intros H D. rewrite D in H.
  unfold bind, read_data, write_data, Fs.exists_ in H.
  destruct (Fs.find src (fs w)) as [[d |] |];
    try (destruct (String.eqb src dst && _); discriminate).
  destruct (String.eqb src dst) eqn:E; [discriminate |]. simpl in H.
  destruct (Fs.open_error (fs w) dst); inversion H; subst.
  exists d. repeat split. now apply String.eqb_neq.
Qed.

(** X4. When [decode_dataflow_definition] returns, the source file is
    still in place (it is copied, not moved), the item directory holds
    a copy of it under its name, and, unless the source is itself named
    [definition_decoded.json], the file of that name holds the returned
    definition as [json.dump] writes it.  The copy target is taken not
    to be a directory. *)
Theorem decoded_item_holds_source_and_definition :
  forall (input_file output_dir : string) (w w' : world) (v : value),
    decode_dataflow_definition input_file output_dir w = (Ok v, w') ->
    Fs.is_dir (fs w') (os_path_join output_dir (Fs.basename input_file)) = false ->
    (exists d,
        Fs.find input_file (fs w') = Some (File d)
        /\ Fs.find (os_path_join output_dir (Fs.basename input_file)) (fs w')
           = Some (File d))
    /\ (Fs.basename input_file <> "definition_decoded.json" ->
        Fs.find (os_path_join output_dir "definition_decoded.json") (fs w')
        = Some (File (Bytes (json.dumps false 2 v)))).
Proof.
  intros input_file output_dir w w' v H D.
  unfold decode_dataflow_definition, bind, lift in H.
  destruct (json_load input_file w) as [[definition | e] w0]; [| discriminate].
  destruct (makedirs output_dir w0) as [[[] | e] w1]; [| discriminate].
  destruct (get definition "definition" (VDict [])) as [inner | e]; [| discriminate].
  destruct (get inner "parts" (VList [])) as [parts_value | e]; [| discriminate].
  destruct (iterate parts_value) as [parts | e]; [| discriminate].
  destruct (decode_parts output_dir parts [] w1) as [[ds | e] w2]; [| discriminate].
  unfold json_dump, write_text in H. unfold write_data at 1 in H.
  destruct (Fs.open_error (fs w2) _); [discriminate |].
  set (w3 := with_fs w2 _) in H.
  destruct (copy2 input_file _ w3) as [[[] | e] w4] eqn:C; [| discriminate].
  inversion H; subst w4 v. clear H.
  rewrite (le_dirs (@forward_copy2 _ _ _ _ _ C)) in D.
  destruct (@copy2_result _ _ _ _ C D) as (d & F & P & N). rewrite P. split.
  - exists d. rewrite find_put_eq, find_put_ne by congruence. auto.
  - intros B. rewrite find_put_ne.
    + unfold w3. simpl. apply find_put_eq.
    + intros E. apply os_path_join_inj in E; [congruence | | reflexivity].
      apply basename_not_absolute.
Qed.

Lemma decoded_item_holds_source_and_definition_witness :
  exists d,
    Fs.find "ws/WS__abc__123__MyFlow__Dataflow.json" (fs (snd second_decode))
    = Some (File d)
    /\ Fs.find "ws/item_001/WS__abc__123__MyFlow__Dataflow.json"
         (fs (snd second_decode)) = Some (File d).
Proof.
  refine (proj1 (@decoded_item_holds_source_and_definition
            "ws/WS__abc__123__MyFlow__Dataflow.json" "ws/item_001"
            (printed source_restored
               [Processing 1 1 "WS__abc__123__MyFlow__Dataflow.json"])
            (snd second_decode)
            match fst second_decode with Ok v => v | Raise _ => VNone end _ _)).
  - vm_compute. reflexivity.
  - vm_compute. reflexivity.
Defined.

Lemma index_of_zeros k s :
  index_of (string_of_list_ascii (repeat "0"%char k) ++ s) = index_of s.
Proof.
  induction k as [| k IH]; [reflexivity |].
  unfold index_of in *. cbn [repeat string_of_list_ascii append NilEmpty.uint_of_string].
  destruct (NilEmpty.uint_of_string (string_of_list_ascii (repeat "0"%char k) ++ s))
    as [d |]; destruct (NilEmpty.uint_of_string s) as [d' |];
    simpl in *; try congruence.
  change (Nat.of_uint (Decimal.D0 d)) with (Nat.of_uint d). exact IH.
Qed.

Lemma index_of_pad3 idx : index_of (pad3 idx) = Some idx.
Proof.
  unfold pad3. rewrite index_of_zeros. unfold index_of, NilZero.string_of_uint.
  pose proof (DecimalNat.Unsigned.of_to idx) as E.
  destruct (Nat.to_uint idx) eqn:U;
    try (rewrite <- U, NilEmpty.usu; simpl; now rewrite U, E).
  simpl in *. now rewrite <- E.
Qed.

(** X5. The directory names the decode stage numbers its items with
    are distinct for distinct indices, so no two files of a run share a
    directory; up to index 999 a name has exactly eight characters. *)
Theorem item_names_distinct :
  forall (i j : nat),
    (i <> j -> item_name i <> item_name j)
    /\ (i < 1000 -> String.length (item_name i) = 8).
Proof.
  intros i j. split.
  - intros N E. apply N. unfold item_name in E. apply append_inv_head in E.
    pose proof (index_of_pad3 i) as Pi. rewrite E, index_of_pad3 in Pi. congruence.
  - intros L.
    assert (A : forallb (fun k => (String.length (item_name k) =? 8)%nat) (seq 0 1000) = true)
      by (vm_compute; reflexivity).
    rewrite forallb_forall in A. apply Nat.eqb_eq, A, in_seq. lia.
Qed.

Lemma item_names_distinct_witness :
  item_name 9 <> item_name 10 /\ String.length (item_name 9) = 8.
Proof.
  split.
  - apply (proj1 (item_names_distinct 9 10)). lia.
  - apply (proj2 (item_names_distinct 9 10)). lia.
Defined.

(** ** The packaging stage *)












Lemma put_put p n m l : Fs.put p n (Fs.put p m l) = Fs.put p n l.
Proof.
  induction l as [| [k x] l IH]; simpl.
  - now rewrite String.eqb_refl.
  - destruct (String.eqb k p) eqn:E; simpl; rewrite E; [reflexivity | now rewrite IH].
Qed.

Lemma keys_put p n l :
  map fst (Fs.put p n l)
  = if Fs.exists_ l p then map fst l else (map fst l ++ [p])%list.
Proof.
  unfold Fs.exists_. induction l as [| [k x] l IH]; simpl; [reflexivity |].
  destruct (String.eqb k p); simpl; [reflexivity |].
  rewrite IH. now destruct (Fs.find p l).
Qed.

Lemma children_put p n l d :
  Fs.child_of d p = false -> Fs.children (Fs.put p n l) d = Fs.children l d.
Proof.
  intros H. unfold Fs.children. rewrite keys_put.
  destruct (Fs.exists_ l p); [reflexivity |].
  rewrite filter_app. simpl. rewrite H. apply app_nil_r.
Qed.

Lemma rsplit_append_none a b :
  Fs.rsplit a = None -> Fs.rsplit b = None -> Fs.rsplit (a ++ b) = None.
Proof.
  intros A B. induction a as [| c a IH]; [exact B |].
  simpl in *. destruct (Fs.rsplit a) as [[d x] |]; [discriminate |].
  rewrite (IH eq_refl). destruct (Ascii.eqb c "/"); [discriminate | reflexivity].
Qed.

Lemma archive_not_in_pqtzip item_dir :
  Fs.child_of (Fs.join item_dir "pqtzip")
    (Fs.join item_dir (Fs.basename item_dir ++ ".pqt")) = false.
Proof.
  unfold Fs.child_of. rewrite rsplit_join.
  - apply String.eqb_neq. intros E.
    assert (L : String.length item_dir = String.length (Fs.join item_dir "pqtzip"))
      by now rewrite <- E.
    unfold Fs.join in L. rewrite length_append in L. simpl in L. lia.
  - apply rsplit_append_none; [apply rsplit_basename | reflexivity].
Qed.

(** The loop of lines 163-165 once the archive is open. *)
Lemma archive_loop (w : world) (pqt_file : string) (l0 : Fs.t) files :
  ~ In pqt_file files ->
  forall acc,
    for_each files (fun file_path =>
      regular <- is_file file_path ;;
      if regular : bool
      then zip_write pqt_file file_path (Fs.basename file_path)
      else ret tt)
      (with_fs w (Fs.put pqt_file (File (Zip acc)) l0))
    = (Ok tt,
       with_fs w
         (Fs.put pqt_file
            (File (Zip (acc ++ map (fun p => (Fs.basename p, data_at l0 p))
                                 (filter (Fs.is_file l0) files))%list)) l0)).
Proof.
  induction files as [| p files IH]; intros N acc.
  - simpl. now rewrite app_nil_r.
  - assert (P : pqt_file <> p) by (intros E; apply N; now left).
    assert (N' : ~ In pqt_file files) by (intros I; apply N; now right).
    assert (R : Fs.is_file (Fs.put pqt_file (File (Zip acc)) l0) p = Fs.is_file l0 p)
      by (unfold Fs.is_file; now rewrite (find_put_ne _ _ P)).
    cbn [for_each filter]. unfold bind at 1. unfold bind at 1, is_file.
    cbn [fs with_fs]. rewrite R.
    destruct (Fs.is_file l0 p) eqn:I.
    + unfold Fs.is_file in I.
      destruct (Fs.find p l0) as [[d |] |] eqn:F; try discriminate.
      assert (A : data_at l0 p = d) by (unfold data_at; now rewrite F).
      unfold zip_write, bind, read_data. cbn [fs with_fs].
      rewrite (find_put_ne _ _ P), F. cbn [fs with_fs].
      rewrite find_put_eq, put_put.
      change (with_fs (with_fs w ?a) ?b) with (with_fs w b).
      rewrite (IH N'). cbn [map]. now rewrite A, <- app_assoc.
    + unfold ret. apply (IH N').
Qed.

(** X6. When the [pqtzip] directory exists and the archive can be
    opened for writing, [create_pqt_archive] returns [True] and the
    archive holds exactly the regular files directly inside [pqtzip]:
    in listing order, each stored under its bare name with its bytes;
    subdirectories are left out and nothing else changes. *)
Theorem archive_holds_the_files_of_pqtzip :
  forall (item_dir : string) (w : world),
    let pqtzip_dir := Fs.join item_dir "pqtzip" in
    let pqt_file := Fs.join item_dir (Fs.basename item_dir ++ ".pqt") in
    Fs.is_dir (fs w) pqtzip_dir = true ->
    Fs.open_error (fs w) pqt_file = None ->
    create_pqt_archive item_dir w
    = (Ok true,
       with_fs w
         (Fs.put pqt_file (File (Zip (members_of (fs w) pqtzip_dir))) (fs w))).
Proof.
  intros item_dir w pqtzip_dir pqt_file D O.
  assert (F : Fs.find pqtzip_dir (fs w) = Some Dir).
  { unfold Fs.is_dir in D. destruct (Fs.find pqtzip_dir (fs w)) as [[d |] |];
      congruence. }
  assert (P : pqt_file <> pqtzip_dir).
  { intros E. unfold Fs.open_error in O. rewrite E, F in O.
    destruct (Fs.has_nul pqtzip_dir); [discriminate |].
    destruct (Fs.names_directory pqtzip_dir); discriminate. }
  unfold create_pqt_archive, bind at 1, exists_.
  fold pqtzip_dir. fold pqt_file. unfold Fs.exists_. rewrite F.
  cbn [negb]. cbv beta iota. unfold try_except, fill_archive.
  unfold bind at 1. unfold write_data. rewrite O.
  unfold bind at 1, iterdir. cbn [fs with_fs].
  rewrite (find_put_ne _ _ P), F.
  rewrite (@children_put _ _ _ _ (archive_not_in_pqtzip item_dir)).
  fold pqtzip_dir. unfold bind at 1.
  rewrite (@archive_loop w pqt_file (fs w) (Fs.children (fs w) pqtzip_dir)).
  - reflexivity.
  - intros I. unfold Fs.children in I. apply filter_In in I. destruct I as [_ I].
    unfold pqt_file, pqtzip_dir in I. now rewrite archive_not_in_pqtzip in I.
Qed.

Lemma archive_holds_the_files_of_pqtzip_witness :
  exists w',
    create_pqt_archive "ws/item_001"
      (world0 [("ws", Dir); ("ws/item_001", Dir); ("ws/item_001/pqtzip", Dir);
               ("ws/item_001/pqtzip/MashupDocument.pq", File (Bytes "let x = 1 in x"));
               ("ws/item_001/pqtzip/extra", Dir);
               ("ws/item_001/pqtzip/extra/inner.txt", File (Bytes "hidden"));
               ("ws/item_001/pqtzip/[Content_Types].xml", File (Bytes "<Types/>"))])
    = (Ok true, w')
    /\ Fs.find "ws/item_001/item_001.pqt" (fs w')
       = Some (File (Zip [("MashupDocument.pq", Bytes "let x = 1 in x");
                          ("[Content_Types].xml", Bytes "<Types/>")])).
Proof.
  eexists. split.
  - apply (@archive_holds_the_files_of_pqtzip "ws/item_001"); reflexivity.
  - reflexivity.
Defined.





Lemma move_item_outcome item_dir dest_dir :
  forall attempts,
    attempts <> [] ->
    max_retries - 1 <= last attempts 0 ->
    forall retry_delay moved_items failed_moves w,
      exists m f w',
        move_item attempts retry_delay item_dir dest_dir moved_items failed_moves w
        = (Ok (m, f), w')
        /\ ((m = (moved_items ++ [dest_dir])%list /\ f = failed_moves)
            \/ (m = moved_items
                /\ f = (failed_moves ++ [Fs.basename item_dir])%list)).
Proof.
  induction attempts as [| attempt rest IH]; intros N B delay moved failed w;
    [congruence |].
  cbn [move_item]. unfold try_except.
  match goal with |- context [match ?body w with _ => _ end] =>
    destruct (body w) as [[[m f] | e] w1] eqn:T end.
  - exists m, f, w1. split; [reflexivity |]. left.
    unfold bind, exists_ in T.
    destruct (if Fs.exists_ (fs w) dest_dir then rmtree dest_dir else ret tt)
      as [[[] | e] w2]; [| discriminate].
    destruct (move item_dir dest_dir w2) as [[[] | e] w3]; [| discriminate].
    rewrite print_run in T. inversion T. auto.
  - destruct (is_PermissionError e).
    + destruct (attempt <? max_retries - 1)%nat eqn:A.
      * unfold bind at 1, sleep.
        destruct rest as [| next rest'].
        { apply Nat.ltb_lt in A. cbn [last] in B. lia. }
        apply IH; [discriminate | exact B].
      * unfold bind, ret. rewrite print_run. eexists _, _, _.
        split; [reflexivity | right; auto].
    + unfold bind, ret. rewrite print_run. eexists _, _, _.
      split; [reflexivity | right; auto].
Qed.

(** X9. The loop that moves the items never raises, and it accounts
    for what it does: it only adds to the two lists, every destination
    it records is the place of one of the items below [with_dataflows],
    every failure it records is the name of one of the items, and the
    records added are no more than the items. *)
Theorem move_items_records_every_outcome :
  forall (with_dataflows_path : string) (copied_items : list string)
         (moved_items failed_moves : list string) (w : world),
    exists (m f : list string) (w' : world),
      move_items with_dataflows_path copied_items moved_items failed_moves w
      = (Ok (m, f), w')
      /\ exists m2 f2,
          m = (moved_items ++ m2)%list /\ f = (failed_moves ++ f2)%list
          /\ List.length m2 + List.length f2 <= List.length copied_items
          /\ incl m2 (map (fun item_dir =>
                             Fs.join with_dataflows_path (Fs.basename item_dir))
                        copied_items)
          /\ incl f2 (map Fs.basename copied_items).
Proof.
  intros wdp items. induction items as [| item_dir rest IH]; intros moved failed w.
  - exists moved, failed, w. split; [reflexivity |]. exists [], [].
    rewrite !app_nil_r. repeat split; auto using incl_nil_l.
  - cbn [move_items]. unfold bind at 1, exists_.
    destruct (Fs.exists_ (fs w) _).
    + unfold bind at 1.
      destruct (@move_item_outcome item_dir (Fs.join wdp (Fs.basename item_dir))
                  (seq 0 max_retries) ltac:(discriminate) ltac:(simpl; lia)
                  500%N moved failed w) as (m1 & f1 & w1 & R & O).
      rewrite R. cbn [fst snd].
      destruct (IH m1 f1 w1) as (m & f & w' & R' & m2 & f2 & Em & Ef & Le & Im & If).
      exists m, f, w'. split; [exact R' |].
      destruct O as [[-> ->] | [-> ->]].
      * exists (Fs.join wdp (Fs.basename item_dir) :: m2), f2.
        rewrite Em, <- app_assoc. repeat split; auto.
        -- simpl. lia.
        -- cbn [map]. intros x [<- | I]; [now left | right; now apply Im].
        -- cbn [map]. now apply incl_tl.
      * exists m2, (Fs.basename item_dir :: f2).
        rewrite Ef, <- app_assoc. repeat split; auto.
        -- simpl. lia.
        -- cbn [map]. now apply incl_tl.
        -- cbn [map]. intros x [<- | I]; [now left | right; now apply If].
    + destruct (IH moved failed w) as (m & f & w' & R' & m2 & f2 & Em & Ef & Le & Im & If).
      exists m, f, w'. split; [exact R' |]. exists m2, f2.
      repeat split; auto; [simpl; lia | |]; cbn [map]; now apply incl_tl.
Qed.

(** * Properties of the steps around the loops *)

(** ** Finding the items *)

Lemma string_leb_trans a :
  forall b c, String.leb a b = true -> String.leb b c = true -> String.leb a c = true.
Proof.
  unfold String.leb.
  induction a as [| x a IH]; intros [| y b] [| z c]; simpl; try congruence.
  unfold Ascii.compare.
  destruct (N.compare_spec (N_of_ascii x) (N_of_ascii y)) as [E | L | G];
    destruct (N.compare_spec (N_of_ascii y) (N_of_ascii z)) as [E' | L' | G'];
    destruct (N.compare_spec (N_of_ascii x) (N_of_ascii z)) as [E'' | L'' | G''];
    try congruence; try lia.
  apply IH.
Qed.

Lemma insert_in key x l y : In y (Text.insert key x l) <-> y = x \/ In y l.
Proof.
  induction l as [| z l IH]; simpl.
  - intuition.
  - destruct (String.leb (key x) (key z)); simpl; [intuition |].
    rewrite IH. intuition.
Qed.

Lemma sorted_in key l y : In y (Text.sorted key l) <-> In y l.
Proof.
  induction l as [| x l IH]; simpl; [reflexivity |].
  rewrite insert_in, IH. intuition.
Qed.

Lemma insert_sorted key x l :
  Sorted (fun a b => String.leb (key a) (key b) = true) l ->
  Sorted (fun a b => String.leb (key a) (key b) = true) (Text.insert key x l).
Proof.
  induction 1 as [| z l S IH H]; simpl.
  - repeat constructor.
  - destruct (String.leb (key x) (key z)) eqn:E.
    + repeat constructor; assumption.
    + constructor; [exact IH |].
      assert (Z : String.leb (key z) (key x) = true)
        by (destruct (String.leb_total (key x) (key z)); congruence).
      destruct H as [| y l H]; simpl.
      * now constructor.
      * destruct (String.leb (key x) (key y)); now constructor.
Qed.

Lemma sorted_strongly key l :
  StronglySorted (fun a b => String.leb (key a) (key b) = true) (Text.sorted key l).
Proof.
  apply Sorted_StronglySorted.
  - intros a b c. apply string_leb_trans.
  - induction l as [| x l IH]; simpl; [constructor | now apply insert_sorted].
Qed.

Lemma filter_strongly_sorted A (R : A -> A -> Prop) f l :
  StronglySorted R l -> StronglySorted R (filter f l).
Proof.
  induction 1 as [| x l S IH H]; simpl; [constructor |].
  destruct (f x); [| exact IH]. constructor; [exact IH |].
  rewrite Forall_forall in *. intros y I. apply filter_In in I. now apply H.
Qed.

Lemma collect_items_filter entries :
  forall dataflow_items s,
    Script.collect_items entries dataflow_items s
    = (Ok (dataflow_items ++ filter (dataflow_item (fs (base s))) entries)%list, s).
Proof.
  induction entries as [| item_dir rest IH]; intros acc s;
    cbn [Script.collect_items filter].
  - unfold Script.ret. now rewrite app_nil_r.
  - unfold Script.bind at 1, Script.run, is_dir. unfold dataflow_item at 1.
    destruct s as [w ms]. cbn [base messages].
    destruct (Fs.is_dir (fs w) item_dir && Str.startswith "item_" (Fs.basename item_dir)).
    + unfold Script.bind at 1, Script.run, exists_. cbn [base messages andb].
      destruct (Fs.exists_ (fs w) (Fs.join item_dir "mashup.pq")).
      * rewrite IH. cbn [base]. now rewrite <- app_assoc.
      * apply IH.
    + apply IH.
Qed.

Lemma find_dataflow_items_run workspace_path s :
  Fs.is_dir (fs (base s)) workspace_path = true ->
  Script.find_dataflow_items workspace_path s
  = (Ok (filter (dataflow_item (fs (base s)))
           (Text.sorted Fs.basename (Fs.children (fs (base s)) workspace_path))),
     told s (FoundItems
               (List.length
                  (filter (dataflow_item (fs (base s)))
                     (Text.sorted Fs.basename
                        (Fs.children (fs (base s)) workspace_path))))
               workspace_path)).
Proof.
  destruct s as [w ms]. cbn [base]. intros D.
  assert (F : Fs.find workspace_path (fs w) = Some Dir).
  { unfold Fs.is_dir in D. destruct (Fs.find workspace_path (fs w)) as [[d |] |];
      congruence. }
  unfold Script.find_dataflow_items, Script.bind at 1, Script.run, exists_.
  cbn [base messages]. unfold Fs.exists_. rewrite F. cbn [negb].
  unfold Script.bind at 1, Script.run, iterdir. cbn [base messages]. rewrite F.
  unfold Script.bind at 1. rewrite collect_items_filter. cbn [base app].
  reflexivity.
Qed.

(** X10. On a workspace that is a directory, [find_dataflow_items]
    returns and changes nothing; it tells how many items it found.  The
    items are exactly the entries of the workspace that are directories
    named [item_...] holding a [mashup.pq]; any other entry, a
    directory of another name included, is passed over.  They come
    sorted by name. *)
Theorem find_dataflow_items_finds_the_items :
  forall (workspace_path : string) (s : session),
    Fs.is_dir (fs (base s)) workspace_path = true ->
    exists dataflow_items,
      Script.find_dataflow_items workspace_path s
      = (Ok dataflow_items,
         told s (FoundItems (List.length dataflow_items) workspace_path))
      /\ (forall p,
             In p dataflow_items
             <-> In p (Fs.children (fs (base s)) workspace_path)
                 /\ dataflow_item (fs (base s)) p = true)
      /\ StronglySorted name_le dataflow_items.
Proof.
  intros workspace_path s D.
  exists (filter (dataflow_item (fs (base s)))
            (Text.sorted Fs.basename (Fs.children (fs (base s)) workspace_path))).
  split; [| split].
  - now apply find_dataflow_items_run.
  - intros p. rewrite filter_In, sorted_in. reflexivity.
  - apply filter_strongly_sorted. apply (sorted_strongly Fs.basename).
Qed.

Lemma find_dataflow_items_finds_the_items_witness :
  exists dataflow_items,
    Script.find_dataflow_items "ws" {| base := world0 fs_blocked; messages := [] |}
    = (Ok dataflow_items,
       told {| base := world0 fs_blocked; messages := [] |}
         (FoundItems (List.length dataflow_items) "ws"))
    /\ (forall p,
           In p dataflow_items
           <-> In p (Fs.children (fs (base {| base := world0 fs_blocked;
                                              messages := [] |})) "ws")
               /\ dataflow_item (fs (base {| base := world0 fs_blocked;
                                             messages := [] |})) p = true)
    /\ StronglySorted name_le dataflow_items.
Proof.
  apply (@find_dataflow_items_finds_the_items "ws"
           {| base := world0 fs_blocked; messages := [] |}).
  reflexivity.
Defined.

Lemma filter_none A (f : A -> bool) l :
  (forall x, In x l -> f x = false) -> filter f l = [].
Proof.
  induction l as [| x l IH]; intros H; simpl; [reflexivity |].
  rewrite (H x) by now left. apply IH. intros y I. apply H. now right.
Qed.

(** X11. The ways [process_workspace] ends before it converts
    anything.  A workspace path that does not exist is reported and the
    result is [False].  A workspace path that is a regular file passes
    the test of existence and then fails in the listing: the error
    leaves the function.  A directory without a dataflow item gives
    [False].  In the three cases the file system is left as it was. *)
Theorem process_workspace_stops_early :
  forall (resolve : string -> string) (source_workspace : string)
         (output_directory : option string) (s : session),
    let workspace_path := resolve source_workspace in
    (Fs.exists_ (fs (base s)) workspace_path = false ->
     Script.process_workspace resolve source_workspace output_directory s
     = (Ok false, told s (WorkspaceMissing workspace_path)))
    /\ (Fs.is_file (fs (base s)) workspace_path = true ->
        exists s',
          Script.process_workspace resolve source_workspace output_directory s
          = (Raise NotADirectoryError, s')
          /\ base s' = base s)
    /\ (Fs.is_dir (fs (base s)) workspace_path = true ->
        (forall p, In p (Fs.children (fs (base s)) workspace_path) ->
                   dataflow_item (fs (base s)) p = false) ->
        exists s',
          Script.process_workspace resolve source_workspace output_directory s
          = (Ok false, s')
          /\ base s' = base s).
Proof.
  intros resolve source_workspace output_directory [w ms] workspace_path.
  cbn [base]. split; [| split].
  - intros E. unfold Script.process_workspace. fold workspace_path.
    unfold Script.bind at 1, Script.run, exists_. cbn [base messages].
    rewrite E. reflexivity.
  - intros F. unfold Fs.is_file in F.
    destruct (Fs.find workspace_path (fs w)) as [[d |] |] eqn:E; try discriminate.
    unfold Script.process_workspace. fold workspace_path.
    unfold Script.bind at 1, Script.run, exists_. cbn [base messages].
    unfold Fs.exists_. rewrite E. cbn [negb].
    unfold Script.bind at 1, Script.print. cbn [base messages].
    unfold Script.bind at 1, Script.find_dataflow_items.
    unfold Script.bind at 1, Script.run, exists_. cbn [base messages].
    unfold Fs.exists_. rewrite E. cbn [negb].
    unfold Script.bind at 1, Script.run, iterdir. cbn [base messages]. rewrite E.
    eexists. split; reflexivity.
  - intros D N.
    assert (E : Fs.exists_ (fs w) workspace_path = true).
    { unfold Fs.is_dir in D. unfold Fs.exists_.
      destruct (Fs.find workspace_path (fs w)) as [[d |] |]; congruence. }
    unfold Script.process_workspace. fold workspace_path.
    unfold Script.bind at 1, Script.run, exists_. cbn [base messages].
    rewrite E. cbn [negb].
    unfold Script.bind at 1, Script.print. cbn [base messages].
    unfold Script.bind at 1.
    rewrite find_dataflow_items_run by exact D. cbn [base].
    rewrite filter_none.
    + eexists. split; reflexivity.
    + intros p I. apply N. now apply sorted_in in I.
Qed.

Lemma process_workspace_stops_early_witness :
  Script.process_workspace (fun p => p) "ws/item_001/pqtzip" None
    {| base := world0 fs_blocked; messages := [] |}
  = (Raise NotADirectoryError,
     told {| base := world0 fs_blocked; messages := [] |}
       (ProcessingWorkspace "ws/item_001/pqtzip" "ws/item_001/pqtzip")).
Proof.
  destruct (proj1 (proj2 (@process_workspace_stops_early (fun p => p)
                            "ws/item_001/pqtzip" None
                            {| base := world0 fs_blocked; messages := [] |}))
              eq_refl) as (s' & R & _).
  rewrite R. vm_compute in R. inversion R. reflexivity.
Defined.

(** ** The mapping file of the conversion *)

Lemma output_line_reads original_mappings item_dir w l :
  ws_files_in l item_dir = ws_files_in (fs w) item_dir ->
  output_line original_mappings item_dir w
  = (Ok (line_for l original_mappings item_dir), w).
Proof.
  intros E. unfold line_for, output_line, bind, glob_ws, ret. cbn [fs world0].
  rewrite E. destruct (ws_files_in (fs w) item_dir) as [| ws_file rest];
    [reflexivity |].
  destruct (5 <=? List.length (Str.split "__" (Text.stem (Fs.basename ws_file))))%nat;
    reflexivity.
Qed.

Lemma basename_join d n : Fs.rsplit n = None -> Fs.basename (Fs.join d n) = n.
Proof. intros H. unfold Fs.basename. now rewrite (@rsplit_join d n H). Qed.

(** A file named [item_mapping.txt] is none of the files the glob of
    line 184 finds. *)
Lemma ws_files_put output_path (d : data) l item_dir :
  Fs.is_dir l (Fs.join output_path "item_mapping.txt") = false ->
  ws_files_in (Fs.put (Fs.join output_path "item_mapping.txt") (File d) l) item_dir
  = ws_files_in l item_dir.
Proof.
  intros D. unfold ws_files_in.
  assert (I : Fs.is_dir (Fs.put (Fs.join output_path "item_mapping.txt") (File d) l)
                item_dir = Fs.is_dir l item_dir).
  { unfold Fs.is_dir in *.
    destruct (String.eqb (Fs.join output_path "item_mapping.txt") item_dir) eqn:E.
    - apply String.eqb_eq in E. subst item_dir. rewrite find_put_eq.
      destruct (Fs.find _ l) as [[x |] |]; congruence.
    - apply String.eqb_neq in E. now rewrite find_put_ne. }
  rewrite I. destruct (Fs.is_dir l item_dir); [| reflexivity].
  unfold Fs.children. rewrite keys_put.
  destruct (Fs.exists_ l (Fs.join output_path "item_mapping.txt")); [reflexivity |].
  rewrite !filter_app. cbn [filter].
  destruct (Fs.child_of item_dir (Fs.join output_path "item_mapping.txt"));
    cbn [filter]; [| now rewrite app_nil_r].
  rewrite (@basename_join output_path "item_mapping.txt" eq_refl).
  cbn. now rewrite app_nil_r.
Qed.

Lemma is_dir_put_file p (d : data) l q :
  Fs.is_dir l p = false -> Fs.is_dir (Fs.put p (File d) l) q = Fs.is_dir l q.
Proof.
  intros D. unfold Fs.is_dir in *. destruct (String.eqb p q) eqn:E.
  - apply String.eqb_eq in E. subst q. rewrite find_put_eq.
    destruct (Fs.find p l) as [[x |] |]; congruence.
  - apply String.eqb_neq in E. now rewrite find_put_ne.
Qed.

(** The loop of lines 180-206 once the file is open. *)
Lemma mapping_loop (w : world) output_path original_mappings (l0 : Fs.t) items :
  Fs.is_dir l0 (Fs.join output_path "item_mapping.txt") = false ->
  forall acc,
    for_each items (fun item_dir =>
      text <- output_line original_mappings item_dir ;;
      f_write (Fs.join output_path "item_mapping.txt") text)
      (with_fs w (Fs.put (Fs.join output_path "item_mapping.txt")
                    (File (Bytes acc)) l0))
    = (Ok tt,
       with_fs w
         (Fs.put (Fs.join output_path "item_mapping.txt")
            (File (Bytes (acc ++ text_of_lines
                                   (map (line_for l0 original_mappings) items))))
            l0)).
Proof.
  intros D. induction items as [| item_dir rest IH]; intros acc.
  - cbn [for_each map text_of_lines fold_right]. now rewrite append_nil_r.
  - cbn [for_each map text_of_lines fold_right]. unfold bind at 1. unfold bind at 1.
    rewrite (@output_line_reads original_mappings item_dir _ l0)
      by (cbn [fs with_fs]; symmetry; now apply ws_files_put).
    unfold f_write. cbn [fs with_fs]. unfold Fs.text_at.
    rewrite find_put_eq, put_put.
    change (with_fs (with_fs w ?a) ?b) with (with_fs w b).
    fold (text_of_lines (map (line_for l0 original_mappings) rest)).
    rewrite IH. now rewrite append_assoc.
Qed.

Lemma open_error_not_dir l p : Fs.open_error l p = None -> Fs.is_dir l p = false.
Proof.
  unfold Fs.open_error, Fs.is_dir.
  destruct (Fs.has_nul p); [discriminate |].
  destruct (Fs.names_directory p); [discriminate |].
  destruct (Fs.find p l) as [[d |] |]; congruence.
Qed.

Lemma write_mapping_run dataflow_items original_mappings output_path w :
  Fs.open_error (fs w) (Fs.join output_path "item_mapping.txt") = None ->
  write_mapping dataflow_items original_mappings
    (Fs.join output_path "item_mapping.txt") w
  = (Ok tt,
     with_fs w
       (Fs.put (Fs.join output_path "item_mapping.txt")
          (File (Bytes (mapping_text (fs w) original_mappings dataflow_items)))
          (fs w))).
Proof.
  intros O. unfold write_mapping, bind at 1, write_text, write_data. rewrite O.
  rewrite (@mapping_loop w output_path original_mappings (fs w) _
             (@open_error_not_dir _ _ O) "").
  reflexivity.
Qed.

Lemma create_output_mapping_written dataflow_items original_mappings output_path s :
  Fs.open_error (fs (base s)) (Fs.join output_path "item_mapping.txt") = None ->
  Script.create_output_mapping dataflow_items original_mappings output_path s
  = (Ok true,
     told (with_text s (Fs.join output_path "item_mapping.txt")
             (mapping_text (fs (base s)) original_mappings dataflow_items))
       (MappingCreated (List.length dataflow_items)
          (Fs.join output_path "item_mapping.txt"))).
Proof.
  intros O. unfold Script.create_output_mapping, Script.try_except.
  unfold Script.bind at 1, Script.run.
  rewrite (@write_mapping_run _ _ _ _ O). reflexivity.
Qed.

Lemma create_output_mapping_refused dataflow_items original_mappings output_path s e :
  Fs.open_error (fs (base s)) (Fs.join output_path "item_mapping.txt") = Some e ->
  Script.create_output_mapping dataflow_items original_mappings output_path s
  = (Ok false, told s (MappingError e)).
Proof.
  intros O. unfold Script.create_output_mapping, Script.try_except.
  unfold Script.bind at 1, Script.run, write_mapping, bind at 1, write_text, write_data.
  rewrite O. destruct s. reflexivity.
Qed.

(** X12. [create_output_mapping] never raises.  When the mapping file
    can be opened it returns [True] and the file holds one line for
    each item, in the order of the names of the items, whatever the
    file held before; nothing else changes.  When the file cannot be
    opened the error is reported, the result is [False] and nothing
    changes. *)
Theorem create_output_mapping_writes_afresh :
  forall (dataflow_items : list string) (original_mappings : list (string * string))
         (output_path : string) (s : session),
    let mapping_file := Fs.join output_path "item_mapping.txt" in
    exists (b : bool) (s' : session),
      Script.create_output_mapping dataflow_items original_mappings output_path s
      = (Ok b, s')
      /\ (Fs.open_error (fs (base s)) mapping_file = None ->
          b = true
          /\ s' = told (with_text s mapping_file
                          (mapping_text (fs (base s)) original_mappings
                             dataflow_items))
                    (MappingCreated (List.length dataflow_items) mapping_file))
      /\ (forall e,
             Fs.open_error (fs (base s)) mapping_file = Some e ->
             b = false /\ s' = told s (MappingError e)).
Proof.
  intros dataflow_items original_mappings output_path s mapping_file.
  destruct (Fs.open_error (fs (base s)) mapping_file) as [e |] eqn:O.
  - eexists _, _. split; [apply (@create_output_mapping_refused _ _ _ _ _ O) |].
    split; [discriminate |]. intros e' E. inversion E; subst. auto.
  - eexists _, _. split; [apply (@create_output_mapping_written _ _ _ _ O) |].
    split; [auto | discriminate].
Qed.

Lemma open_error_written p (d : data) l :
  Fs.open_error l p = None -> Fs.open_error (Fs.put p (File d) l) p = None.
Proof.
  unfold Fs.open_error.
  destruct (Fs.has_nul p); [discriminate |].
  destruct (Fs.names_directory p); [discriminate |].
  now rewrite find_put_eq.
Qed.

Lemma mapping_text_put output_path (d : data) l original_mappings dataflow_items :
  Fs.is_dir l (Fs.join output_path "item_mapping.txt") = false ->
  mapping_text (Fs.put (Fs.join output_path "item_mapping.txt") (File d) l)
    original_mappings dataflow_items
  = mapping_text l original_mappings dataflow_items.
Proof.
  intros D. unfold mapping_text. f_equal. apply map_ext. intros item_dir.
  unfold line_for.
  rewrite (@output_line_reads original_mappings item_dir (world0 (Fs.put _ _ l)) l)
    by (cbn [fs world0]; symmetry; now apply ws_files_put).
  rewrite (@output_line_reads original_mappings item_dir (world0 l) l) by reflexivity.
  reflexivity.
Qed.

(** X13. Writing the mapping again changes nothing: a second call on
    the outcome of a call that returned [True] returns [True] and
    leaves the file system as the first call left it.  (The decode
    stage appends to its mapping file; this step rewrites it.) *)
Theorem create_output_mapping_twice :
  forall (dataflow_items : list string) (original_mappings : list (string * string))
         (output_path : string) (s s1 : session),
    Script.create_output_mapping dataflow_items original_mappings output_path s
    = (Ok true, s1) ->
    exists s2,
      Script.create_output_mapping dataflow_items original_mappings output_path s1
      = (Ok true, s2)
      /\ fs (base s2) = fs (base s1).
Proof.
  intros dataflow_items original_mappings output_path s s1 H.
  destruct (Fs.open_error (fs (base s)) (Fs.join output_path "item_mapping.txt"))
    as [e |] eqn:O.
  - rewrite (@create_output_mapping_refused _ _ _ _ _ O) in H. discriminate.
  - rewrite (@create_output_mapping_written _ _ _ _ O) in H.
    inversion H; subst s1. clear H.
    eexists. split.
    + apply create_output_mapping_written. cbn [told with_text base fs with_fs].
      now apply open_error_written.
    + cbn [told with_text base fs with_fs].
      rewrite put_put, mapping_text_put by now apply open_error_not_dir.
      reflexivity.
Qed.

Lemma create_output_mapping_twice_witness :
  exists s2,
    Script.create_output_mapping ["ws/item_002"; "ws/item_001"] [] "ws"
      (snd (Script.create_output_mapping ["ws/item_002"; "ws/item_001"] [] "ws"
              {| base := world0 fs_blocked; messages := [] |}))
    = (Ok true, s2)
    /\ fs (base s2)
       = fs (base (snd (Script.create_output_mapping ["ws/item_002"; "ws/item_001"]
                          [] "ws" {| base := world0 fs_blocked; messages := [] |}))).
Proof.
  apply (@create_output_mapping_twice ["ws/item_002"; "ws/item_001"] [] "ws"
           {| base := world0 fs_blocked; messages := [] |}).
  vm_compute. reflexivity.
Defined.

Lemma rsplit_dot_dot_free s : dot_free s = true -> Text.rsplit_dot s = None.
Proof.
  induction s as [| c s IH]; [reflexivity |]. simpl. intros H.
  apply andb_true_iff in H. destruct H as [C D]. rewrite (IH D).
  apply negb_true_iff in C. now rewrite C.
Qed.

Lemma rsplit_dot_extension x :
  Text.rsplit_dot (x ++ ".json") = Some (x, "json").
Proof.
  induction x as [| c x IH]; [reflexivity |].
  change (String c x ++ ".json") with (String c (x ++ ".json")).
  cbn [Text.rsplit_dot]. now rewrite IH.
Qed.

Lemma stem_json x : x <> "" -> Text.stem (x ++ ".json") = x.
Proof.
  intros N. unfold Text.stem. rewrite rsplit_dot_extension.
  destruct x as [| c x]; [congruence | reflexivity].
Qed.

Lemma export_name_tokens ws it nm ty :
  no_separator ws = true -> no_separator it = true ->
  no_separator nm = true -> no_separator ty = true ->
  Str.split "__" ("WS__" ++ ws ++ "__" ++ it ++ "__" ++ nm ++ "__" ++ ty)
  = ["WS"; ws; it; nm; ty].
Proof.
  intros Sws Sit Snm Sty. unfold Str.split.
  change ("WS__" ++ ws ++ "__" ++ it ++ "__" ++ nm ++ "__" ++ ty)
    with ("WS" ++ "__" ++ ws ++ "__" ++ it ++ "__" ++ nm ++ "__" ++ ty).
  rewrite (@split_token "WS" eq_refl "" _).
  rewrite (@split_token ws Sws "" _), (@split_token it Sit "" _).
  rewrite (@split_token nm Snm "" _), (@split_last ty Sty "").
  reflexivity.
Qed.

Lemma export_name_stem ws it nm ty :
  export_name ws it nm ty
  = ("WS__" ++ ws ++ "__" ++ it ++ "__" ++ nm ++ "__" ++ ty) ++ ".json".
Proof. unfold export_name. now rewrite !append_assoc. Qed.

Lemma export_name_parsed ws it nm ty :
  component ws = true -> component it = true ->
  component nm = true -> component ty = true ->
  extract_metadata_from_filename (export_name ws it nm ty)
  = Some {| workspace_id := ws; item_id := it; name := nm; type := ty |}.
Proof.
  intros Hws Hit Hnm Hty.
  apply andb_true_iff in Hws, Hit, Hnm, Hty.
  destruct Hws as [Sws Dws], Hit as [Sit Dit], Hnm as [Snm Dnm], Hty as [Sty Dty].
  unfold extract_metadata_from_filename. rewrite export_name_stem.
  rewrite replace_extension
    by (rewrite !dot_free_append, Dws, Dit, Dnm, Dty; reflexivity).
  now rewrite export_name_tokens.
Qed.

(** X14. The two stages agree on the line of an item.  For an item
    directory named by the decode stage whose first [WS__*.json] file
    is named as the export names it (components without separator and
    full stop), the conversion writes the line the decode stage wrote.
    For an item without such a file it writes the line the decode
    stage wrote for a source file that does not parse, provided the
    mapping read back gives that file for the item. *)
Theorem output_line_agrees_with_decode_stage :
  forall (original_mappings : list (string * string)) (item_dir : string)
         (idx : nat) (w : world),
    Fs.basename item_dir = item_name idx ->
    (forall ws it nm ty ws_file rest,
        ws_files_in (fs w) item_dir = ws_file :: rest ->
        Fs.basename ws_file = export_name ws it nm ty ->
        component ws = true -> component it = true ->
        component nm = true -> component ty = true ->
        output_line original_mappings item_dir w
        = (Ok (mapping_line idx (export_name ws it nm ty)), w))
    /\ (forall file_name,
           ws_files_in (fs w) item_dir = [] ->
           extract_metadata_from_filename file_name = None ->
           dict_get original_mappings (item_name idx) "Unknown" = file_name ->
           output_line original_mappings item_dir w
           = (Ok (mapping_line idx file_name), w)).
Proof.
  intros original_mappings item_dir idx w B. split.
  - intros ws it nm ty ws_file rest G N Hws Hit Hnm Hty.
    unfold output_line, bind, glob_ws. rewrite G, N, B.
    unfold mapping_line. rewrite (export_name_parsed _ _ _ _ Hws Hit Hnm Hty).
    cbn [workspace_id item_id name type].
    apply andb_true_iff in Hws, Hit, Hnm, Hty.
    destruct Hws as [Sws Dws], Hit as [Sit Dit], Hnm as [Snm Dnm], Hty as [Sty Dty].
    rewrite export_name_stem, stem_json by discriminate.
    rewrite (export_name_tokens _ _ _ _ Sws Sit Snm Sty).
    reflexivity.
  - intros file_name G N D. unfold output_line, bind, glob_ws. rewrite G, B.
    unfold mapping_line, fallback_line, ret. now rewrite N, D.
Qed.

Lemma output_line_agrees_with_decode_stage_witness :
  output_line [] "ws/item_001" after_first_run
  = (Ok mapping_one, after_first_run).
Proof.
  refine (proj1 (@output_line_agrees_with_decode_stage [] "ws/item_001" 1
                   after_first_run eq_refl)
            "abc" "123" "MyFlow" "Dataflow"
            "ws/item_001/WS__abc__123__MyFlow__Dataflow.json" [] _ _ _ _ _ _);
    vm_compute; reflexivity.
Defined.

(** ** Reading the mapping file back *)

Lemma rev_append a b : Text.rev (a ++ b) = Text.rev b ++ Text.rev a.
Proof.
  induction a as [| c a IH]; simpl.
  - now rewrite append_nil_r.
  - now rewrite IH, append_assoc.
Qed.

Lemma rev_involutive s : Text.rev (Text.rev s) = s.
Proof.
  induction s as [| c s IH]; simpl; [reflexivity |].
  now rewrite rev_append, IH.
Qed.

Lemma lstrip_length bw n :
  forall s, String.length s <= n ->
            String.length (Text.lstrip_from bw s) <= String.length s.
Proof.
  induction n as [| n IH]; intros s L.
  - destruct s; simpl in *; lia.
  - destruct s as [| a s1]; [simpl; lia |]. cbn [Text.lstrip_from].
    simpl in L. destruct (Text.space1 a).
    + specialize (IH s1). simpl. lia.
    + destruct s1 as [| b s2]; [lia |].
      destruct (if bw then Text.space2 b a else Text.space2 a b).
      * specialize (IH s2). simpl in *. lia.
      * destruct s2 as [| c s3]; [lia |].
        destruct (if bw then Text.space3 c b a else Text.space3 a b c); [| lia].
        specialize (IH s3). simpl in *. lia.
Qed.

Lemma lstrip_shorter bw s r :
  String.length r < String.length s ->
  String.length (Text.lstrip_from bw r) < String.length s.
Proof.
  intros L. pose proof (@lstrip_length bw (String.length r) r (le_n _)). lia.
Qed.

Lemma space2_ascii a b :
  (Text.byte b < 128)%N -> Text.space2 a b = false.
Proof.
  intros B. unfold Text.space2.
  destruct (N.eqb_spec (Text.byte b) 133); [lia |].
  destruct (N.eqb_spec (Text.byte b) 160); [lia |].
  now rewrite andb_false_r.
Qed.

Lemma space2_ascii_lead a b :
  (Text.byte a < 128)%N -> Text.space2 a b = false.
Proof.
  intros A. unfold Text.space2.
  destruct (N.eqb_spec (Text.byte a) 194); [lia | reflexivity].
Qed.

Lemma space3_ascii_lead a b c :
  (Text.byte a < 128)%N -> Text.space3 a b c = false.
Proof.
  intros A. unfold Text.space3.
  destruct (N.eqb_spec (Text.byte a) 225); [lia |].
  destruct (N.eqb_spec (Text.byte a) 226); [lia |].
  destruct (N.eqb_spec (Text.byte a) 227); [lia | reflexivity].
Qed.

Lemma space3_ascii_middle a b c :
  (Text.byte b < 128)%N -> Text.space3 a b c = false.
Proof.
  intros B. unfold Text.space3.
  destruct (N.eqb_spec (Text.byte b) 154); [lia |].
  destruct (N.eqb_spec (Text.byte b) 128); [lia |].
  destruct (N.eqb_spec (Text.byte b) 129); [lia |].
  now rewrite !andb_false_r.
Qed.

(** Text that keeps its first character when stripped keeps it when
    ASCII characters follow. *)
Lemma lstrip_keep bw n t1 t2 r :
  n <> "" ->
  Text.lstrip_from bw n = n ->
  (Text.byte t1 < 128)%N -> (Text.byte t2 < 128)%N ->
  Text.lstrip_from bw (n ++ String t1 (String t2 r)) = n ++ String t1 (String t2 r).
Proof.
  intros N K T1 T2. destruct n as [| a s1]; [congruence |].
  assert (Z : forall x, String.length x < String.length (String a s1) ->
                        Text.lstrip_from bw x <> String a s1).
  { intros x L E. pose proof (@lstrip_shorter bw (String a s1) x L) as S.
    rewrite E in S. lia. }
  cbn [Text.lstrip_from append] in *.
  destruct (Text.space1 a). { exfalso. apply (Z s1); [simpl; lia | exact K]. }
  destruct s1 as [| b s2]; cbn [append].
  - destruct bw.
    + rewrite (@space2_ascii_lead _ _ T1). now rewrite (@space3_ascii_lead _ _ _ T2).
    + rewrite (@space2_ascii _ _ T1). now rewrite (@space3_ascii_middle _ _ _ T1).
  - destruct (if bw then Text.space2 b a else Text.space2 a b).
    { exfalso. apply (Z s2); [simpl; lia | exact K]. }
    destruct s2 as [| c s3]; cbn [append].
    + destruct bw.
      * now rewrite (@space3_ascii_lead _ _ _ T1).
      * assert (F : Text.space3 a b t1 = false).
        { unfold Text.space3.
          destruct (N.eqb_spec (Text.byte t1) 128); [lia |].
          destruct (N.eqb_spec (Text.byte t1) 159); [lia |].
          destruct (N.eqb_spec (Text.byte t1) 168); [lia |].
          destruct (N.eqb_spec (Text.byte t1) 169); [lia |].
          destruct (N.eqb_spec (Text.byte t1) 175); [lia |].
          assert (W : utf8.within 128 138 (Text.byte t1) = false).
          { unfold utf8.within. destruct (N.leb_spec 128 (Text.byte t1)); [lia |].
            reflexivity. }
          rewrite W. now rewrite !andb_false_r. }
        now rewrite F.
    + destruct (if bw then Text.space3 c b a else Text.space3 a b c);
        [| reflexivity].
      exfalso. apply (Z s3); [simpl; lia | exact K].
Qed.

Lemma lstrip_graphic bw s : graphic s = true -> Text.lstrip_from bw s = s.
Proof.
  assert (G : forall c, utf8.within 33 126 (Text.byte c) = true ->
                        (Text.byte c < 128)%N /\ Text.space1 c = false).
  { intros c W. unfold utf8.within in W. apply andb_true_iff in W.
    destruct W as [L U]. apply N.leb_le in L, U. split; [lia |].
    unfold Text.space1, utf8.within.
    destruct (N.leb_spec (Text.byte c) 13); [lia |].
    destruct (N.leb_spec (Text.byte c) 32); [lia |].
    now rewrite !andb_false_r. }
  destruct s as [| a s1]; [reflexivity |]. cbn [graphic Text.lstrip_from].
  intros H. apply andb_true_iff in H. destruct H as [A H].
  destruct (G a A) as [A1 A2]. rewrite A2.
  destruct s1 as [| b s2]; [reflexivity |]. cbn [graphic] in H.
  apply andb_true_iff in H. destruct H as [B H]. destruct (G b B) as [B1 B2].
  rewrite (@space2_ascii_lead _ _ A1), (@space2_ascii_lead _ _ B1).
  destruct s2 as [| c s3]; [now destruct bw |]. cbn [graphic] in H.
  apply andb_true_iff in H. destruct H as [C H]. destruct (G c C) as [C1 C2].
  rewrite (@space3_ascii_lead _ _ _ A1), (@space3_ascii_lead _ _ _ C1).
  now destruct bw.
Qed.

Lemma graphic_append a b : graphic (a ++ b) = graphic a && graphic b.
Proof.
  induction a as [| c a IH]; simpl; [reflexivity |]. now rewrite IH, andb_assoc.
Qed.

Lemma graphic_rev s : graphic s = true -> graphic (Text.rev s) = true.
Proof.
  induction s as [| c s IH]; [reflexivity |]. simpl. intros H.
  apply andb_true_iff in H. destruct H as [C H].
  rewrite graphic_append, (IH H). simpl. now rewrite C.
Qed.

Lemma strip_graphic s : graphic s = true -> Text.strip s = s.
Proof.
  intros G. unfold Text.strip, Text.lstrip, Text.rstrip.
  rewrite (@lstrip_graphic false s G), (@lstrip_graphic true _ (@graphic_rev s G)).
  apply rev_involutive.
Qed.

Lemma graphic_digits d : graphic (NilEmpty.string_of_uint d) = true.
Proof. induction d; simpl; auto. Qed.

Lemma graphic_zeros k : graphic (string_of_list_ascii (repeat "0"%char k)) = true.
Proof. induction k; simpl; auto. Qed.

Lemma graphic_item_name idx : graphic (item_name idx) = true.
Proof.
  unfold item_name, pad3. rewrite !graphic_append, graphic_zeros.
  unfold NilZero.string_of_uint.
  destruct (Nat.to_uint idx) eqn:E; try (rewrite <- E; now rewrite graphic_digits).
  reflexivity.
Qed.

Lemma graphic_no_break s : graphic s = true -> no_break s = true.
Proof.
  induction s as [| c s IH]; [reflexivity |]. simpl. intros H.
  apply andb_true_iff in H. destruct H as [C H]. rewrite (IH H), andb_true_r.
  unfold utf8.within in C. apply andb_true_iff in C. destruct C as [L U].
  apply N.leb_le in L, U. unfold Text.byte in *.
  destruct (Ascii.eqb_spec c Text.line_feed) as [-> |];
    [vm_compute in L; congruence |].
  destruct (Ascii.eqb_spec c Text.carriage_return) as [-> |];
    [vm_compute in L; congruence | reflexivity].
Qed.

Lemma no_break_append a b : no_break (a ++ b) = no_break a && no_break b.
Proof.
  induction a as [| c a IH]; simpl; [reflexivity |]. now rewrite IH, andb_assoc.
Qed.

Lemma split_once_graphic a :
  graphic a = true ->
  forall cur rest,
    Text.split_once " -> " cur (a ++ " -> " ++ rest) = [cur ++ a; rest].
Proof.
  induction a as [| c a IH]; intros G cur rest.
  - simpl. now rewrite append_nil_r.
  - simpl in G. apply andb_true_iff in G. destruct G as [C G].
    change (String c a ++ " -> " ++ rest) with (String c (a ++ " -> " ++ rest)).
    cbn [Text.split_once Str.startswith].
    assert (S : Ascii.eqb " " c = false).
    { destruct (Ascii.eqb_spec " "%char c) as [<- |]; [| reflexivity].
      vm_compute in C. discriminate. }
    rewrite S. cbn [andb]. rewrite (IH G). now rewrite append_assoc.
Qed.

Lemma contains_middle sub a b : Str.contains sub (a ++ sub ++ b) = true.
Proof.
  induction a as [| c a IH].
  - assert (S : Str.startswith sub (sub ++ b) = true)
      by (apply startswith_iff; now exists b).
    simpl. destruct (sub ++ b); simpl in *; now rewrite S.
  - change (String c a ++ sub ++ b) with (String c (a ++ sub ++ b)).
    cbn [Str.contains]. rewrite IH. apply orb_true_r.
Qed.

Lemma lines_block body :
  no_break body = true ->
  forall cur rest,
    Text.lines_from cur (body ++ newline ++ rest)
    = (cur ++ body ++ newline) :: Text.lines_from "" rest.
Proof.
  induction body as [| c body IH]; intros N cur rest.
  - reflexivity.
  - simpl in N. apply andb_true_iff in N. destruct N as [C N].
    apply andb_true_iff in C. destruct C as [C1 C2].
    apply negb_true_iff in C1, C2.
    change (String c body ++ newline ++ rest)
      with (String c (body ++ newline ++ rest)).
    cbn [Text.lines_from]. rewrite C1, C2, (IH N). now rewrite append_assoc.
Qed.

(** A line the decode stage writes for a file whose name does not
    parse is read back as the item and the file. *)
Lemma read_fallback_line idx file_name mappings :
  clean_name file_name = true ->
  Script.read_mapping_line (item_name idx ++ " -> " ++ file_name ++ newline) mappings
  = dict_set (item_name idx) file_name mappings.
Proof.
  intros C. unfold clean_name in C. apply andb_true_iff in C. destruct C as [C B].
  apply andb_true_iff in C. destruct C as [E S].
  apply negb_true_iff in E. apply String.eqb_neq in E. apply String.eqb_eq in S.
  pose proof (graphic_item_name idx) as G.
  assert (KR : Text.lstrip_from true (Text.rev file_name) = Text.rev file_name).
  { unfold Text.strip, Text.rstrip in S.
    assert (L1 : String.length (Text.lstrip file_name) <= String.length file_name)
      by (apply (@lstrip_length false (String.length file_name)); lia).
    assert (RL : forall x, String.length (Text.rev x) = String.length x).
    { induction x as [| c x IH]; [reflexivity |]. simpl.
      rewrite length_append, IH. simpl. lia. }
    assert (L2 : String.length (Text.lstrip_from true (Text.rev (Text.lstrip file_name)))
                 <= String.length (Text.lstrip file_name)).
    { rewrite <- (RL (Text.lstrip file_name)).
      apply (@lstrip_length true (String.length (Text.rev (Text.lstrip file_name)))).
      lia. }
    assert (EQ : String.length file_name
                 = String.length
                     (Text.lstrip_from true (Text.rev (Text.lstrip file_name)))).
    { rewrite <- (RL (Text.lstrip_from true (Text.rev (Text.lstrip file_name)))).
      f_equal. symmetry. exact S. }
    assert (LE : String.length (Text.lstrip file_name) = String.length file_name)
      by lia.
    assert (K : Text.lstrip file_name = file_name).
    { unfold Text.lstrip in *. clear S L2 L1 EQ.
      destruct file_name as [| a s1]; [reflexivity |].
      cbn [Text.lstrip_from] in *.
      destruct (Text.space1 a).
      { pose proof (@lstrip_shorter false (String a s1) s1 ltac:(simpl; lia)). lia. }
      destruct s1 as [| b s2]; [reflexivity |].
      destruct (Text.space2 a b).
      { pose proof (@lstrip_shorter false (String a (String b s2)) s2
                      ltac:(simpl; lia)). lia. }
      destruct s2 as [| c s3]; [reflexivity |].
      destruct (Text.space3 a b c); [| reflexivity].
      pose proof (@lstrip_shorter false (String a (String b (String c s3))) s3
                    ltac:(simpl; lia)). lia. }
    rewrite K in S. rewrite <- S at 2. now rewrite rev_involutive. }
  assert (Y : Text.strip (item_name idx ++ " -> " ++ file_name ++ newline)
              = item_name idx ++ " -> " ++ file_name).
  { unfold Text.strip, Text.lstrip.
    change (item_name idx ++ " -> " ++ file_name ++ newline)
      with (item_name idx
            ++ String " " (String "-" (">" ++ " " ++ file_name ++ newline))).
    rewrite (@lstrip_keep false (item_name idx) " " "-"
               (">" ++ " " ++ file_name ++ newline)
               ltac:(discriminate) (@lstrip_graphic false _ G)
               ltac:(vm_compute; reflexivity) ltac:(vm_compute; reflexivity)).
    change (item_name idx ++ String " " (String "-" (">" ++ " " ++ file_name ++ newline)))
      with (item_name idx ++ " -> " ++ file_name ++ newline).
    unfold Text.rstrip.
    replace (item_name idx ++ " -> " ++ file_name ++ newline)
      with ((item_name idx ++ " -> " ++ file_name) ++ newline)
      by (now rewrite !append_assoc).
    rewrite rev_append. change (Text.rev newline) with newline.
    change (newline ++ ?x) with (String Text.line_feed x).
    cbn [Text.lstrip_from]. change (Text.space1 Text.line_feed) with true. cbv iota.
    replace (item_name idx ++ " -> " ++ file_name)
      with ((item_name idx ++ " ->") ++ " " ++ file_name)
      by (now rewrite !append_assoc).
    rewrite rev_append, (rev_append " " file_name).
    change (Text.rev " ") with " ".
    rewrite append_assoc. 
    replace (Text.rev (item_name idx ++ " ->"))
      with (">" ++ "-" ++ " " ++ Text.rev (item_name idx))
      by (rewrite rev_append; reflexivity).
    change (" " ++ ">" ++ "-" ++ " " ++ Text.rev (item_name idx))
      with (String " " (String ">" ("-" ++ " " ++ Text.rev (item_name idx)))).
    rewrite (@lstrip_keep true (Text.rev file_name) " " ">" _).
    - rewrite rev_append, rev_involutive. cbn [Text.rev].
      rewrite !rev_append, rev_involutive. cbn [Text.rev append].
      rewrite !append_assoc. reflexivity.
    - intros Z. apply E. rewrite <- (rev_involutive file_name), Z. reflexivity.
    - exact KR.
    - vm_compute. reflexivity.
    - vm_compute. reflexivity. }
  unfold Script.read_mapping_line. rewrite Y.
  assert (NE : String.eqb (item_name idx ++ " -> " ++ file_name) "" = false)
    by (unfold item_name; reflexivity).
  rewrite NE. cbn [negb andb].
  replace (Str.contains "->" (item_name idx ++ " -> " ++ file_name)) with true.
  2: { symmetry.
       replace (item_name idx ++ " -> " ++ file_name)
         with ((item_name idx ++ " ") ++ "->" ++ (" " ++ file_name))
         by (now rewrite !append_assoc).
       apply contains_middle. }
  rewrite (@split_once_graphic (item_name idx) G "" file_name).
  cbn [append]. now rewrite (@strip_graphic _ G), S.
Qed.

Lemma mapping_line_fallback idx file_name :
  extract_metadata_from_filename file_name = None ->
  mapping_line idx file_name = item_name idx ++ " -> " ++ file_name ++ newline.
Proof. intros E. unfold mapping_line. now rewrite E. Qed.

Lemma lines_of_entries entries :
  Forall written_back entries ->
  Text.lines (text_of_lines (map (fun e => mapping_line (fst e) (snd e)) entries))
  = map (fun e => mapping_line (fst e) (snd e)) entries.
Proof.
  unfold Text.lines. induction 1 as [| [idx file_name] entries [C E] _ IH].
  - reflexivity.
  - cbn [snd] in C, E. cbn [map text_of_lines fold_right fst snd].
    fold (text_of_lines (map (fun e => mapping_line (fst e) (snd e)) entries)).
    rewrite (@mapping_line_fallback idx _ E).
    replace ((item_name idx ++ " -> " ++ file_name ++ newline) ++ _)
      with ((item_name idx ++ " -> " ++ file_name) ++ newline
            ++ text_of_lines (map (fun e => mapping_line (fst e) (snd e)) entries))
      by (now rewrite !append_assoc).
    rewrite lines_block.
    + rewrite IH. cbn [append]. now rewrite !append_assoc.
    + unfold clean_name in C. apply andb_true_iff in C. destruct C as [_ B].
      rewrite !no_break_append, B, (@graphic_no_break _ (graphic_item_name idx)).
      reflexivity.
Qed.

Lemma read_entries entries :
  Forall written_back entries ->
  forall mappings,
    fold_left (fun mappings line => Script.read_mapping_line line mappings)
      (map (fun e => mapping_line (fst e) (snd e)) entries) mappings
    = fold_left (fun d e => dict_set (item_name (fst e)) (snd e) d) entries mappings.
Proof.
  induction 1 as [| [idx file_name] entries [C E] _ IH]; intros mappings.
  - reflexivity.
  - cbn [snd] in C, E. cbn [map fold_left fst snd].
    rewrite (@mapping_line_fallback idx _ E), (@read_fallback_line idx _ mappings C).
    apply IH.
Qed.

Lemma dict_get_set_eq k v d default : dict_get (dict_set k v d) k default = v.
Proof.
  induction d as [| [k' v'] d IH]; simpl.
  - now rewrite String.eqb_refl.
  - destruct (String.eqb k' k) eqn:E; simpl; rewrite E; [reflexivity | exact IH].
Qed.

Lemma dict_get_set_ne k k' v d default :
  k <> k' -> dict_get (dict_set k v d) k' default = dict_get d k' default.
Proof.
  intros N. induction d as [| [k0 v0] d IH]; simpl.
  - destruct (String.eqb k k') eqn:E; [apply String.eqb_eq in E; congruence |].
    reflexivity.
  - destruct (String.eqb k0 k) eqn:E; simpl.
    + apply String.eqb_eq in E. subst k0.
      destruct (String.eqb k k') eqn:F; [apply String.eqb_eq in F; congruence |].
      reflexivity.
    + destruct (String.eqb k0 k'); [reflexivity | exact IH].
Qed.

Lemma item_name_inj i j : item_name i = item_name j -> i = j.
Proof.
  unfold item_name. intros E. apply append_inv_head in E.
  pose proof (index_of_pad3 i) as P. rewrite E, index_of_pad3 in P. congruence.
Qed.

Lemma dict_get_entries entries :
  forall d idx default,
    ~ In idx (map fst entries) ->
    dict_get (fold_left (fun d e => dict_set (item_name (fst e)) (snd e) d) entries d)
      (item_name idx) default
    = dict_get d (item_name idx) default.
Proof.
  induction entries as [| [i n] entries IH]; intros d idx default N.
  - reflexivity.
  - cbn [fold_left fst snd]. rewrite IH by (intros I; apply N; now right).
    apply dict_get_set_ne. intros E. apply item_name_inj in E.
    apply N. now left.
Qed.

(** X15. The mapping file of the decode stage is read back by the
    conversion.  When the file holds the lines the decode stage writes
    for files whose names do not parse (names without white space at
    either end and without line break), [read_item_mapping] returns the
    dictionary that gives, for the item of each line, the file of that
    line; with distinct indices every item gives its own file. *)
Theorem fallback_lines_read_back :
  forall (entries : list (nat * string)) (workspace_path : string) (s : session),
    Forall written_back entries ->
    Fs.find (Fs.join workspace_path "item_mapping.txt") (fs (base s))
    = Some (File (Bytes (text_of_lines
                           (map (fun e => mapping_line (fst e) (snd e)) entries)))) ->
    utf8.valid (text_of_lines (map (fun e => mapping_line (fst e) (snd e)) entries))
    = true ->
    Script.read_item_mapping workspace_path s = (Ok (mappings_of entries), s)
    /\ (NoDup (map fst entries) ->
        forall idx file_name,
          In (idx, file_name) entries ->
          dict_get (mappings_of entries) (item_name idx) "Unknown" = file_name).
Proof.
  intros entries workspace_path s W F U. split.
  - destruct s as [w ms]. cbn [base] in F.
    unfold Script.read_item_mapping, Script.bind at 1, Script.run, exists_.
    cbn [base messages]. unfold Fs.exists_. rewrite F. cbn [negb].
    unfold Script.bind, Script.run, read_text, bind, read_data, lift, utf8.decode.
    cbn [base messages]. rewrite F, U. unfold Script.ret.
    rewrite (@lines_of_entries _ W), (@read_entries _ W). reflexivity.
  - unfold mappings_of. generalize (@nil (string * string)).
    clear F U. induction W as [| [i n] entries _ _ IH]; intros d N idx file_name I;
      [contradiction |].
    cbn [map fst] in N. inversion N as [| ? ? N1 N2]; subst.
    cbn [fold_left fst snd]. destruct I as [I | I].
    + inversion I; subst. rewrite dict_get_entries by exact N1.
      apply dict_get_set_eq.
    + now apply IH.
Qed.

Lemma fallback_lines_read_back_witness :
  Script.read_item_mapping "ws"
    {| base := world0 [("ws", Dir);
                       ("ws/item_mapping.txt",
                        File (Bytes (mapping_line 1 "plain.json"
                                     ++ mapping_line 2 "sales export.json")))];
       messages := [] |}
  = (Ok [("item_001", "plain.json"); ("item_002", "sales export.json")],
     {| base := world0 [("ws", Dir);
                        ("ws/item_mapping.txt",
                         File (Bytes (mapping_line 1 "plain.json"
                                      ++ mapping_line 2 "sales export.json")))];
        messages := [] |}).
Proof.
  refine (proj1 (@fallback_lines_read_back
                   [(1, "plain.json"); (2, "sales export.json")] "ws" _ _ _ _)).
  - repeat constructor.
  - reflexivity.
  - reflexivity.
Defined.

(** ** The entry points *)

Lemma batch_decode_directory_returns source_dir w :
  exists b w', batch_decode_directory source_dir w = (Ok b, w').
Proof.
  unfold batch_decode_directory, bind at 1, exists_.
  destruct (Fs.exists_ (fs w) source_dir); cbn [negb]; cbv beta iota.
  - unfold bind at 1, glob_json. unfold bind at 1. rewrite print_run.
    destruct (json_files_in (fs w) source_dir) as [| f fs'].
    + eexists _, _. reflexivity.
    + unfold bind at 1.
      destruct (decode_files_counts source_dir (List.length (f :: fs')) (f :: fs') 1 0 0
                  (printed w [Header source_dir (List.length (f :: fs'))]))
        as (n & e & w1 & R & _).
      rewrite R. eexists _, _. reflexivity.
  - eexists _, _. reflexivity.
Qed.

(** X16. The decode script never ends in an uncaught error: whatever
    its arguments and the files, it ends with status 0 or 1, and with 0
    only when a source directory was given and
    [batch_decode_directory] returned [True] on it. *)
Theorem batch_main_exit_status :
  forall (argv : list string) (s : session),
    exists (status : nat) (s' : session),
      Script.batch_main argv s = (Ok status, s')
      /\ (status = 0 \/ status = 1)
      /\ (status = 0 ->
          exists source_dir w',
            nth_error argv 1 = Some source_dir
            /\ batch_decode_directory source_dir (base s) = (Ok true, w')).
Proof.
  intros argv s. unfold Script.batch_main.
  destruct argv as [| script [| source_dir rest]];
    try (eexists _, _; split; [reflexivity |]; split; [now right | discriminate]).
  unfold Script.bind, Script.run.
  destruct (batch_decode_directory_returns source_dir (base s)) as (b & w' & R).
  rewrite R. destruct b; eexists _, _; (split; [reflexivity |]).
  - split; [now left |]. intros _. now exists source_dir, w'.
  - split; [now right | discriminate].
Qed.



(** ** Copies and metadata off the happy path *)

(** X18. The loop that copies the items into another output directory
    copies nothing over: when the directory of every item already
    exists under the output directory (a second run into the same
    place), the loop returns those directories and leaves the world as
    it was, so the conversion goes on with the earlier copies. *)
Theorem copy_items_keeps_existing_copies :
  forall (dataflow_items : list string) (output_path : string)
         (copied_items : list string) (w : world),
    (forall item_dir,
        In item_dir dataflow_items ->
        Fs.exists_ (fs w) (Fs.join output_path (Fs.basename item_dir)) = true) ->
    copy_items dataflow_items output_path copied_items w
    = (Ok (copied_items
           ++ map (fun item_dir => Fs.join output_path (Fs.basename item_dir))
                dataflow_items)%list, w).
Proof.
  intros dataflow_items output_path.
  induction dataflow_items as [| item_dir rest IH]; intros copied_items w H.
  - cbn [copy_items map]. now rewrite app_nil_r.
  - cbn [copy_items map]. unfold bind at 1, exists_.
    rewrite (H item_dir) by now left. unfold bind at 1, ret.
    rewrite IH by (intros i I; apply H; now right).
    now rewrite <- app_assoc.
Qed.

Lemma copy_items_keeps_existing_copies_witness :
  copy_items ["ws/item_001"] "out" [] (world0 [("out", Dir); ("out/item_001", Dir); ("ws/item_001", Dir)])
  = (Ok ["out/item_001"], world0 [("out", Dir); ("out/item_001", Dir); ("ws/item_001", Dir)]).
Proof.
  apply (@copy_items_keeps_existing_copies ["ws/item_001"] "out" []
           (world0 [("out", Dir); ("out/item_001", Dir); ("ws/item_001", Dir)])).
  intros item_dir [<- | []]. reflexivity.
Defined.

Lemma query_entries_stops pre :
  Forall entry_is_dict pre ->
  forall query_name query_info post acc,
    is_scalar query_info = true ->
    query_entries (pre ++ (query_name, query_info) :: post) acc = Raise TypeError.
Proof.
  induction 1 as [| [n v] pre [info E] _ IH]; intros query_name query_info post acc S.
  - cbn [app query_entries]. unfold query_entry.
    destruct query_info; try discriminate S; reflexivity.
  - cbn [snd] in E. subst v. cbn [app query_entries].
    unfold query_entry at 1, contains, getitem.
    destruct (lookup "isHidden" info) as [h |]; now apply IH.
Qed.

(** X19. The ways [create_mashup_metadata] leaves the happy path, on a
    file that holds a JSON object.  Without the key [queriesMetadata]
    the result lists no query.  A [queriesMetadata] that is not an
    object has no [items]: the function raises [AttributeError].  An
    entry whose value is null, a boolean or a number cannot be searched
    for [isHidden]: the function raises [TypeError], whatever follows
    the entry.  The file system is not touched. *)
Theorem create_mashup_metadata_off_the_happy_path :
  forall (path text : string) (document : list (string * value)) (w : world),
    Fs.find path (fs w) = Some (File (Bytes text)) ->
    utf8.valid text = true ->
    json.loads text = Ok (VDict document) ->
    (lookup "queriesMetadata" document = None ->
     create_mashup_metadata path w
     = (Ok (VDict [("Version", VStr "1.0.0.0"); ("QueriesMetadata", VList [])]), w))
    /\ (forall v,
           lookup "queriesMetadata" document = Some v ->
           (forall mapping, v <> VDict mapping) ->
           create_mashup_metadata path w = (Raise AttributeError, w))
    /\ (forall pre query_name query_info post,
           lookup "queriesMetadata" document
           = Some (VDict (pre ++ (query_name, query_info) :: post)) ->
           Forall entry_is_dict pre ->
           is_scalar query_info = true ->
           create_mashup_metadata path w = (Raise TypeError, w)).
Proof.
  intros path text document w F U L.
  unfold create_mashup_metadata, bind. rewrite (@json_load_file _ _ _ _ F U L).
  unfold lift, contains, getitem, items_of. repeat split.
  - intros Q. now rewrite Q.
  - intros v Q N. rewrite Q. destruct v; try reflexivity.
    exfalso. eapply N. reflexivity.
  - intros pre query_name query_info post Q D S. rewrite Q.
    now rewrite (@query_entries_stops pre D query_name query_info post [] S).
Qed.

Lemma create_mashup_metadata_off_the_happy_path_witness :
  create_mashup_metadata "q.json"
    (world0 [("q.json",
              File (Bytes (dq "{'queriesMetadata': {'A': {}, 'B': null, 'C': {}}}")))])
  = (Raise TypeError,
     world0 [("q.json",
              File (Bytes (dq "{'queriesMetadata': {'A': {}, 'B': null, 'C': {}}}")))]).
Proof.
  refine (proj2 (proj2 (@create_mashup_metadata_off_the_happy_path "q.json"
            (dq "{'queriesMetadata': {'A': {}, 'B': null, 'C': {}}}")
            [("queriesMetadata",
              VDict [("A", VDict []); ("B", VNone); ("C", VDict [])])]
            (world0 [("q.json",
                      File (Bytes (dq "{'queriesMetadata': {'A': {}, 'B': null, 'C': {}}}")))])
            eq_refl eq_refl eq_refl))
            [("A", VDict [])] "B" VNone [("C", VDict [])] eq_refl _ eq_refl).
  repeat constructor. now exists [].
Defined.

(** ** Runs of the whole conversion *)

(** The conversion, in place, of the workspace the decode stage left:
    the item with a script is packaged and moved, and its line in the
    new mapping file is the one read back from the mapping file of the
    decode stage. *)
Example convert_after_decode :
  let r := Script.process_workspace (fun p => p) "ws" None
             {| base := after_decode_two; messages := [] |} in
  fst r = Ok true
  /\ Fs.text_at (fs (base (snd r))) "ws/with_dataflows/item_mapping.txt"
     = "item_002 -> plain.json" ++ newline
  /\ Fs.is_file (fs (base (snd r))) "ws/with_dataflows/item_002/item_002.pqt" = true
  /\ map snd (messages (snd r))
     = [ProcessingWorkspace "ws" "ws"; FoundItems 1 "ws"; WorkingInPlace;
        MovedSummary 1 1;
        MappingCreated 1 "ws/with_dataflows/item_mapping.txt";
        ProcessingComplete 1 1 1 1 1 0 "ws" (Some "ws/with_dataflows")].
Proof. vm_compute. repeat split. Qed.

(** The whole workflow into another output directory ends with status
    0 and leaves the workspace as the decode stage made it. *)
Example workflow_into_output_directory :
  let r := Script.main (fun p => p)
             {| Script.mode := All; Script.source_directory := "ws";
                Script.output := Some "out" |}
             {| base := world0 fs_two; messages := [] |} in
  fst r = Ok 0
  /\ Fs.text_at (fs (base (snd r))) "out/with_dataflows/item_mapping.txt"
     = "item_002 -> plain.json" ++ newline
  /\ Fs.is_dir (fs (base (snd r))) "ws/item_002" = true
  /\ Fs.exists_ (fs (base (snd r))) "out/item_002" = false.
Proof. vm_compute. repeat split. Qed.
